(** * The training and evaluation drivers of ssd_pytorch

    A shallow embedding of [train.py] ([Trainer]) and [eval.py] ([Eval]).
    Both files are orchestration code: they read a configuration, build
    objects of the detection library (model, loss, label encoder, data
    loaders, decoder), touch the file system and call OpenCV.  The embedding
    therefore consists of

    - the Python values the two files manipulate ([pyval], objects as
      attribute dictionaries, module globals as a dictionary);
    - a world (file system, random generator, standard output, and the
      trace of calls made to the detection library and to OpenCV);
    - a state-and-exception monad [M] in which every method is written
      statement by statement;
    - the collaborators that are not part of the two files (network,
      loss, encoder, decoder, anchor generator, data pipeline, OpenCV,
      floating point), taken as an interface ([Collaborators]). *)

From Stdlib Require Import Ascii String ZArith QArith.
From stdpp Require Import base gmap strings list fin_maps pretty.

Set Warnings "-register-all".
Set Default Proof Using "Type".

(** ** Exceptions *)

Inductive exn :=
| NameError (name : string)
| AttributeError (attr : string)
| TypeError (what : string)
| ValueError (what : string)
| IndexError
| ZeroDivisionError
| Exception_ (msg : string)
| FileNotFoundError (path : string)
| FileExistsError (path : string)
| IsADirectoryError (path : string)
| NotADirectoryError (path : string)
| OSError (path : string)
| RuntimeError (msg : string).

Inductive result (A : Type) :=
| Ok (a : A)
| Raise (e : exn).
Arguments Ok {A} a.
Arguments Raise {A} e.

#[export] Instance result_ret : MRet result := λ A a, Ok a.
#[export] Instance result_bind : MBind result := λ A B f r,
  match r with
  | Ok a => f a
  | Raise e => Raise e
  end.

(** ** File system

    A tree of directories and files.  A path string is resolved to its list
    of components; empty and ["."] components are dropped, so relative paths
    are taken from the root of the tree (the working directory) and a
    trailing slash is not told from its absence.  Symbolic links, [".."]
    and paths that end in a slash are outside the model. *)

Inductive node :=
| File (content : string)
| Dir (children : gmap string node).

Definition is_dir (n : node) : bool :=
  match n with Dir _ => true | File _ => false end.

Fixpoint fs_lookup (n : node) (p : list string) : option node :=
  match p with
  | [] => Some n
  | c :: p' =>
      match n with
      | Dir ch => match ch !! c with
                  | Some n' => fs_lookup n' p'
                  | None => None
                  end
      | File _ => None
      end
  end.

(** [fs_remove n p] unlinks the entry at [p] together with everything
    below it; the root itself cannot be unlinked, only emptied. *)
Fixpoint fs_remove (n : node) (p : list string) : node :=
  match p with
  | [] => match n with Dir _ => Dir ∅ | File c => File c end
  | [c] => match n with
           | Dir ch => Dir (delete c ch)
           | File s => File s
           end
  | c :: p' =>
      match n with
      | Dir ch => match ch !! c with
                  | Some n' => Dir (<[c := fs_remove n' p']> ch)
                  | None => Dir ch
                  end
      | File s => File s
      end
  end.

(** [fs_mkdirs n p] creates the directory [p] and its missing ancestors;
    [None] when a component of [p] is an existing regular file. *)
Fixpoint fs_mkdirs (n : node) (p : list string) : option node :=
  match n with
  | File _ => None
  | Dir ch =>
      match p with
      | [] => Some (Dir ch)
      | c :: p' =>
          match fs_mkdirs (default (Dir ∅) (ch !! c)) p' with
          | Some n' => Some (Dir (<[c := n']> ch))
          | None => None
          end
      end
  end.

(** [fs_put n p f] stores the file [f] at [p]; the parent directory must
    exist and [p] must not be a directory. *)
Fixpoint fs_put (n : node) (p : list string) (f : string) : option node :=
  match p with
  | [] => match n with File _ => Some (File f) | Dir _ => None end
  | c :: p' =>
      match n with
      | File _ => None
      | Dir ch =>
          match p', ch !! c with
          | [], None => Some (Dir (<[c := File f]> ch))
          | _, None => None
          | _, Some n' =>
              match fs_put n' p' f with
              | Some n'' => Some (Dir (<[c := n'']> ch))
              | None => None
              end
          end
      end
  end.

(** ** Strings and paths *)

Definition slash : ascii := "/"%char.
Definition dot : ascii := "."%char.

Fixpoint split_on (sep : ascii) (s : string) : list string :=
  match s with
  | EmptyString => [EmptyString]
  | String a s' =>
      if Ascii.eqb a sep then EmptyString :: split_on sep s'
      else match split_on sep s' with
           | [] => [String a EmptyString]
           | x :: xs => String a x :: xs
           end
  end.

Definition path_components (p : string) : list string :=
  filter (λ c, c ≠ EmptyString ∧ c ≠ ".") (split_on slash p).

Definition starts_with_slash (s : string) : bool :=
  match s with String a _ => Ascii.eqb a slash | EmptyString => false end.

Fixpoint ends_with_slash (s : string) : bool :=
  match s with
  | EmptyString => false
  | String a EmptyString => Ascii.eqb a slash
  | String _ s' => ends_with_slash s'
  end.

(** [os.path.join] for two arguments (posixpath). *)
Definition os_path_join (a b : string) : string :=
  if starts_with_slash b then b
  else if bool_decide (a = EmptyString) || ends_with_slash a then a +:+ b
  else a +:+ "/" +:+ b.

(** [os.path.basename]: what follows the last slash. *)
Definition os_path_basename (p : string) : string :=
  List.last (split_on slash p) EmptyString.

(** [s.split('.')[0]] *)
Definition before_first_dot (s : string) : string :=
  hd EmptyString (split_on dot s).

Definition unwords (ws : list string) : string :=
  String.concat " " ws.

(** ** Carriers of the collaborators

    The types whose inhabitants only the detection library, PyTorch and
    OpenCV look into. *)

Class Carriers := {
  float : Type;        (* Python and numpy floating-point numbers *)
  rng : Type;          (* state of the random generators *)
  tdata : Type;        (* the entries of a tensor or numpy array *)
  state_dict : Type;   (* the parameters of a network *)
  grads : Type;        (* the gradients stored with the parameters *)
  adam_state : Type;   (* the moment estimates of torch.optim.Adam *)
  pixels : Type;       (* the pixels of an OpenCV image *)
  annotations : Type;  (* the parsed annotation file of a dataset *)
}.

Section Pipeline.
Context {carriers : Carriers}.

(** ** Configuration (class [Config] of [config.py], by the attributes the
    two files read) *)

Record TrainConfig := {
  tc_model_name : string;
  tc_checkpoint_dir : string;
  tc_checkpoint_file : string;
  tc_data_dir : string;
  tc_train_file_path : string;
  tc_eval_file_path : string;
  tc_batch_size : Z;
  tc_alpha : float;
  tc_neg_pos_ratio : Z;
  tc_num_epochs : Z;
}.

Record EvalCfg := {
  ec_data_dir : string;
  ec_eval_file_path : string;
  ec_batch_size : Z;
  ec_threshold : float;
  ec_iou_threshold : float;
  ec_groundtruths : string;
  ec_detections : string;
  ec_debug_imgs : string;
}.

Record Config := {
  cfg_img_width : Z;
  cfg_img_height : Z;
  cfg_nclasses : Z;
  cfg_scales : list float;
  cfg_aspect_ratios : list float;
  cfg_variances : list float;
  cfg_train_cfg : TrainConfig;
  cfg_eval_cfg : EvalCfg;
}.

(** ** Objects of the libraries, by the way the two files construct them *)

Record tensor := {
  t_shape : list Z;
  t_data : tdata;
}.

(** A numpy vector, as the boxes of a label or of a detection. *)
Abbreviation ndarray := (list float).

(** An [nn.Module] built by [SSDModel(...)] or [Vgg19BaseSSD(...)]. *)
Record Module_ := {
  mod_class : string;
  mod_img_width : Z;
  mod_img_height : Z;
  mod_nclasses : Z;
  mod_scales : list float;
  mod_aspect_ratios : list float;
  mod_state : state_dict;
  mod_grad : grads;
  mod_training : bool;
}.

(** [SSDLoss(alpha, neg_pos_ratio)] *)
Record SSDLoss := {
  loss_alpha : float;
  loss_neg_pos_ratio : Z;
}.

(** The anchor boxes of §3 of the specification. *)
Record AnchorBox := {
  ab_cx : float;
  ab_cy : float;
  ab_w : float;
  ab_h : float;
}.

(** [SSDLabelEncoder(anchor_boxes, nclasses, img_height, img_width,
    variance=...)] *)
Record SSDLabelEncoder := {
  enc_anchor_boxes : list AnchorBox;
  enc_nclasses : Z;
  enc_img_height : Z;
  enc_img_width : Z;
  enc_variance : ndarray;
}.

(** [torch.optim.Adam(params)] *)
Record Adam := {
  adam_moments : adam_state;
}.

(** [SSDDataAugmentation(target_size=..., ..., train=...)]; a range is
    (low, high, prob), the literals are kept as written. *)
Record SSDDataAugmentation := {
  aug_target_size : Z * Z;   (* 'h', 'w' *)
  aug_random_brightness : option (Q * Q * Q);
  aug_random_contrast : option (Q * Q * Q);
  aug_random_saturation : option (Q * Q * Q);
  aug_random_hue : option (Q * Q * Q);
  aug_channel_shuffle : option Q;
  aug_random_translate : option (Q * Q * Q);
  aug_random_scale : option (Q * Q * Q);
  aug_prob : option Q;
  aug_train : bool;
}.

Inductive transform :=
| Augment (a : SSDDataAugmentation)
| Transpose
| Normalization (mean std : Q)
| Normalization2 (mean std : Q).

(** [SSDDataset(data_dir, file_path, transform=transforms.Compose([...]))] *)
Record SSDDataset := {
  ds_data_dir : string;
  ds_file_path : string;
  ds_transform : list transform;
  ds_index : annotations;
}.

(** [DataLoader(dataset=..., batch_size=..., collate_fn=collate_sample,
    shuffle=...)] *)
Record DataLoader := {
  dl_dataset : SSDDataset;
  dl_batch_size : Z;
  dl_shuffle : bool;
}.

(** What [collate_sample] hands to the loops: [sample['image']],
    [sample['objs']] (per image, the ground-truth boxes
    [class, xmin, ymin, xmax, ymax]) and [sample['filename']]. *)
Record sample := {
  s_image : tensor;
  s_objs : list (list ndarray);
  s_filename : list string;
}.

(** An OpenCV image: [img.shape[:2]] and the pixels. *)
Record image := {
  im_h : Z;
  im_w : Z;
  im_pixels : pixels;
}.

(** ** Python values *)

Inductive pyval :=
| PyNone
| PyInt (z : Z)
| PyFloat (x : float)
| PyStr (s : string)
| PyModule (name : string)          (* an imported module *)
| PyCallable (qualname : string)    (* an imported function or class, a builtin *)
| PyArray (t : tensor)
| PyConfig (c : Config)
| PyEvalCfg (c : EvalCfg)
| PyLoader (l : DataLoader)
| PyModel (m : Module_)
| PyCriterion (c : SSDLoss)
| PyEncoder (e : SSDLabelEncoder)
| PyOptimizer (o : Adam).

(** An instance is its attribute dictionary; a module is its dictionary of
    global names. *)
Abbreviation pyobj := (gmap string pyval).

(** ** The world *)

(** The calls whose arguments the claims are about. *)
Inductive call :=
| Call_generate_anchor_boxes_model
    (predictor_shapes : list (list Z)) (scales aspect_ratios : list float)
| Call_label_encoder (enc : SSDLabelEncoder) (objs : list (list ndarray))
| Call_criterion (crit : SSDLoss) (output labels : tensor)
| Call_decode_output (args : list pyval) (kwargs : list (string * pyval))
| Call_cv2_rectangle (img : image) (pt1 pt2 : Z * Z) (color : Z * Z * Z)
    (thickness : Z)
| Call_cv2_putText (img : image) (text : string) (org : Z * Z) (font : Z)
    (font_scale : Z) (color : Z * Z * Z) (thickness : Z).

Record world := {
  w_fs : node;
  w_rng : rng;
  w_stdout : list string;
  w_trace : list call;
}.

(** ** The monad of statements: state and exceptions *)

Definition M (A : Type) : Type := world → result A * world.

#[export] Instance M_ret : MRet M := λ A a w, (Ok a, w).
#[export] Instance M_bind : MBind M := λ A B f m w,
  match m w with
  | (Ok a, w') => f a w'
  | (Raise e, w') => (Raise e, w')
  end.

Definition raise {A} (e : exn) : M A := λ w, (Raise e, w).

Definition lift {A} (r : result A) : M A := λ w, (r, w).

Definition get_fs : M node := λ w, (Ok (w_fs w), w).

Definition set_fs (n : node) : M unit := λ w,
  (Ok tt, {| w_fs := n; w_rng := w_rng w; w_stdout := w_stdout w;
             w_trace := w_trace w |}).

Definition with_rng {A} (f : rng → A * rng) : M A := λ w,
  let '(a, r) := f (w_rng w) in
  (Ok a, {| w_fs := w_fs w; w_rng := r; w_stdout := w_stdout w;
            w_trace := w_trace w |}).

(** [print(a, b, ...)] *)
Definition print (args : list string) : M unit := λ w,
  (Ok tt, {| w_fs := w_fs w; w_rng := w_rng w;
             w_stdout := w_stdout w ++ [unwords args];
             w_trace := w_trace w |}).

Definition emit (c : call) : M unit := λ w,
  (Ok tt, {| w_fs := w_fs w; w_rng := w_rng w; w_stdout := w_stdout w;
             w_trace := w_trace w ++ [c] |}).

(** [for x in l: s = body(s, x)] *)
Fixpoint for_each {A S} (body : S → A → M S) (s : S) (l : list A) : M S :=
  match l with
  | [] => mret s
  | x :: l' => s' ← body s x; for_each body s' l'
  end.

(** An iterator that yields [l] and then, possibly, fails. *)
Definition for_each_then {A S} (body : S → A → M S) (s : S)
    (it : list A * option exn) : M S :=
  s' ← for_each body s it.1;
  match it.2 with
  | None => mret s'
  | Some e => raise e
  end.

(** ** Names, attributes and numbers *)

(** The functions of the [builtins] module. *)
Definition builtins : gset string :=
  list_to_set
    ["abs"; "all"; "any"; "ascii"; "bin"; "bool"; "breakpoint"; "bytearray";
     "bytes"; "callable"; "chr"; "classmethod"; "compile"; "complex";
     "delattr"; "dict"; "dir"; "divmod"; "enumerate"; "eval"; "exec";
     "filter"; "float"; "format"; "frozenset"; "getattr"; "globals";
     "hasattr"; "hash"; "help"; "hex"; "id"; "input"; "int"; "isinstance";
     "issubclass"; "iter"; "len"; "list"; "locals"; "map"; "max";
     "memoryview"; "min"; "next"; "object"; "oct"; "open"; "ord"; "pow";
     "print"; "property"; "range"; "repr"; "reversed"; "round"; "set";
     "setattr"; "slice"; "sorted"; "staticmethod"; "str"; "sum"; "super";
     "tuple"; "type"; "vars"; "zip"; "__import__"; "Exception"].

(** A name that is not local: the module's globals, then the builtins. *)
Definition lookup_name (g : pyobj) (name : string) : result pyval :=
  match g !! name with
  | Some v => Ok v
  | None =>
      if bool_decide (name ∈ builtins) then Ok (PyCallable ("builtins." +:+ name))
      else Raise (NameError name)
  end.

(** [self.<attr>] *)
Definition getattr (self : pyobj) (attr : string) : result pyval :=
  match self !! attr with
  | Some v => Ok v
  | None => Raise (AttributeError attr)
  end.

(** The name [name] is used as the library object [qualname]. *)
Definition the_callable (qualname : string) (v : pyval) : result unit :=
  match v with
  | PyCallable q =>
      if bool_decide (q = qualname) then Ok tt else Raise (TypeError qualname)
  | _ => Raise (TypeError qualname)
  end.

(** [v.<attr>] where the attribute is the one of module [name]. *)
Definition the_module (name attr : string) (v : pyval) : result unit :=
  match v with
  | PyModule n =>
      if bool_decide (n = name) then Ok tt else Raise (AttributeError attr)
  | _ => Raise (AttributeError attr)
  end.

Definition as_config (attr : string) (v : pyval) : result Config :=
  match v with PyConfig c => Ok c | _ => Raise (AttributeError attr) end.

Definition as_eval_cfg (attr : string) (v : pyval) : result EvalCfg :=
  match v with PyEvalCfg c => Ok c | _ => Raise (AttributeError attr) end.

Definition as_loader (v : pyval) : result DataLoader :=
  match v with PyLoader l => Ok l | _ => Raise (TypeError "iter") end.

Definition as_model (v : pyval) : result Module_ :=
  match v with PyModel m => Ok m | _ => Raise (TypeError "model") end.

Definition as_criterion (v : pyval) : result SSDLoss :=
  match v with PyCriterion c => Ok c | _ => Raise (TypeError "criterion") end.

Definition as_encoder (v : pyval) : result SSDLabelEncoder :=
  match v with PyEncoder e => Ok e | _ => Raise (TypeError "label_encoder") end.

Definition as_optimizer (v : pyval) : result Adam :=
  match v with PyOptimizer o => Ok o | _ => Raise (AttributeError "step") end.

Definition as_str (v : pyval) : result string :=
  match v with PyStr s => Ok s | _ => Raise (TypeError "str") end.

(** ** The collaborators

    What the two files call and do not define.  Each function stands for
    the result of the call on the given arguments; the calls that draw
    random numbers take and return the generator, the calls that read files
    take the file contents. *)

Class Collaborators := {
  (* floating point *)
  fadd : float → float → float;
  fmul : float → float → float;
  fdiv : float → float → float;
  float_of_int : Z → float;             (* float(n) *)
  int_of_float : float → Z;             (* int(x), x.astype(np.int) *)
  float_is_zero : float → bool;
  format_float : float → string;        (* '{}'.format(x) *)
  format_float4 : float → string;       (* '{:.4f}'.format(x) *)
  (* torch *)
  cuda_is_available : bool;
  randn_data : list Z → rng → tdata * rng;
  pickle : state_dict → string;         (* torch.save *)
  unpickle : string → option state_dict;  (* torch.load *)
  (* the networks of model.py and VGG19BaseSSD.py *)
  init_parameters :
    string → Z → Z → Z → list float → list float → rng → (state_dict * grads) * rng;
  forward : Module_ → tensor → tensor;
  get_predictor_shapes : Module_ → tensor → list (list Z);
  load_parameters : Module_ → state_dict → option state_dict;
  (* autograd and torch.optim.Adam *)
  item : tensor → float;
  zero_grad : state_dict → grads → grads;
  backward : Module_ → tensor → grads;
  adam_init : state_dict → adam_state;
  adam_step : adam_state → state_dict → grads → adam_state * state_dict;
  (* box_utils.py, label_encoder.py, ssd_loss.py, decode_utils.py *)
  generate_anchor_boxes_model :
    list (list Z) → list float → list float → list AnchorBox;
  encode : SSDLabelEncoder → list (list ndarray) → tensor;
  ssd_loss : SSDLoss → tensor → tensor → tensor;
  decode_output : tensor → pyval → pyval → list (list ndarray);
  (* data_utils.py and torch.utils.data *)
  read_annotations : string → string → node → result annotations;
  dataset_len : SSDDataset → Z;
  loader_len : DataLoader → Z;
  loader_iter : DataLoader → node → rng → (list sample * option exn) * rng;
  (* OpenCV *)
  imdecode : string → option image;     (* cv2.imread on the file's bytes *)
  imencode : image → string;            (* cv2.imwrite *)
  rectangle_pixels :
    image → Z * Z → Z * Z → Z * Z * Z → Z → pixels;
  putText_pixels :
    image → string → Z * Z → Z → Z → Z * Z * Z → Z → pixels;
}.

Context {collaborators : Collaborators}.

(** Python numbers: [a + b] and [a / b]. *)
Definition py_add (a b : pyval) : result pyval :=
  match a, b with
  | PyInt x, PyInt y => Ok (PyInt (x + y))
  | PyInt x, PyFloat y => Ok (PyFloat (fadd (float_of_int x) y))
  | PyFloat x, PyInt y => Ok (PyFloat (fadd x (float_of_int y)))
  | PyFloat x, PyFloat y => Ok (PyFloat (fadd x y))
  | _, _ => Raise (TypeError "+")
  end.

Definition py_truediv (a b : pyval) : result pyval :=
  match a, b with
  | PyInt x, PyInt y =>
      if bool_decide (y = 0%Z) then Raise ZeroDivisionError
      else Ok (PyFloat (fdiv (float_of_int x) (float_of_int y)))
  | PyFloat x, PyInt y =>
      if bool_decide (y = 0%Z) then Raise ZeroDivisionError
      else Ok (PyFloat (fdiv x (float_of_int y)))
  | PyInt x, PyFloat y =>
      if float_is_zero y then Raise ZeroDivisionError
      else Ok (PyFloat (fdiv (float_of_int x) y))
  | PyFloat x, PyFloat y =>
      if float_is_zero y then Raise ZeroDivisionError
      else Ok (PyFloat (fdiv x y))
  | _, _ => Raise (TypeError "/")
  end.

(** ['{}'.format(v)] for the values that are printed. *)
Definition py_str (v : pyval) : string :=
  match v with
  | PyInt z => pretty z
  | PyFloat x => format_float x
  | PyStr s => s
  | _ => "<object>"
  end.

(** ['{:.4f}'.format(v)] *)
Definition py_fixed4 (v : pyval) : result string :=
  match v with
  | PyInt z => Ok (format_float4 (float_of_int z))
  | PyFloat x => Ok (format_float4 x)
  | _ => Raise (TypeError "format")
  end.

(** ** Library calls with effects *)

(** [torch.randn] of the given dimensions *)
Definition torch_randn (shape : list Z) : M tensor :=
  d ← with_rng (randn_data shape);
  mret {| t_shape := shape; t_data := d |}.

(** [os.path.exists(p)], [os.path.isdir(p)] *)
Definition path_exists (fs : node) (p : string) : bool :=
  bool_decide (p ≠ EmptyString)
  && bool_decide (is_Some (fs_lookup fs (path_components p))).

Definition path_isdir (fs : node) (p : string) : bool :=
  bool_decide (p ≠ EmptyString)
  && match fs_lookup fs (path_components p) with
     | Some n => is_dir n
     | None => false
     end.

Definition os_path_exists (p : string) : M bool :=
  fs ← get_fs;
  mret (path_exists fs p).

Definition os_path_isdir (p : string) : M bool :=
  fs ← get_fs;
  mret (path_isdir fs p).

(** [shutil.rmtree(p)] *)
Definition shutil_rmtree (p : string) : M unit :=
  fs ← get_fs;
  match fs_lookup fs (path_components p) with
  | None => raise (FileNotFoundError p)
  | Some (File _) => raise (NotADirectoryError p)
  | Some (Dir _) =>
      set_fs (fs_remove fs (path_components p));;
      (* the working directory itself is emptied but cannot be removed *)
      if bool_decide (path_components p = []) then raise (OSError p)
      else mret tt
  end.

(** [os.makedirs(p, exist_ok=True)] *)
Definition os_makedirs_exist_ok (p : string) : M unit :=
  fs ← get_fs;
  if bool_decide (p = EmptyString) then raise (FileNotFoundError p)
  else
    match fs_lookup fs (path_components p) with
    | Some (File _) => raise (FileExistsError p)
    | _ =>
        match fs_mkdirs fs (path_components p) with
        | Some fs' => set_fs fs'
        | None => raise (NotADirectoryError p)
        end
    end.

(** Reading and writing whole files: [open(p, 'rb').read()] and
    [open(p, 'w')] ... [close()]. *)
Definition read_file (p : string) : M string :=
  fs ← get_fs;
  match fs_lookup fs (path_components p) with
  | Some (File c) => if bool_decide (p = EmptyString) then raise (FileNotFoundError p) else mret c
  | Some (Dir _) =>
      if bool_decide (p = EmptyString) then raise (FileNotFoundError p)
      else raise (IsADirectoryError p)
  | None => raise (FileNotFoundError p)
  end.

Definition write_file (p : string) (c : string) : M unit :=
  fs ← get_fs;
  if bool_decide (p = EmptyString) then raise (FileNotFoundError p)
  else
    match fs_lookup fs (path_components p) with
    | Some (Dir _) => raise (IsADirectoryError p)
    | _ =>
        match fs_put fs (path_components p) c with
        | Some fs' => set_fs fs'
        | None => raise (FileNotFoundError p)
        end
    end.

(** [torch.load(p)], [torch.save(sd, p)] *)
Definition torch_load (p : string) : M state_dict :=
  c ← read_file p;
  match unpickle c with
  | Some sd => mret sd
  | None => raise (RuntimeError "Invalid magic number; corrupt file?")
  end.

Definition torch_save (sd : state_dict) (p : string) : M unit :=
  write_file p (pickle sd).

(** [model.load_state_dict(sd)] *)
Definition load_state_dict (m : Module_) (sd : state_dict) : M Module_ :=
  match load_parameters m sd with
  | Some sd' =>
      mret {| mod_class := mod_class m; mod_img_width := mod_img_width m;
              mod_img_height := mod_img_height m;
              mod_nclasses := mod_nclasses m; mod_scales := mod_scales m;
              mod_aspect_ratios := mod_aspect_ratios m;
              mod_state := sd'; mod_grad := mod_grad m;
              mod_training := mod_training m |}
  | None => raise (RuntimeError "Error(s) in loading state_dict")
  end.

(** [model.train()] and [model.eval()] *)
Definition set_training (b : bool) (m : Module_) : Module_ :=
  {| mod_class := mod_class m; mod_img_width := mod_img_width m;
     mod_img_height := mod_img_height m; mod_nclasses := mod_nclasses m;
     mod_scales := mod_scales m; mod_aspect_ratios := mod_aspect_ratios m;
     mod_state := mod_state m; mod_grad := mod_grad m;
     mod_training := b |}.

Definition with_grad (g : grads) (m : Module_) : Module_ :=
  {| mod_class := mod_class m; mod_img_width := mod_img_width m;
     mod_img_height := mod_img_height m; mod_nclasses := mod_nclasses m;
     mod_scales := mod_scales m; mod_aspect_ratios := mod_aspect_ratios m;
     mod_state := mod_state m; mod_grad := g;
     mod_training := mod_training m |}.

Definition with_state (sd : state_dict) (m : Module_) : Module_ :=
  {| mod_class := mod_class m; mod_img_width := mod_img_width m;
     mod_img_height := mod_img_height m; mod_nclasses := mod_nclasses m;
     mod_scales := mod_scales m; mod_aspect_ratios := mod_aspect_ratios m;
     mod_state := sd; mod_grad := mod_grad m;
     mod_training := mod_training m |}.

(** [cls(img_width, img_height, nclasses, scales, aspect_ratios)] for the
    two network classes: fresh parameters, training mode. *)
Definition new_module (cls : string) (width height n : Z)
    (scales ratios : list float) : M Module_ :=
  '(sd, g) ← with_rng (init_parameters cls width height n scales ratios);
  mret {| mod_class := cls; mod_img_width := width; mod_img_height := height;
          mod_nclasses := n; mod_scales := scales;
          mod_aspect_ratios := ratios; mod_state := sd; mod_grad := g;
          mod_training := true |}.

(** [SSDDataset(data_dir, file_path, transform=...)] reads the annotation
    file. *)
Definition new_dataset (data_dir file_path : string) (tr : list transform)
    : M SSDDataset :=
  fs ← get_fs;
  idx ← lift (read_annotations data_dir file_path fs);
  mret {| ds_data_dir := data_dir; ds_file_path := file_path;
          ds_transform := tr; ds_index := idx |}.

(** [torch.utils.data.DataLoader(dataset=ds, batch_size=n, collate_fn=...,
    shuffle=b)].  The constructor builds the sampler and then the batch
    sampler: the random sampler of a shuffling loader refuses an empty data
    set, the batch sampler a batch size that is not positive. *)
Definition new_loader (ds : SSDDataset) (batch_size : Z) (shuffle : bool)
    : M DataLoader :=
  if shuffle && bool_decide (dataset_len ds ≤ 0)%Z then
    raise (ValueError
             ("num_samples should be a positive integer value, "
              +:+ "but got num_samples=" +:+ pretty (dataset_len ds)))
  else if bool_decide (batch_size ≤ 0)%Z then
    raise (ValueError
             ("batch_size should be a positive integer value, "
              +:+ "but got batch_size=" +:+ pretty batch_size))
  else
    mret {| dl_dataset := ds; dl_batch_size := batch_size;
            dl_shuffle := shuffle |}.

(** [iter(loader)], run to the end. *)
Definition iterate (l : DataLoader) : M (list sample * option exn) :=
  fs ← get_fs;
  with_rng (loader_iter l fs).

(** The calls that are traced. *)
Definition call_generate_anchor_boxes_model (shapes : list (list Z))
    (scales ratios : list float) : M (list AnchorBox) :=
  emit (Call_generate_anchor_boxes_model shapes scales ratios);;
  mret (generate_anchor_boxes_model shapes scales ratios).

Definition call_label_encoder (enc : SSDLabelEncoder)
    (objs : list (list ndarray)) : M tensor :=
  emit (Call_label_encoder enc objs);;
  mret (encode enc objs).

Definition call_criterion (crit : SSDLoss) (output labels : tensor)
    : M tensor :=
  emit (Call_criterion crit output labels);;
  mret (ssd_loss crit output labels).

(** * train.py *)

(** [device = 'cuda' if torch.cuda.is_available() else 'cpu'].  A tensor or
    module moved with [.to(device)] is the same value on another device;
    placement is not modelled. *)
Definition device : string :=
  if cuda_is_available then "cuda" else "cpu".

Definition self_cfg (self : pyobj) : result Config :=
  getattr self "cfg" ≫= as_config "train_cfg".

Definition self_model (self : pyobj) : result Module_ :=
  getattr self "model" ≫= as_model.

Definition self_loader (self : pyobj) (attr : string) : result DataLoader :=
  getattr self attr ≫= as_loader.

Definition self_label_encoder (self : pyobj) : result SSDLabelEncoder :=
  getattr self "label_encoder" ≫= as_encoder.

Definition self_criterion (self : pyobj) : result SSDLoss :=
  getattr self "criterion" ≫= as_criterion.

Definition self_optimizer (self : pyobj) : result Adam :=
  getattr self "optimizer" ≫= as_optimizer.

(** The local variable [checkpoint_path] of [build_model], line 34. *)
Definition checkpoint_path (tc : TrainConfig) : string :=
  os_path_join (tc_checkpoint_dir tc) (tc_checkpoint_file tc).

(** [Trainer.build_model], lines 24-39 *)
Definition build_model (self : pyobj) : M pyobj :=
  cfg ← lift (self_cfg self);
  let tc := cfg_train_cfg cfg in
  self ←
    (if bool_decide (tc_model_name tc = "SSDModel") then
       m ← new_module "SSDModel" (cfg_img_width cfg) (cfg_img_height cfg)
             (cfg_nclasses cfg) (cfg_scales cfg) (cfg_aspect_ratios cfg);
       mret (<["model" := PyModel m]> self)
     else if bool_decide (tc_model_name tc = "Vgg19BaseSSD") then
       m ← new_module "Vgg19BaseSSD" (cfg_img_width cfg) (cfg_img_height cfg)
             (cfg_nclasses cfg) (cfg_scales cfg) (cfg_aspect_ratios cfg);
       mret (<["model" := PyModel m]> self)
     else raise (Exception_ "Model name not found!"));
  let checkpoint_path := checkpoint_path tc in
  found ← os_path_exists checkpoint_path;
  if found : bool then
    print ["Loading checkpoint from: "; checkpoint_path];;
    m ← lift (self_model self);
    sd ← torch_load checkpoint_path;
    m' ← load_state_dict m sd;
    mret (<["model" := PyModel m']> self)
  else
    print ["Checkpoint file " +:+ checkpoint_path +:+ " don't exists"];;
    mret self.

(** [Trainer.prepare_data], lines 42-73 *)
Definition prepare_data (self : pyobj) : M pyobj :=
  cfg ← lift (self_cfg self);
  let tc := cfg_train_cfg cfg in
  let train_aug :=
    {| aug_target_size := (cfg_img_height cfg, cfg_img_width cfg);
       aug_random_brightness := Some (-48, 48, 0.5)%Q;
       aug_random_contrast := Some (0.5, 1.8, 0.5)%Q;
       aug_random_saturation := Some (0.5, 1.8, 0.5)%Q;
       aug_random_hue := Some (0.5, 1.5, 0.5)%Q;
       aug_channel_shuffle := Some 0.5%Q;
       aug_random_translate := Some (-0.2, 0.2, 0.5)%Q;
       aug_random_scale := Some (0.7, 1.2, 0.5)%Q;
       aug_prob := Some 0.8%Q;
       aug_train := true |} in
  let eval_aug :=
    {| aug_target_size := (cfg_img_height cfg, cfg_img_width cfg);
       aug_random_brightness := None; aug_random_contrast := None;
       aug_random_saturation := None; aug_random_hue := None;
       aug_channel_shuffle := None; aug_random_translate := None;
       aug_random_scale := None; aug_prob := None;
       aug_train := false |} in
  train_ds ← new_dataset (tc_data_dir tc) (tc_train_file_path tc)
               [Augment train_aug; Transpose; Normalization2 127.5 127.5];
  eval_ds ← new_dataset (tc_data_dir tc) (tc_eval_file_path tc)
              [Augment eval_aug; Transpose; Normalization2 127.5 127.5];
  train_loader ← new_loader train_ds (tc_batch_size tc) true;
  let self := <["train_loader" := PyLoader train_loader]> self in
  eval_loader ← new_loader eval_ds (tc_batch_size tc) false;
  let self := <["eval_loader" := PyLoader eval_loader]> self in
  print ["Loaded dataset, train " +:+ pretty (dataset_len train_ds)
         +:+ " samples, eval " +:+ pretty (dataset_len eval_ds)
         +:+ " samples"];;
  mret self.

(** [Trainer.parse_config], lines 76-88 *)
Definition parse_config (self : pyobj) : M pyobj :=
  self ← build_model self;
  cfg ← lift (self_cfg self);
  let tc := cfg_train_cfg cfg in
  let self :=
    <["criterion" :=
        PyCriterion {| loss_alpha := tc_alpha tc;
                       loss_neg_pos_ratio := tc_neg_pos_ratio tc |}]> self in
  x ← torch_randn [1; 3; cfg_img_height cfg; cfg_img_width cfg]%Z;
  m ← lift (self_model self);
  let predictor_shapes := get_predictor_shapes m x in
  anchor_boxes ← call_generate_anchor_boxes_model predictor_shapes
                   (cfg_scales cfg) (cfg_aspect_ratios cfg);
  let self :=
    <["label_encoder" :=
        PyEncoder {| enc_anchor_boxes := anchor_boxes;
                     enc_nclasses := cfg_nclasses cfg;
                     enc_img_height := cfg_img_height cfg;
                     enc_img_width := cfg_img_width cfg;
                     enc_variance := cfg_variances cfg |}]> self in
  m ← lift (self_model self);
  let self :=
    <["optimizer" :=
        PyOptimizer {| adam_moments := adam_init (mod_state m) |}]> self in
  e ← os_path_exists (tc_checkpoint_dir tc);
  d ← (if e : bool then os_path_isdir (tc_checkpoint_dir tc) else mret false);
  (if d : bool then shutil_rmtree (tc_checkpoint_dir tc) else mret tt);;
  os_makedirs_exist_ok (tc_checkpoint_dir tc);;
  mret self.

(** [Trainer.__init__], lines 19-22 *)
Definition Trainer__init__ (cfg : Config) : M pyobj :=
  let self : pyobj := {["cfg" := PyConfig cfg]} in
  self ← prepare_data self;
  parse_config self.

(** One iteration of the loop of [train_on_epoch], lines 95-104; the
    state of the loop is [self] and [total_loss]. *)
Definition train_batch (st : pyobj * pyval) (sample : sample)
    : M (pyobj * pyval) :=
  let '(self, total_loss) := st in
  let images := s_image sample in
  let objs := s_objs sample in
  m ← lift (self_model self);
  let output := forward m images in
  enc ← lift (self_label_encoder self);
  labels ← call_label_encoder enc objs;
  crit ← lift (self_criterion self);
  loss ← call_criterion crit output labels;
  total_loss ← lift (py_add total_loss (PyFloat (item loss)));
  opt ← lift (self_optimizer self);
  (* self.optimizer.zero_grad() *)
  let m := with_grad (zero_grad (mod_state m) (mod_grad m)) m in
  (* loss.backward() *)
  let m := with_grad (backward m loss) m in
  (* self.optimizer.step() *)
  let '(moments, sd) := adam_step (adam_moments opt) (mod_state m) (mod_grad m) in
  let self := <["model" := PyModel (with_state sd m)]> self in
  let self := <["optimizer" := PyOptimizer {| adam_moments := moments |}]> self in
  mret (self, total_loss).

(** [Trainer.train_on_epoch], lines 91-105 *)
Definition train_on_epoch (self : pyobj) (epoch : Z) : M (pyobj * pyval) :=
  m ← lift (self_model self);
  let self := <["model" := PyModel (set_training true m)]> self in
  let total_loss := PyInt 0 in
  loader ← lift (self_loader self "train_loader");
  batches ← iterate loader;
  '(self, total_loss) ← for_each_then train_batch (self, total_loss) batches;
  loader ← lift (self_loader self "train_loader");
  r ← lift (py_truediv total_loss (PyInt (loader_len loader)));
  mret (self, r).

(** One iteration of the loop of [evaluate_on_epoch], lines 113-118. *)
Definition evaluate_batch (st : pyobj * pyval) (sample : sample)
    : M (pyobj * pyval) :=
  let '(self, total_loss) := st in
  let images := s_image sample in
  let objs := s_objs sample in
  m ← lift (self_model self);
  let output := forward m images in
  enc ← lift (self_label_encoder self);
  labels ← call_label_encoder enc objs;
  crit ← lift (self_criterion self);
  loss ← call_criterion crit output labels;
  total_loss ← lift (py_add total_loss (PyFloat (item loss)));
  mret (self, total_loss).

(** [Trainer.evaluate_on_epoch], lines 108-119 *)
Definition evaluate_on_epoch (self : pyobj) (epoch : Z) : M (pyobj * pyval) :=
  m ← lift (self_model self);
  let self := <["model" := PyModel (set_training false m)]> self in
  let total_loss := PyInt 0 in
  loader ← lift (self_loader self "eval_loader");
  batches ← iterate loader;
  '(self, total_loss) ← for_each_then evaluate_batch (self, total_loss) batches;
  loader ← lift (self_loader self "eval_loader");
  r ← lift (py_truediv total_loss (PyInt (loader_len loader)));
  mret (self, r).

(** One iteration of the loop of [Trainer.run], lines 126-130. *)
Definition run_epoch (self : pyobj) (epoch : Z) : M pyobj :=
  '(self, train_epoch_loss) ← train_on_epoch self epoch;
  '(self, eval_epoch_loss) ← evaluate_on_epoch self epoch;
  print ["Epoch " +:+ pretty epoch +:+ ", train loss "
         +:+ py_str train_epoch_loss +:+ ", eval loss "
         +:+ py_str eval_epoch_loss];;
  t4 ← lift (py_fixed4 train_epoch_loss);
  e4 ← lift (py_fixed4 eval_epoch_loss);
  let checkpoint_file :=
    "ssd_" +:+ pretty epoch +:+ "_" +:+ t4 +:+ "_" +:+ e4 +:+ ".pth" in
  m ← lift (self_model self);
  cfg ← lift (self_cfg self);
  torch_save (mod_state m)
    (os_path_join (tc_checkpoint_dir (cfg_train_cfg cfg)) checkpoint_file);;
  mret self.

(** [Trainer.run], lines 122-130 *)
Definition Trainer_run (self : pyobj) : M pyobj :=
  print ["Start train model!"];;
  print ["Device: "; device];;
  cfg ← lift (self_cfg self);
  for_each run_epoch self
    (seqZ 0 (tc_num_epochs (cfg_train_cfg cfg))).

(** * eval.py *)

(** The global names of the module: what lines 1-8 bind. *)
Definition eval_globals : pyobj :=
  list_to_map
    [("torch", PyModule "torch");
     ("EvalConfig", PyCallable "config.EvalConfig");
     ("SSDModel", PyCallable "model.SSDModel");
     ("SSDDataAugmentation", PyCallable "data_utils.SSDDataAugmentation");
     ("Transpose", PyCallable "data_utils.Transpose");
     ("Normalization", PyCallable "data_utils.Normalization");
     ("collate_sample", PyCallable "data_utils.collate_sample");
     ("transforms", PyModule "torchvision.transforms");
     ("decode_output", PyCallable "decode_utils.decode_output");
     ("Eval", PyCallable "eval.Eval")].

(** [name.attr] for a module and [name(...)] for a function or a class. *)
Definition use_module (g : pyobj) (name module attr : string) : M unit :=
  v ← lift (lookup_name g name);
  lift (the_module module attr v).

Definition use_callable (g : pyobj) (name qualname : string) : M unit :=
  v ← lift (lookup_name g name);
  lift (the_callable qualname v).

(** [Eval.__init__], lines 10-11 *)
Definition Eval__init__ (cfg : Config) : M pyobj :=
  mret {["cfg" := PyConfig cfg]}.

(** [Eval.build_model], lines 13-14 *)
Definition Eval_build_model (g : pyobj) (self : pyobj) : M pyobj :=
  use_callable g "SSDModel" "model.SSDModel";;
  cfg ← lift (self_cfg self);
  m ← new_module "SSDModel" (cfg_img_width cfg) (cfg_img_height cfg)
        (cfg_nclasses cfg) (cfg_scales cfg) (cfg_aspect_ratios cfg);
  _ ← lift (lookup_name g "device");
  mret (<["model" := PyModel m]> self).

(** [Eval.prepare_data], lines 16-25 *)
Definition Eval_prepare_data (g : pyobj) (self : pyobj) : M pyobj :=
  use_callable g "SSDDataAugmentation" "data_utils.SSDDataAugmentation";;
  cfg ← lift (self_cfg self);
  let ec := cfg_eval_cfg cfg in
  let eval_aug :=
    {| aug_target_size := (cfg_img_height cfg, cfg_img_width cfg);
       aug_random_brightness := None; aug_random_contrast := None;
       aug_random_saturation := None; aug_random_hue := None;
       aug_channel_shuffle := None; aug_random_translate := None;
       aug_random_scale := None; aug_prob := None;
       aug_train := false |} in
  use_callable g "SSDDataset" "data_utils.SSDDataset";;
  use_module g "transforms" "torchvision.transforms" "Compose";;
  use_callable g "Transpose" "data_utils.Transpose";;
  use_callable g "Normalization" "data_utils.Normalization";;
  eval_ds ← new_dataset (ec_data_dir ec) (ec_eval_file_path ec)
              [Augment eval_aug; Transpose; Normalization 127.5 127.5];
  use_module g "torch" "torch" "utils";;
  use_callable g "collate_sample" "data_utils.collate_sample";;
  eval_loader ← new_loader eval_ds (ec_batch_size ec) false;
  mret (<["eval_loader" := PyLoader eval_loader]> self).

(** [self.eval_cfg] as [run] reads it (the attribute of the instance, not
    of [self.cfg]). *)
Definition self_eval_cfg (self : pyobj) : result EvalCfg :=
  getattr self "eval_cfg" ≫= as_eval_cfg "threshold".

(** [n / v] for an int [n]: a float. *)
Definition int_truediv (n : Z) (v : pyval) : result float :=
  py_truediv (PyInt n) v ≫= λ r,
  match r with
  | PyFloat x => Ok x
  | _ => Raise (TypeError "/")
  end.

(** [box[i]] *)
Definition index (box : ndarray) (i : nat) : result float :=
  match box !! i with
  | Some x => Ok x
  | None => Raise IndexError
  end.

(** [box[k:] *= [scalex, scaley, scalex, scaley]]: the slice of the array
    from position [k] on, multiplied in place. *)
Definition scale_from (k : nat) (box : ndarray) (scalex scaley : float)
    : result ndarray :=
  match drop k box with
  | [x1; y1; x2; y2] =>
      Ok (take k box ++ [fmul x1 scalex; fmul y1 scaley;
                         fmul x2 scalex; fmul y2 scaley])
  | _ => Raise (ValueError "operands could not be broadcast together")
  end.

Definition cv2_imread (p : string) : M (option image) :=
  fs ← get_fs;
  match fs_lookup fs (path_components p) with
  | Some (File c) => mret (imdecode c)
  | _ => mret None
  end.

Definition cv2_imwrite (p : string) (img : image) : M unit :=
  write_file p (imencode img).

Definition cv2_rectangle (img : image) (pt1 pt2 : Z * Z) (color : Z * Z * Z)
    (thickness : Z) : M image :=
  emit (Call_cv2_rectangle img pt1 pt2 color thickness);;
  mret {| im_h := im_h img; im_w := im_w img;
          im_pixels := rectangle_pixels img pt1 pt2 color thickness |}.

Definition cv2_putText (img : image) (text : string) (org : Z * Z)
    (font font_scale : Z) (color : Z * Z * Z) (thickness : Z) : M image :=
  emit (Call_cv2_putText img text org font font_scale color thickness);;
  mret {| im_h := im_h img; im_w := im_w img;
          im_pixels :=
            putText_pixels img text org font font_scale color thickness |}.

(** [open(p, 'w')], [f.write(s)]; [f.close()] leaves the file as written. *)
Definition open_w (p : string) : M string :=
  write_file p EmptyString;;
  mret p.

Definition f_write (f : string) (s : string) : M unit :=
  c ← read_file f;
  write_file f (c +:+ s).

Definition call_decode_output (y_pred : tensor) (conf_thresh iou_thresh : pyval)
    : M (list (list ndarray)) :=
  emit (Call_decode_output [PyArray y_pred]
          [("conf_thresh", conf_thresh); ("iou_thresh", iou_thresh)]);;
  mret (decode_output y_pred conf_thresh iou_thresh).

(** [zip(a, b, c)] *)
Fixpoint zip3 {A B C} (a : list A) (b : list B) (c : list C)
    : list (A * B * C) :=
  match a, b, c with
  | x :: a', y :: b', z :: c' => (x, y, z) :: zip3 a' b' c'
  | _, _, _ => []
  end.

(** [len(t)] for a tensor *)
Definition len_tensor (t : tensor) : result Z :=
  match t_shape t with
  | n :: _ => Ok n
  | [] => Raise (TypeError "len() of a 0-d tensor")
  end.

Definition newline : string := String (ascii_of_nat 10) EmptyString.

(** The loop over the ground-truth boxes of one image, lines 45-49. *)
Definition draw_label_box (g : pyobj) (f : string) (scalex scaley : float)
    (img : image) (box : ndarray) : M image :=
  use_callable g "int" "builtins.int";;
  b0 ← lift (index box 0);
  b1 ← lift (index box 1);
  b2 ← lift (index box 2);
  b3 ← lift (index box 3);
  b4 ← lift (index box 4);
  f_write f (pretty (int_of_float b0) +:+ " " +:+ format_float b1 +:+ " "
             +:+ format_float b2 +:+ " " +:+ format_float b3 +:+ " "
             +:+ format_float b4 +:+ newline);;
  box ← lift (scale_from 1 box scalex scaley);
  use_module g "np" "numpy" "int";;
  let box := int_of_float <$> box in
  use_module g "cv2" "cv2" "rectangle";;
  match box with
  | [_; x1; y1; x2; y2] => cv2_rectangle img (x1, y1) (x2, y2) (0, 0, 255)%Z 2
  | _ => raise IndexError
  end.

(** The loop over the detections of one image, lines 53-58. *)
Definition draw_detection (g : pyobj) (f : string) (font : Z)
    (scalex scaley : float) (img : image) (box : ndarray) : M image :=
  use_callable g "int" "builtins.int";;
  b0 ← lift (index box 0);
  b1 ← lift (index box 1);
  b2 ← lift (index box 2);
  b3 ← lift (index box 3);
  b4 ← lift (index box 4);
  b5 ← lift (index box 5);
  f_write f (pretty (int_of_float b0) +:+ " " +:+ format_float4 b1 +:+ " "
             +:+ pretty (int_of_float b2) +:+ " " +:+ pretty (int_of_float b3)
             +:+ " " +:+ pretty (int_of_float b4) +:+ " "
             +:+ pretty (int_of_float b5) +:+ newline);;
  box ← lift (scale_from 2 box scalex scaley);
  use_module g "np" "numpy" "int";;
  let b := int_of_float <$> drop 2 box in
  use_module g "cv2" "cv2" "rectangle";;
  match b with
  | [x1; y1; x2; y2] =>
      img ← cv2_rectangle img (x1, y1) (x2, y2) (255, 0, 0)%Z 2;
      use_module g "cv2" "cv2" "putText";;
      b1 ← lift (index box 1);
      cv2_putText img (format_float4 b1) (x2, y2) font 1 (0, 0, 255)%Z 2
  | _ => raise IndexError
  end.

(** The body of the loop over the images of a batch, lines 40-60. *)
Definition eval_image (g : pyobj) (self : pyobj) (font : Z) (_ : unit)
    (item : list ndarray * list ndarray * string) : M unit :=
  let '(yp, label, filename) := item in
  use_module g "cv2" "cv2" "imread";;
  use_module g "os" "os" "path";;
  images_dir ← lift (lookup_name g "images_dir");
  images_dir ← lift (as_str images_dir);
  img ← cv2_imread (os_path_join images_dir filename);
  match img with
  | None => raise (AttributeError "shape")
  | Some img =>
      let h := im_h img in
      let w := im_w img in
      img_height ← lift (lookup_name g "img_height");
      scaley ← lift (int_truediv h img_height);
      img_width ← lift (lookup_name g "img_width");
      scalex ← lift (int_truediv w img_width);
      use_callable g "open" "builtins.open";;
      use_module g "os" "os" "path";;
      ec ← lift (self_eval_cfg self);
      f ← open_w (os_path_join (ec_groundtruths ec)
                    (before_first_dot (os_path_basename filename)
                     +:+ ".txt"));
      img ← for_each (draw_label_box g f scalex scaley) img label;
      use_callable g "open" "builtins.open";;
      use_module g "os" "os" "path";;
      ec ← lift (self_eval_cfg self);
      f ← open_w (os_path_join (ec_detections ec)
                    (before_first_dot (os_path_basename filename)
                     +:+ ".txt"));
      img ← for_each (draw_detection g f font scalex scaley) img yp;
      use_module g "cv2" "cv2" "imwrite";;
      use_module g "os" "os" "path";;
      ec ← lift (self_eval_cfg self);
      cv2_imwrite (os_path_join (ec_debug_imgs ec)
                     (os_path_basename filename)) img
  end.

(** The body of the loop over the batches, lines 32-60; the state of the
    loop is [total]. *)
Definition eval_batch (g : pyobj) (self : pyobj) (font : Z) (total : Z)
    (sample : sample) : M Z :=
  let batch_images := s_image sample in
  let batch_labels := s_objs sample in
  let batch_filenames := s_filename sample in
  _ ← lift (lookup_name g "device");
  use_callable g "len" "builtins.len";;
  n ← lift (len_tensor batch_images);
  let total := (total + n)%Z in
  m ← lift (self_model self);
  let y_pred := forward m batch_images in
  use_callable g "decode_output" "decode_utils.decode_output";;
  ec ← lift (self_eval_cfg self);
  let conf_thresh := PyFloat (ec_threshold ec) in
  ec ← lift (self_eval_cfg self);
  let iou_thresh := PyFloat (ec_iou_threshold ec) in
  y_pred_decoded ← call_decode_output y_pred conf_thresh iou_thresh;
  use_callable g "zip" "builtins.zip";;
  for_each (eval_image g self font) tt
    (zip3 y_pred_decoded batch_labels batch_filenames);;
  mret total.

(** [Eval.run], lines 27-61 *)
Definition Eval_run (g : pyobj) (self : pyobj) : M unit :=
  let step := 0%Z in
  let total := 0%Z in
  use_module g "cv2" "cv2" "FONT_HERSHEY_SIMPLEX";;
  let font := 0%Z in
  loader ← lift (self_loader self "eval_loader");
  batches ← iterate loader;
  total ← for_each_then (eval_batch g self font) total batches;
  use_callable g "print" "builtins.print";;
  print ["Total images: "; pretty total].

(** * Properties of runs *)

(** The trace grows by calls that satisfy [P]. *)
Definition trace_ext (P : call → Prop) (w0 w1 : world) : Prop :=
  ∃ evs, w_trace w1 = w_trace w0 ++ evs ∧ Forall P evs.

(** Whatever the world, the statement [m] only adds calls that satisfy [P]
    to the trace, and a value it returns satisfies [Q]. *)
Definition emits {A} (P : call → Prop) (Q : A → Prop) (m : M A) : Prop :=
  ∀ w0, trace_ext P w0 (m w0).2 ∧ ∀ a, (m w0).1 = Ok a → Q a.

(** The statement [m] leaves the file system, the generator and the trace
    as they are (it may print). *)
Definition quiet {A} (m : M A) : Prop :=
  ∀ w0, w_fs (m w0).2 = w_fs w0 ∧ w_rng (m w0).2 = w_rng w0
        ∧ w_trace (m w0).2 = w_trace w0.

(** The network [m] is one that [build_model] constructs for [cfg]: its
    class and the arguments of its constructor are those of the
    configuration. *)
Definition module_of_config (cfg : Config) (m : Module_) : Prop :=
  mod_class m = tc_model_name (cfg_train_cfg cfg)
  ∧ mod_img_width m = cfg_img_width cfg
  ∧ mod_img_height m = cfg_img_height cfg
  ∧ mod_nclasses m = cfg_nclasses cfg
  ∧ mod_scales m = cfg_scales cfg
  ∧ mod_aspect_ratios m = cfg_aspect_ratios cfg.

(** The label encoder that [parse_config] builds from the predictor
    shapes [shapes]. *)
Definition encoder_of_config (cfg : Config) (shapes : list (list Z))
    : SSDLabelEncoder :=
  {| enc_anchor_boxes :=
       generate_anchor_boxes_model shapes (cfg_scales cfg)
         (cfg_aspect_ratios cfg);
     enc_nclasses := cfg_nclasses cfg;
     enc_img_height := cfg_img_height cfg;
     enc_img_width := cfg_img_width cfg;
     enc_variance := cfg_variances cfg |}.

Definition same_geometry (m1 m2 : Module_) : Prop :=
  mod_class m1 = mod_class m2
  ∧ mod_img_width m1 = mod_img_width m2
  ∧ mod_img_height m1 = mod_img_height m2
  ∧ mod_nclasses m1 = mod_nclasses m2
  ∧ mod_scales m1 = mod_scales m2
  ∧ mod_aspect_ratios m1 = mod_aspect_ratios m2.

(** Modelled from the spec: [get_predictor_shapes] (model.py,
    VGG19BaseSSD.py) and [generate_anchor_boxes_model] (box_utils.py) are
    not among the source files.  By §2 and §4.1 the anchor generator is a
    pure function of the network geometry, and by §6 the feature-map size
    of each scale belongs to the configuration.  Accordingly
    [generate_anchor_boxes_model] is a function of its three arguments, and
    the predictor shapes that a network reports depend on its class, on
    the arguments of its constructor and on the shape of the tensor it is
    given, not on the values of its parameters or on the entries of the
    tensor. *)
Definition shapes_from_geometry : Prop :=
  ∀ m1 m2 x1 x2,
    same_geometry m1 m2 → t_shape x1 = t_shape x2 →
    get_predictor_shapes m1 x1 = get_predictor_shapes m2 x2.

(** A call that is allowed once the trainer is built with the encoder
    [enc]: anything but a new generation of anchor boxes, and an encoding
    only by [enc]. *)
Definition uses_encoder (enc : SSDLabelEncoder) (c : call) : Prop :=
  match c with
  | Call_generate_anchor_boxes_model _ _ _ => False
  | Call_label_encoder e _ => e = enc
  | _ => True
  end.

(** The two traced calls of one iteration of the epoch loops, for the batch
    [b.1] and the output [b.2] of the network on it: the encoding of the
    ground truth of that batch, and the loss of the output against that
    encoding. *)
Definition batch_calls (enc : SSDLabelEncoder) (crit : SSDLoss)
    (b : sample * tensor) : list call :=
  [Call_label_encoder enc (s_objs b.1);
   Call_criterion crit b.2 (encode enc (s_objs b.1))].

(** [loss.item()] in that iteration. *)
Definition batch_loss (enc : SSDLabelEncoder) (crit : SSDLoss)
    (b : sample * tensor) : float :=
  item (ssd_loss crit b.2 (encode enc (s_objs b.1))).

(** [total_loss += x] for a float [x]. *)
Definition add_loss (total : pyval) (x : float) : pyval :=
  match total with
  | PyInt z => PyFloat (fadd (float_of_int z) x)
  | PyFloat y => PyFloat (fadd y x)
  | _ => total
  end.

(** [total_loss] after the losses [losses], from [total_loss = 0]. *)
Definition accumulated_loss (losses : list float) : pyval :=
  fold_left add_loss losses (PyInt 0).

(** Every attribute of [self'] is the one of [self], except that [model]
    may hold another network and [optimizer] another optimizer. *)
Definition only_model_and_optimizer_updated (self self' : pyobj) : Prop :=
  ∀ attr v,
    self' !! attr = Some v →
    self !! attr = Some v
    ∨ (attr = "model" ∧ ∃ m, v = PyModel m)
    ∨ (attr = "optimizer" ∧ ∃ o, v = PyOptimizer o).

(** The call of the decoder as [Eval.run] writes it (line 37): one
    positional argument, the output of the network on the image tensor of
    a whole batch of the loader, and the two keyword arguments
    [conf_thresh] and [iou_thresh] read from [self.eval_cfg]. *)
Definition decode_call_as_written (self : pyobj) (batches : list sample)
    (c : call) : Prop :=
  match c with
  | Call_decode_output args kwargs =>
      ∃ m ec sample,
        self_model self = Ok m
        ∧ self_eval_cfg self = Ok ec
        ∧ sample ∈ batches
        ∧ args = [PyArray (forward m (s_image sample))]
        ∧ kwargs = [("conf_thresh", PyFloat (ec_threshold ec));
                    ("iou_thresh", PyFloat (ec_iou_threshold ec))]
  | _ => True
  end.

(** The number of inputs a call hands to the decoder. *)
Definition decoder_inputs (c : call) : option nat :=
  match c with
  | Call_decode_output args kwargs => Some (length args + length kwargs)
  | _ => None
  end.

(** Every call of the decoder hands it the five inputs of §6 of the
    specification: the raw prediction, the anchor list, the variance
    vector, the confidence threshold and the IoU threshold. *)
Definition decoder_gets_five_inputs (trace : list call) : Prop :=
  ∀ c n, c ∈ trace → decoder_inputs c = Some n → n = 5.

(** The box [box] is one of the detections that the decoder returned for
    an image. *)
Definition decoded (box : ndarray) : Prop :=
  ∃ y_pred conf_thresh iou_thresh detections,
    detections ∈ decode_output y_pred conf_thresh iou_thresh
    ∧ box ∈ detections.

(** A rectangle drawn in the colour of the detections, [(255, 0, 0)], is
    drawn for a decoded detection
    [class, confidence, xmin, ymin, xmax, ymax], at the coordinates of the
    detection multiplied by [scalex = w / img_width] and
    [scaley = h / img_height], where [h, w] is the shape of the image it is
    drawn on, and truncated to integers. *)
Definition detection_drawn_scaled (g : pyobj) (c : call) : Prop :=
  match c with
  | Call_cv2_rectangle img pt1 pt2 color thickness =>
      color = (255, 0, 0)%Z →
      ∃ img_height img_width scaley scalex cls conf xmin ymin xmax ymax,
        lookup_name g "img_height" = Ok img_height
        ∧ lookup_name g "img_width" = Ok img_width
        ∧ int_truediv (im_h img) img_height = Ok scaley
        ∧ int_truediv (im_w img) img_width = Ok scalex
        ∧ decoded [cls; conf; xmin; ymin; xmax; ymax]
        ∧ pt1 = (int_of_float (fmul xmin scalex),
                 int_of_float (fmul ymin scaley))
        ∧ pt2 = (int_of_float (fmul xmax scalex),
                 int_of_float (fmul ymax scaley))
  | _ => True
  end.

(** The batches that the loop of [Eval.run] draws from [self.eval_loader]
    in the world [w0]. *)
Definition eval_batches (self : pyobj) (w0 : world) : list sample :=
  match self_loader self "eval_loader" with
  | Ok loader => (loader_iter loader (w_fs w0) (w_rng w0)).1.1
  | Raise _ => []
  end.

(** Both, for the calls of [Eval.run]. *)
Definition eval_call_ok (g self : pyobj) (batches : list sample) (c : call)
    : Prop :=
  decode_call_as_written self batches c ∧ detection_drawn_scaled g c.

(** ** The rectangles of the detections *)





(** * Further definitions *)


(** The statement [m] leaves the file system as it is, whether it returns
    or raises. *)
Definition keeps_fs {A} (m : M A) : Prop :=
  ∀ w0, w_fs (m w0).2 = w_fs w0.

(** The line that line 46 of eval.py writes for a ground-truth box
    (class, xmin, ymin, xmax, ymax), and the line that line 54 writes for
    a detection (class, confidence, xmin, ymin, xmax, ymax). *)
Definition groundtruth_line (box : ndarray) : option string :=
  match box with
  | [b0; b1; b2; b3; b4] =>
      Some (pretty (int_of_float b0) +:+ " " +:+ format_float b1 +:+ " "
            +:+ format_float b2 +:+ " " +:+ format_float b3 +:+ " "
            +:+ format_float b4 +:+ newline)
  | _ => None
  end.

Definition detection_line (box : ndarray) : option string :=
  match box with
  | [b0; b1; b2; b3; b4; b5] =>
      Some (pretty (int_of_float b0) +:+ " " +:+ format_float4 b1 +:+ " "
            +:+ pretty (int_of_float b2) +:+ " " +:+ pretty (int_of_float b3)
            +:+ " " +:+ pretty (int_of_float b4) +:+ " "
            +:+ pretty (int_of_float b5) +:+ newline)
  | _ => None
  end.

(** From [w0] to [w1] the text [s] has been put at the end of the file
    [f], and the other regular files are as they were. *)
Definition appended (f s : string) (w0 w1 : world) : Prop :=
  (∀ c, fs_lookup (w_fs w0) (path_components f) = Some (File c) →
        fs_lookup (w_fs w1) (path_components f) = Some (File (c +:+ s)))
  ∧ ∀ q c', q ≠ path_components f →
            fs_lookup (w_fs w0) q = Some (File c') →
            fs_lookup (w_fs w1) q = Some (File c').

(** The three files that [Eval.run] writes for the image [filename]:
    lines 44, 52 and 60. *)
Definition groundtruths_path (ec : EvalCfg) (filename : string) : string :=
  os_path_join (ec_groundtruths ec)
    (before_first_dot (os_path_basename filename) +:+ ".txt").

Definition detections_path (ec : EvalCfg) (filename : string) : string :=
  os_path_join (ec_detections ec)
    (before_first_dot (os_path_basename filename) +:+ ".txt").

Definition debug_img_path (ec : EvalCfg) (filename : string) : string :=
  os_path_join (ec_debug_imgs ec) (os_path_basename filename).

(** The epoch [epoch] of the loop of [run] (lines 126-127), from the
    instance [self] in the world [w]: [x] is the loss that [train_on_epoch]
    returns and [y] the loss that [evaluate_on_epoch] returns after it;
    [self'] and [w'] are the instance and the world after the two. *)
Definition epoch_losses (self : pyobj) (epoch : Z) (w : world)
    (x y : float) (self' : pyobj) (w' : world) : Prop :=
  ∃ self1 w1,
    train_on_epoch self epoch w = (Ok (self1, PyFloat x), w1)
    ∧ evaluate_on_epoch self1 epoch w1 = (Ok (self', PyFloat y), w').

(** The world in which the loop of [run] starts: lines 123-124 have
    printed their two lines. *)
Definition run_started (w0 : world) : world :=
  {| w_fs := w_fs w0; w_rng := w_rng w0;
     w_stdout := w_stdout w0 ++ ["Start train model!"; "Device:  " +:+ device];
     w_trace := w_trace w0 |}.

(** The file name of line 129 for the epoch [epoch] with the train loss
    [x] and the evaluation loss [y], and the line that line 128 prints. *)
Definition checkpoint_name (epoch : Z) (x y : float) : string :=
  "ssd_" +:+ pretty epoch +:+ "_" +:+ format_float4 x +:+ "_"
  +:+ format_float4 y +:+ ".pth".

Definition epoch_line (epoch : Z) (x y : float) : string :=
  "Epoch " +:+ pretty epoch +:+ ", train loss " +:+ format_float x
  +:+ ", eval loss " +:+ format_float y.

End Pipeline.

(** * A small instance of the collaborators

    Exact rationals for the floating-point numbers, counters for the
    generator and the parameters, one batch per line of the annotation
    file.  It serves to run the two files on concrete inputs. *)

Module Toy.

Definition toy_carriers : Carriers := {|
  float := Q;
  rng := nat;
  tdata := Z;
  state_dict := Z;
  grads := Z;
  adam_state := Z;
  pixels := list (Z * Z * Z * Z);
  annotations := list string;
|}.

#[local] Existing Instance toy_carriers.

Definition lines (s : string) : list string :=
  filter (λ l, l ≠ EmptyString) (split_on (ascii_of_nat 10) s).

Definition toy_sample (name : string) : sample :=
  {| s_image := {| t_shape := [1; 3; 300; 300]%Z; t_data := 1%Z |};
     s_objs := [[ [1; 10; 10; 50; 50]%Q ]];
     s_filename := [name] |}.

Definition toy_collaborators : Collaborators := {|
  fadd := Qplus;
  fmul := Qmult;
  fdiv := Qdiv;
  float_of_int := inject_Z;
  int_of_float := λ q, Z.quot (Qnum q) (Z.pos (Qden q));
  float_is_zero := λ q, Qeq_bool q 0;
  format_float := λ q, pretty (Qnum q) +:+ "/" +:+ pretty (Z.pos (Qden q));
  format_float4 := λ q, pretty (Qnum q) +:+ "/" +:+ pretty (Z.pos (Qden q));
  cuda_is_available := false;
  randn_data := λ _ r, (Z.of_nat r, S r);
  pickle := λ sd, pretty sd;
  unpickle := λ s, if bool_decide (s = EmptyString) then None else Some 42%Z;
  init_parameters := λ _ _ _ _ _ _ r, ((Z.of_nat r, 0%Z), S r);
  forward := λ m x,
    {| t_shape := [hd 0%Z (t_shape x); 4%Z];
       t_data := (mod_state m + t_data x)%Z |};
  get_predictor_shapes := λ _ x,
    match t_shape x with
    | [_; _; height; width] =>
        [[height / 8; width / 8]; [height / 16; width / 16]]%Z
    | _ => []
    end;
  load_parameters := λ _ sd, Some sd;
  item := λ t, inject_Z (t_data t);
  zero_grad := λ _ _, 0%Z;
  backward := λ _ loss, t_data loss;
  adam_init := λ _, 0%Z;
  adam_step := λ a sd g, ((a + 1)%Z, (sd - g)%Z);
  generate_anchor_boxes_model := λ shapes scales ratios,
    '(_, s) ← zip shapes scales;
    r ← ratios;
    [{| ab_cx := 0.5%Q; ab_cy := 0.5%Q; ab_w := (s * r)%Q; ab_h := (s / r)%Q |}];
  encode := λ enc objs,
    {| t_shape := [Z.of_nat (length objs);
                   Z.of_nat (length (enc_anchor_boxes enc))];
       t_data := Z.of_nat (length (concat objs)) |};
  ssd_loss := λ _ output labels,
    {| t_shape := []; t_data := (t_data output + t_data labels)%Z |};
  decode_output := λ y _ _,
    replicate (Z.to_nat (hd 0%Z (t_shape y)))
      [[1; 0.9; 10; 20; 110; 220]%Q];
  read_annotations := λ data_dir file_path fs,
    match fs_lookup fs (path_components (os_path_join data_dir file_path)) with
    | Some (File c) => Ok (lines c)
    | _ => Raise (FileNotFoundError (os_path_join data_dir file_path))
    end;
  dataset_len := λ ds, Z.of_nat (length (ds_index ds));
  loader_len := λ dl, Z.of_nat (length (ds_index (dl_dataset dl)));
  loader_iter := λ dl _ r,
    ((toy_sample <$> ds_index (dl_dataset dl), None), r);
  imdecode := λ c,
    if bool_decide (c = EmptyString) then None
    else Some {| im_h := 600; im_w := 900; im_pixels := [] |};
  imencode := λ _, "image";
  rectangle_pixels := λ img pt1 pt2 _ _,
    im_pixels img ++ [(pt1.1, pt1.2, pt2.1, pt2.2)];
  putText_pixels := λ img _ _ _ _ _ _, im_pixels img;
|}.

#[local] Existing Instance toy_collaborators.

(** A configuration, and a working directory with a training set of one
    image, an empty evaluation set and an old checkpoint directory. *)
Definition train_cfg : TrainConfig := {|
  tc_model_name := "SSDModel";
  tc_checkpoint_dir := "checkpoints";
  tc_checkpoint_file := "last.pth";
  tc_data_dir := "data";
  tc_train_file_path := "train.txt";
  tc_eval_file_path := "eval.txt";
  tc_batch_size := 1;
  tc_alpha := 1%Q;
  tc_neg_pos_ratio := 3;
  tc_num_epochs := 1;
|}.

Definition eval_cfg : EvalCfg := {|
  ec_data_dir := "data";
  ec_eval_file_path := "images.txt";
  ec_batch_size := 1;
  ec_threshold := 0.5%Q;
  ec_iou_threshold := 0.45%Q;
  ec_groundtruths := "groundtruths";
  ec_detections := "detections";
  ec_debug_imgs := "debug";
|}.

Definition cfg : Config := {|
  cfg_img_width := 300;
  cfg_img_height := 300;
  cfg_nclasses := 2;
  cfg_scales := [0.1; 0.2]%Q;
  cfg_aspect_ratios := [1; 2]%Q;
  cfg_variances := [0.1; 0.1; 0.2; 0.2]%Q;
  cfg_train_cfg := train_cfg;
  cfg_eval_cfg := eval_cfg;
|}.

(** The same with a model name that [build_model] does not know. *)
Definition cfg_resnet : Config := {|
  cfg_img_width := 300;
  cfg_img_height := 300;
  cfg_nclasses := 2;
  cfg_scales := [0.1; 0.2]%Q;
  cfg_aspect_ratios := [1; 2]%Q;
  cfg_variances := [0.1; 0.1; 0.2; 0.2]%Q;
  cfg_train_cfg := {|
    tc_model_name := "ResNetSSD";
    tc_checkpoint_dir := "checkpoints";
    tc_checkpoint_file := "last.pth";
    tc_data_dir := "data";
    tc_train_file_path := "train.txt";
    tc_eval_file_path := "eval.txt";
    tc_batch_size := 1;
    tc_alpha := 1%Q;
    tc_neg_pos_ratio := 3;
    tc_num_epochs := 1;
  |};
  cfg_eval_cfg := eval_cfg;
|}.

Definition data_dir : node :=
  Dir (list_to_map [("train.txt", File "a.jpg");
                    ("eval.txt", File EmptyString);
                    ("images.txt", File "a.jpg")]).

Definition disk : node :=
  Dir (list_to_map
         [("data", data_dir);
          ("checkpoints",
           Dir (list_to_map [("ssd_0_1.2000_1.1000.pth", File "weights")]))]).

Definition start : world :=
  {| w_fs := disk; w_rng := 0%nat; w_stdout := []; w_trace := [] |}.

(** Another world: the checkpoint file is there, the generator is in
    another state. *)
Definition disk' : node :=
  Dir (list_to_map
         [("data", data_dir);
          ("checkpoints", Dir (list_to_map [("last.pth", File "weights")]))]).

Definition start' : world :=
  {| w_fs := disk'; w_rng := 7%nat; w_stdout := []; w_trace := [] |}.

(** The trainer that [Trainer(cfg)] builds from [start], and the world
    after its construction. *)
Definition trainer : gmap string pyval :=
  match (Trainer__init__ cfg start).1 with
  | Ok self => self
  | Raise _ => ∅
  end.

Definition built : world := (Trainer__init__ cfg start).2.

Definition trainer' : gmap string pyval :=
  match (Trainer__init__ cfg start').1 with
  | Ok self => self
  | Raise _ => ∅
  end.

Definition built' : world := (Trainer__init__ cfg start').2.

Definition trainer_encoder : SSDLabelEncoder :=
  encoder_of_config cfg [[37; 37]; [18; 18]]%Z.

Definition trainer_criterion : SSDLoss :=
  {| loss_alpha := 1%Q; loss_neg_pos_ratio := 3 |}.

(** The evaluation: the module globals of eval.py after a caller has bound
    the names that [run] reads, an instance on which the caller has called
    [build_model] and [prepare_data] and set [eval_cfg], and a working
    directory with the image and the output directories. *)
Definition bound_globals : gmap string pyval :=
  list_to_map
    [("cv2", PyModule "cv2"); ("os", PyModule "os"); ("np", PyModule "numpy");
     ("device", PyStr "cpu"); ("images_dir", PyStr "images");
     ("img_height", PyInt 300); ("img_width", PyInt 300);
     ("SSDDataset", PyCallable "data_utils.SSDDataset")]
  ∪ eval_globals.

Definition eval_disk : node :=
  Dir (list_to_map
         [("data", data_dir);
          ("images", Dir (list_to_map [("a.jpg", File "jpeg")]));
          ("groundtruths", Dir ∅); ("detections", Dir ∅);
          ("debug", Dir ∅)]).

Definition eval_start : world :=
  {| w_fs := eval_disk; w_rng := 0%nat; w_stdout := []; w_trace := [] |}.

Definition prepare_evaluator : M (gmap string pyval) :=
  self ← Eval__init__ cfg;
  self ← Eval_build_model bound_globals self;
  self ← Eval_prepare_data bound_globals self;
  mret (<["eval_cfg" := PyEvalCfg eval_cfg]> self).

Definition evaluator : gmap string pyval :=
  match (prepare_evaluator eval_start).1 with
  | Ok self => self
  | Raise _ => ∅
  end.

Definition eval_ready : world := (prepare_evaluator eval_start).2.

End Toy.

(** * Further inputs for the small instance *)

Module ToyRuns.
Import Toy.

#[local] Existing Instance toy_carriers.

(** The same collaborators, with numbers printed in decimal notation (so
    that a formatted loss can be part of a file name): the integer part, a
    point, and four digits. *)
Definition digits4 (n : Z) : string :=
  (if (n <? 10)%Z then "000" else if (n <? 100)%Z then "00"
   else if (n <? 1000)%Z then "0" else EmptyString) +:+ pretty n.

Definition fixed4 (q : Q) : string :=
  let n := (Qnum q * 10000 / Z.pos (Qden q))%Z in
  pretty (n / 10000)%Z +:+ "." +:+ digits4 (n mod 10000)%Z.

Definition run_collaborators : Collaborators :=
  let t := toy_collaborators in {|
  fadd := @fadd _ t;
  fmul := @fmul _ t;
  fdiv := @fdiv _ t;
  float_of_int := @float_of_int _ t;
  int_of_float := @int_of_float _ t;
  float_is_zero := @float_is_zero _ t;
  format_float := fixed4;
  format_float4 := fixed4;
  cuda_is_available := @cuda_is_available _ t;
  randn_data := @randn_data _ t;
  pickle := @pickle _ t;
  unpickle := @unpickle _ t;
  init_parameters := @init_parameters _ t;
  forward := @forward _ t;
  get_predictor_shapes := @get_predictor_shapes _ t;
  load_parameters := @load_parameters _ t;
  item := @item _ t;
  zero_grad := @zero_grad _ t;
  backward := @backward _ t;
  adam_init := @adam_init _ t;
  adam_step := @adam_step _ t;
  generate_anchor_boxes_model := @generate_anchor_boxes_model _ t;
  encode := @encode _ t;
  ssd_loss := @ssd_loss _ t;
  decode_output := @decode_output _ t;
  read_annotations := @read_annotations _ t;
  dataset_len := @dataset_len _ t;
  loader_len := @loader_len _ t;
  loader_iter := @loader_iter _ t;
  imdecode := @imdecode _ t;
  imencode := @imencode _ t;
  rectangle_pixels := @rectangle_pixels _ t;
  putText_pixels := @putText_pixels _ t;
|}.

#[local] Existing Instance run_collaborators.

(** A working directory with one image in the training set and one in
    the evaluation set, and an old checkpoint. *)
Definition run_disk : node :=
  Dir (list_to_map
         [("data",
           Dir (list_to_map [("train.txt", File "a.jpg");
                             ("eval.txt", File "b.jpg")]));
          ("checkpoints",
           Dir (list_to_map [("ssd_9_0.5000_0.4000.pth", File "old")]));
          ("notes.txt", File "keep")]).

Definition run_start : world :=
  {| w_fs := run_disk; w_rng := 0%nat; w_stdout := []; w_trace := [] |}.

Definition runner : gmap string pyval :=
  match (Trainer__init__ cfg run_start).1 with
  | Ok self => self
  | Raise _ => ∅
  end.

Definition run_built : world := (Trainer__init__ cfg run_start).2.

(** The configuration with no epoch to run, and the one with no
    checkpoint file name. *)
Definition train_cfg_with (checkpoint_file : string) (num_epochs : Z)
    : TrainConfig := {|
  tc_model_name := "SSDModel";
  tc_checkpoint_dir := "checkpoints";
  tc_checkpoint_file := checkpoint_file;
  tc_data_dir := "data";
  tc_train_file_path := "train.txt";
  tc_eval_file_path := "eval.txt";
  tc_batch_size := 1;
  tc_alpha := 1%Q;
  tc_neg_pos_ratio := 3;
  tc_num_epochs := num_epochs;
|}.

Definition cfg_with (checkpoint_file : string) (num_epochs : Z) : Config := {|
  cfg_img_width := 300;
  cfg_img_height := 300;
  cfg_nclasses := 2;
  cfg_scales := [0.1; 0.2]%Q;
  cfg_aspect_ratios := [1; 2]%Q;
  cfg_variances := [0.1; 0.1; 0.2; 0.2]%Q;
  cfg_train_cfg := train_cfg_with checkpoint_file num_epochs;
  cfg_eval_cfg := eval_cfg;
|}.

Definition cfg_idle : Config := cfg_with "last.pth" 0.

Definition cfg_no_file : Config := cfg_with EmptyString 1.

(** A working directory where [checkpoints] is a regular file, and one
    without the data directory. *)
Definition start_checkpoints_file : world :=
  {| w_fs := Dir (list_to_map [("data", data_dir);
                               ("checkpoints", File "not a directory")]);
     w_rng := 0%nat; w_stdout := []; w_trace := [] |}.

Definition start_no_data : world :=
  {| w_fs := Dir (list_to_map
                    [("checkpoints",
                      Dir (list_to_map [("last.pth", File "weights")]))]);
     w_rng := 0%nat; w_stdout := []; w_trace := [] |}.

(** A working directory whose training set is empty. *)
Definition start_empty_training_set : world :=
  {| w_fs := Dir (list_to_map
                    [("data",
                      Dir (list_to_map [("train.txt", File EmptyString);
                                        ("eval.txt", File "b.jpg")]));
                     ("checkpoints",
                      Dir (list_to_map [("last.pth", File "weights")]))]);
     w_rng := 0%nat; w_stdout := []; w_trace := [] |}.

(** The globals of eval.py with [cv2] bound, and an instance whose loader
    is over an empty data set. *)
Definition cv2_globals : gmap string pyval :=
  <["cv2" := PyModule "cv2"]> eval_globals.

(** The globals with every name bound, but [img_height] zero. *)
Definition zero_height_globals : gmap string pyval :=
  <["img_height" := PyInt 0]> bound_globals.

Definition empty_loader : DataLoader :=
  {| dl_dataset := {| ds_data_dir := "data"; ds_file_path := "eval.txt";
                      ds_transform := []; ds_index := [] |};
     dl_batch_size := 1; dl_shuffle := false |}.

Definition idle_evaluator : gmap string pyval :=
  {["eval_loader" := PyLoader empty_loader]}.

(** The decoded detections and the labels of the image [a.jpg]. *)
Definition a_detections : list (list Q) := [[1; 0.9; 10; 20; 110; 220]%Q].

Definition a_labels : list (list Q) := [[1; 10; 10; 50; 50]%Q].

(** What the runs on these inputs return, and the worlds they leave. *)
Definition value_of {A} (d : A) (r : result A * world) : A :=
  match r.1 with
  | Ok a => a
  | Raise _ => d
  end.

Definition idle_trainer : gmap string pyval :=
  value_of ∅ (Trainer__init__ cfg start).

Definition idle_built : world := (Trainer__init__ cfg start).2.

Definition resumed : gmap string pyval :=
  value_of ∅ (Trainer__init__ cfg start').

Definition after_resume : world := (Trainer__init__ cfg start').2.

Definition ready_evaluator : gmap string pyval :=
  value_of ∅
    ((self ← Eval__init__ cfg;
      self ← Eval_build_model bound_globals self;
      self ← Eval_prepare_data bound_globals self;
      mret (<["eval_cfg" := PyEvalCfg eval_cfg]> self)) eval_start).

Definition returns {A} (r : result A * world) : bool :=
  match r.1 with
  | Ok _ => true
  | Raise _ => false
  end.

Definition epoch_trained : gmap string pyval * pyval :=
  value_of (∅, PyInt 0) (train_on_epoch runner 0 run_built).

Definition after_epoch : world := (train_on_epoch runner 0 run_built).2.

Definition evaluated : gmap string pyval * pyval :=
  value_of (∅, PyInt 0) (evaluate_on_epoch runner 0 run_built).

Definition after_evaluation : world :=
  (evaluate_on_epoch runner 0 run_built).2.

Definition trained : gmap string pyval :=
  value_of ∅ (Trainer_run runner run_built).

Definition after_training : world := (Trainer_run runner run_built).2.



Definition after_image : world :=
  (eval_image bound_globals ready_evaluator 0 tt (a_detections, a_labels, "a.jpg")
     eval_ready).2.

Definition after_eval : world :=
  (Eval_run bound_globals ready_evaluator eval_ready).2.

End ToyRuns.

(** * Reasoning about statements *)

Section Properties.
Context {carriers : Carriers} {collaborators : Collaborators}.

Abbreviation pyobj := (gmap string pyval).
Abbreviation ndarray := (list float).

Lemma bind_unfold {A B} (m : M A) (f : A → M B) w0 :
  (m ≫= f) w0 = match m w0 with
                | (Ok a, w1) => f a w1
                | (Raise e, w1) => (Raise e, w1)
                end.
Proof. reflexivity. Qed.

Lemma bind_Ok {A B} (m : M A) (f : A → M B) w0 a w1 :
  m w0 = (Ok a, w1) → (m ≫= f) w0 = f a w1.
Proof. intros H. rewrite bind_unfold, H. reflexivity. Qed.

Lemma bind_Ok_inv {A B} (m : M A) (f : A → M B) w0 b w2 :
  (m ≫= f) w0 = (Ok b, w2) →
  ∃ a w1, m w0 = (Ok a, w1) ∧ f a w1 = (Ok b, w2).
Proof.
  rewrite bind_unfold. destruct (m w0) as [[a|e] w1]; intros H.
  - exists a, w1. split; [reflexivity | exact H].
  - discriminate H.
Qed.

Lemma bind_assoc {A B C} (m : M A) (f : A → M B) (g : B → M C) w0 :
  ((m ≫= f) ≫= g) w0 = (m ≫= λ a, f a ≫= g) w0.
Proof. rewrite !bind_unfold. by destruct (m w0) as [[a|e] w1]. Qed.

Lemma lift_Ok_inv {A} (r : result A) w0 a w1 :
  lift r w0 = (Ok a, w1) → r = Ok a ∧ w1 = w0.
Proof. unfold lift. intros H. injection H as -> ->. split; reflexivity. Qed.

(** ** The trace discipline *)

Lemma trace_ext_refl P w0 : trace_ext P w0 w0.
Proof. exists []. split; [by rewrite app_nil_r | constructor]. Qed.

Lemma trace_ext_trans P w0 w1 w2 :
  trace_ext P w0 w1 → trace_ext P w1 w2 → trace_ext P w0 w2.
Proof.
  intros (e1 & H1 & F1) (e2 & H2 & F2). exists (e1 ++ e2). split.
  - rewrite H2, H1, app_assoc. reflexivity.
  - apply Forall_app. split; assumption.
Qed.

Lemma trace_ext_same P w0 w1 : w_trace w1 = w_trace w0 → trace_ext P w0 w1.
Proof. intros H. exists []. split; [by rewrite app_nil_r | constructor]. Qed.

Lemma emits_ret {A} P (Q : A → Prop) a : Q a → emits P Q (mret a).
Proof.
  intros HQ w0. split; [apply trace_ext_refl |].
  intros a' H. injection H as <-. exact HQ.
Qed.

Lemma emits_raise {A} P (Q : A → Prop) e : emits P Q (raise e).
Proof.
  intros w0. split; [apply trace_ext_refl |]. intros a H. discriminate H.
Qed.

Lemma emits_lift {A} P (Q : A → Prop) (r : result A) :
  (∀ a, r = Ok a → Q a) → emits P Q (lift r).
Proof.
  intros HQ w0. split; [apply trace_ext_refl |]. intros a H. apply HQ, H.
Qed.

Lemma emits_bind {A B} P (Q1 : A → Prop) (Q2 : B → Prop) (m : M A)
    (f : A → M B) :
  emits P Q1 m → (∀ a, Q1 a → emits P Q2 (f a)) → emits P Q2 (m ≫= f).
Proof.
  intros Hm Hf w0. rewrite bind_unfold.
  destruct (Hm w0) as [Ht Hv]. destruct (m w0) as [[a|e] w1]; simpl in *.
  - destruct (Hf a (Hv a eq_refl) w1) as [Ht' Hv']. split.
    + eapply trace_ext_trans; eassumption.
    + exact Hv'.
  - split; [exact Ht | intros a H; discriminate H].
Qed.

Lemma emits_weaken {A} P (Q Q' : A → Prop) (m : M A) :
  emits P Q m → (∀ a, Q a → Q' a) → emits P Q' m.
Proof.
  intros Hm HQ w0. destruct (Hm w0) as [Ht Hv]. split; [exact Ht |].
  intros a H. apply HQ, Hv, H.
Qed.

Lemma emits_emit P c : P c → emits P (λ _, True) (emit c).
Proof.
  intros HP w0. split; [| done]. exists [c]. split; [reflexivity |].
  constructor; [exact HP | constructor].
Qed.

Lemma emits_get_fs P : emits P (λ _, True) get_fs.
Proof. intros w0. split; [apply trace_ext_refl | done]. Qed.

Lemma emits_set_fs P n : emits P (λ _, True) (set_fs n).
Proof. intros w0. split; [by apply trace_ext_same | done]. Qed.

Lemma emits_print P args : emits P (λ _, True) (print args).
Proof. intros w0. split; [by apply trace_ext_same | done]. Qed.

Lemma emits_with_rng {A} P (f : rng → A * rng) :
  emits P (λ _, True) (with_rng f).
Proof.
  intros w0. unfold with_rng. destruct (f (w_rng w0)) as [a r].
  split; [by apply trace_ext_same | done].
Qed.

Lemma emits_for_each {A S} P (I : S → Prop) (body : S → A → M S) l :
  (∀ s x, I s → x ∈ l → emits P I (body s x)) →
  ∀ s, I s → emits P I (for_each body s l).
Proof.
  induction l as [|x l IH]; intros Hbody s Hs; simpl.
  - by apply emits_ret.
  - eapply emits_bind.
    + apply Hbody; [exact Hs | left].
    + intros s' Hs'. apply IH; [| exact Hs'].
      intros s'' y Hs'' Hy. apply Hbody; [exact Hs'' | by right].
Qed.

Lemma emits_for_each_then {A S} P (I : S → Prop) (body : S → A → M S) it :
  (∀ s x, I s → x ∈ it.1 → emits P I (body s x)) →
  ∀ s, I s → emits P I (for_each_then body s it).
Proof.
  intros Hbody s Hs. unfold for_each_then. eapply emits_bind.
  - by apply emits_for_each.
  - intros s' Hs'. destruct (it.2); [apply emits_raise | by apply emits_ret].
Qed.

Create HintDb emits discriminated.

#[local] Hint Resolve emits_get_fs emits_set_fs emits_print emits_with_rng
  emits_raise : emits.

(** One step of a proof that a statement keeps the trace discipline: the
    statement is taken apart along its binds and case distinctions, the
    leaves are closed with the lemmas of the database [emits]. *)
Ltac emits_leaf :=
  lazymatch goal with
  | |- emits _ _ (raise _) => apply emits_raise
  | |- emits _ _ (mret _) => apply emits_ret; try done
  | |- emits _ _ (lift _) =>
      apply emits_lift;
      first [let H := fresh in intros ? H; exact H | try done]
  | |- _ =>
      first
        [ solve [eauto 2 with emits]
        | eapply emits_weaken; [solve [eauto 2 with emits] | try done] ]
  end.

Ltac emits_step :=
  lazymatch goal with
  | |- emits _ _ (_ ≫= _) =>
      eapply emits_bind; [emits_leaf | intros ? ?]
  | |- emits _ _ (if ?x then _ else _) => destruct x
  | |- emits _ _ (match ?x with _ => _ end) => destruct x
  | |- emits _ _ (let '(_, _) := ?x in _) => destruct x
  | |- _ => emits_leaf
  end.

Ltac emits_go := repeat emits_step.

Lemma emits_os_path_exists P p : emits P (λ _, True) (os_path_exists p).
Proof. unfold os_path_exists. emits_go. Qed.

Lemma emits_os_path_isdir P p : emits P (λ _, True) (os_path_isdir p).
Proof. unfold os_path_isdir. emits_go. Qed.

Lemma emits_shutil_rmtree P p : emits P (λ _, True) (shutil_rmtree p).
Proof. unfold shutil_rmtree. emits_go. Qed.

Lemma emits_os_makedirs_exist_ok P p :
  emits P (λ _, True) (os_makedirs_exist_ok p).
Proof. unfold os_makedirs_exist_ok. emits_go. Qed.

Lemma emits_read_file P p : emits P (λ _, True) (read_file p).
Proof. unfold read_file. emits_go. Qed.

Lemma emits_write_file P p c : emits P (λ _, True) (write_file p c).
Proof. unfold write_file. emits_go. Qed.

#[local] Hint Resolve emits_os_path_exists emits_os_path_isdir
  emits_shutil_rmtree emits_os_makedirs_exist_ok emits_read_file
  emits_write_file : emits.

Lemma emits_torch_load P p : emits P (λ _, True) (torch_load p).
Proof. unfold torch_load. emits_go. Qed.

Lemma emits_torch_save P sd p : emits P (λ _, True) (torch_save sd p).
Proof. unfold torch_save. emits_go. Qed.

Lemma emits_load_state_dict P m sd :
  emits P (λ _, True) (load_state_dict m sd).
Proof. unfold load_state_dict. emits_go. Qed.

Lemma emits_new_module P cls width height n scales ratios :
  emits P (λ _, True) (new_module cls width height n scales ratios).
Proof. unfold new_module. emits_go. Qed.

Lemma emits_new_dataset P data_dir file_path tr :
  emits P (λ _, True) (new_dataset data_dir file_path tr).
Proof. unfold new_dataset. emits_go. Qed.

Lemma emits_iterate P l : emits P (λ _, True) (iterate l).
Proof. unfold iterate. emits_go. Qed.

Lemma emits_torch_randn P shape :
  emits P (λ x, t_shape x = shape) (torch_randn shape).
Proof. unfold torch_randn. emits_go. Qed.

Lemma emits_cv2_imread P p : emits P (λ _, True) (cv2_imread p).
Proof. unfold cv2_imread. emits_go. Qed.

Lemma emits_cv2_imwrite P p img : emits P (λ _, True) (cv2_imwrite p img).
Proof. unfold cv2_imwrite. emits_go. Qed.

Lemma emits_open_w P p : emits P (λ _, True) (open_w p).
Proof. unfold open_w. emits_go. Qed.

Lemma emits_f_write P f s : emits P (λ _, True) (f_write f s).
Proof. unfold f_write. emits_go. Qed.

Lemma emits_use_module P g name module attr :
  emits P (λ _, True) (use_module g name module attr).
Proof. unfold use_module. emits_go. Qed.

Lemma emits_use_callable P g name qualname :
  emits P (λ _, True) (use_callable g name qualname).
Proof. unfold use_callable. emits_go. Qed.

#[local] Hint Resolve emits_torch_load emits_torch_save emits_load_state_dict
  emits_new_module emits_new_dataset emits_iterate emits_torch_randn
  emits_cv2_imread emits_cv2_imwrite emits_open_w emits_f_write
  emits_use_module emits_use_callable : emits.

(** ** Statements that only print *)

Lemma quiet_ret {A} (a : A) : quiet (mret a : M A).
Proof. intros w0. done. Qed.

Lemma quiet_lift {A} (r : result A) : quiet (lift r).
Proof. intros w0. done. Qed.

Lemma quiet_get_fs : quiet get_fs.
Proof. intros w0. done. Qed.

Lemma quiet_print args : quiet (print args).
Proof. intros w0. done. Qed.

Lemma quiet_bind {A B} (m : M A) (f : A → M B) :
  quiet m → (∀ a, quiet (f a)) → quiet (m ≫= f).
Proof.
  intros Hm Hf w0. rewrite bind_unfold.
  destruct (Hm w0) as (H1 & H2 & H3). destruct (m w0) as [[a|e] w1]; simpl in *.
  - destruct (Hf a w1) as (H1' & H2' & H3').
    rewrite H1', H2', H3'. done.
  - done.
Qed.

Lemma quiet_new_dataset data_dir file_path tr :
  quiet (new_dataset data_dir file_path tr).
Proof.
  unfold new_dataset. apply quiet_bind; [apply quiet_get_fs |]. intros fs.
  apply quiet_bind; [apply quiet_lift |]. intros idx. apply quiet_ret.
Qed.

Lemma quiet_new_loader ds batch_size shuffle :
  quiet (new_loader ds batch_size shuffle).
Proof. unfold new_loader. intros w0. by repeat case_match. Qed.

Lemma new_loader_Ok ds batch_size shuffle w0 loader w1 :
  new_loader ds batch_size shuffle w0 = (Ok loader, w1) →
  loader = {| dl_dataset := ds; dl_batch_size := batch_size;
              dl_shuffle := shuffle |}
  ∧ w1 = w0.
Proof.
  unfold new_loader. repeat case_match; intros Hr; try discriminate Hr.
  by injection Hr as <- <-.
Qed.

Lemma quiet_prepare_data self : quiet (prepare_data self).
Proof.
  unfold prepare_data. apply quiet_bind; [apply quiet_lift |]. intros cfg.
  apply quiet_bind; [apply quiet_new_dataset |]. intros train_ds.
  apply quiet_bind; [apply quiet_new_dataset |]. intros eval_ds.
  apply quiet_bind; [apply quiet_new_loader |]. intros train_loader.
  apply quiet_bind; [apply quiet_new_loader |]. intros eval_loader.
  apply quiet_bind; [apply quiet_print |]. intros _. apply quiet_ret.
Qed.

(** ** Attributes *)

Lemma getattr_insert (self : pyobj) attr v :
  getattr (<[attr := v]> self) attr = Ok v.
Proof. unfold getattr. by rewrite lookup_insert_eq. Qed.

Lemma getattr_insert_ne (self : pyobj) attr attr' v :
  attr ≠ attr' → getattr (<[attr := v]> self) attr' = getattr self attr'.
Proof. intros H. unfold getattr. by rewrite lookup_insert_ne. Qed.

(** What [prepare_data] returns: the instance with the two loaders, the
    training one shuffled and the evaluation one not. *)
Lemma prepare_data_Ok self self' w0 w1 :
  prepare_data self w0 = (Ok self', w1) →
  ∃ cfg train_ds eval_ds,
    self_cfg self = Ok cfg
    ∧ self' =
        <["eval_loader" :=
            PyLoader {| dl_dataset := eval_ds;
                        dl_batch_size := tc_batch_size (cfg_train_cfg cfg);
                        dl_shuffle := false |}]>
          (<["train_loader" :=
               PyLoader {| dl_dataset := train_ds;
                           dl_batch_size := tc_batch_size (cfg_train_cfg cfg);
                           dl_shuffle := true |}]> self).
Proof.
  unfold prepare_data. intros H.
  apply bind_Ok_inv in H as (cfg & w & Hcfg & H).
  apply lift_Ok_inv in Hcfg as [Hcfg ->].
  apply bind_Ok_inv in H as (train_ds & w & _ & H).
  apply bind_Ok_inv in H as (eval_ds & w' & _ & H).
  apply bind_Ok_inv in H as (train_loader & wt & Et & H).
  apply new_loader_Ok in Et as [-> ->].
  apply bind_Ok_inv in H as (eval_loader & we & Ee & H).
  apply new_loader_Ok in Ee as [-> ->].
  apply bind_Ok_inv in H as ([] & w'' & _ & H).
  injection H as <- _. eauto.
Qed.

Lemma self_cfg_insert_ne (self : pyobj) attr v :
  attr ≠ "cfg" → self_cfg (<[attr := v]> self) = self_cfg self.
Proof. intros H. unfold self_cfg. by rewrite getattr_insert_ne. Qed.

(** ** The file system *)

Lemma fs_lookup_remove p : p ≠ [] → ∀ n, fs_lookup (fs_remove n p) p = None.
Proof.
  induction p as [|c p IH]; [done |]. intros _ n.
  destruct p as [|c' p'].
  - destruct n as [s|ch]; simpl; [done |]. by rewrite lookup_delete_eq.
  - destruct n as [s|ch]; [done |].
    change (fs_remove (Dir ch) (c :: c' :: p'))
      with (match ch !! c with
            | Some n' => Dir (<[c := fs_remove n' (c' :: p')]> ch)
            | None => Dir ch
            end).
    destruct (ch !! c) as [n'|] eqn:E.
    + change (fs_lookup (Dir ?m) (c :: ?q))
        with (match m !! c with
              | Some n' => fs_lookup n' q
              | None => None
              end).
      rewrite lookup_insert_eq. by apply IH.
    + simpl. by rewrite E.
Qed.

Lemma fs_mkdirs_empty p n' :
  fs_mkdirs (Dir ∅) p = Some n' → fs_lookup n' p = Some (Dir ∅).
Proof.
  revert n'. induction p as [|c p IH]; intros n' H; simpl in *.
  - by injection H as <-.
  - rewrite lookup_empty in H. simpl in H.
    destruct (fs_mkdirs (Dir ∅) p) as [n''|] eqn:E; [| done].
    injection H as <-. simpl. rewrite lookup_insert_eq. by apply IH.
Qed.

Lemma fs_mkdirs_fresh p : ∀ n n',
  fs_lookup n p = None → fs_mkdirs n p = Some n' →
  fs_lookup n' p = Some (Dir ∅).
Proof.
  induction p as [|c p IH]; intros n n' Hl Hm; [done |].
  destruct n as [s|ch]; [done |]. simpl in Hl, Hm.
  destruct (ch !! c) as [n1|] eqn:E; simpl in Hm.
  - destruct (fs_mkdirs n1 p) as [n''|] eqn:E'; [| done].
    injection Hm as <-. simpl. rewrite lookup_insert_eq. by eapply IH.
  - destruct (fs_mkdirs (Dir ∅) p) as [n''|] eqn:E'; [| done].
    injection Hm as <-. simpl. rewrite lookup_insert_eq.
    by apply fs_mkdirs_empty.
Qed.

(** Unfolding of the monad on a given world. *)
Ltac mstep :=
  cbv beta iota delta [mbind M_bind mret M_ret get_fs set_fs raise lift];
  simpl.

(** What the last statements of [parse_config] (lines 86-88) leave at the
    directory [d], when they return. *)
Lemma rmtree_makedirs_Ok {A} d (k : M A) w0 a w1 :
  (e ← os_path_exists d;
   b ← (if e : bool then os_path_isdir d else mret false);
   (if b : bool then shutil_rmtree d else mret tt);;
   os_makedirs_exist_ok d;;
   k) w0 = (Ok a, w1) →
  ∃ w', k w' = (Ok a, w1)
    ∧ fs_lookup (w_fs w') (path_components d) = Some (Dir ∅)
    ∧ w_trace w' = w_trace w0 ∧ w_rng w' = w_rng w0
    ∧ w_stdout w' = w_stdout w0.
Proof.
  unfold os_path_exists, os_path_isdir, shutil_rmtree, os_makedirs_exist_ok,
    path_exists, path_isdir.
  destruct w0 as [fs r out tr]. mstep.
  destruct (decide (d = EmptyString)) as [->|Hd].
  { intros H. vm_compute in H. discriminate H. }
  rewrite !(bool_decide_eq_true_2 (d ≠ EmptyString)) by done.
  rewrite (bool_decide_eq_false_2 (d = EmptyString)) by done.
  cbv beta iota delta [andb].
  destruct (fs_lookup fs (path_components d)) as [[s|ch]|] eqn:E.
  - rewrite bool_decide_eq_true_2 by eauto. mstep. repeat (rewrite E; mstep).
    intros H. discriminate H.
  - rewrite bool_decide_eq_true_2 by eauto. mstep. repeat (rewrite E; mstep).
    case_bool_decide as Hp; mstep; [intros H; discriminate H |].
    rewrite (fs_lookup_remove _ Hp).
    destruct (fs_mkdirs (fs_remove fs (path_components d)) (path_components d))
      as [fs'|] eqn:E'; [| intros H; discriminate H].
    intros H. eexists. split; [exact H |]. simpl. split; [| done].
    eapply fs_mkdirs_fresh; [| exact E']. by apply fs_lookup_remove.
  - rewrite bool_decide_eq_false_2 by (intros [? ?]; done).
    mstep. repeat (rewrite E; mstep).
    destruct (fs_mkdirs fs (path_components d)) as [fs'|] eqn:E';
      [| intros H; discriminate H].
    intros H. eexists. split; [exact H |]. simpl. split; [| done].
    by eapply fs_mkdirs_fresh.
Qed.

(** ** Construction of the trainer *)

Ltac inv_bind H a w E :=
  apply bind_Ok_inv in H; destruct H as (a & w & E & H).

Lemma print_Ok_inv args w0 u w1 :
  print args w0 = (Ok u, w1) →
  w_fs w1 = w_fs w0 ∧ w_rng w1 = w_rng w0 ∧ w_trace w1 = w_trace w0
  ∧ w_stdout w1 = w_stdout w0 ++ [unwords args].
Proof. unfold print. intros H. injection H as _ <-. done. Qed.

(** A constructor of a network always returns: the class and the
    arguments are recorded, the parameters are drawn from the generator. *)
Lemma new_module_run cls width height n scales ratios w0 :
  ∃ sd g r,
    init_parameters cls width height n scales ratios (w_rng w0) = (sd, g, r)
    ∧ new_module cls width height n scales ratios w0
      = (Ok {| mod_class := cls; mod_img_width := width;
               mod_img_height := height; mod_nclasses := n;
               mod_scales := scales; mod_aspect_ratios := ratios;
               mod_state := sd; mod_grad := g; mod_training := true |},
         {| w_fs := w_fs w0; w_rng := r; w_stdout := w_stdout w0;
            w_trace := w_trace w0 |}).
Proof.
  unfold new_module, with_rng. rewrite bind_unfold.
  destruct (init_parameters cls width height n scales ratios (w_rng w0))
    as [[sd g] r] eqn:E.
  exists sd, g, r. split; reflexivity.
Qed.

Lemma new_module_Ok cfg w0 m w1 :
  new_module (tc_model_name (cfg_train_cfg cfg)) (cfg_img_width cfg)
    (cfg_img_height cfg) (cfg_nclasses cfg) (cfg_scales cfg)
    (cfg_aspect_ratios cfg) w0 = (Ok m, w1) →
  module_of_config cfg m
  ∧ w_fs w1 = w_fs w0 ∧ w_trace w1 = w_trace w0 ∧ w_stdout w1 = w_stdout w0.
Proof.
  destruct (new_module_run (tc_model_name (cfg_train_cfg cfg))
              (cfg_img_width cfg) (cfg_img_height cfg) (cfg_nclasses cfg)
              (cfg_scales cfg) (cfg_aspect_ratios cfg) w0)
    as (sd & g & r & _ & ->).
  intros H. injection H as <- <-. done.
Qed.

Lemma torch_load_Ok p w0 sd w1 :
  torch_load p w0 = (Ok sd, w1) →
  w1 = w0 ∧ p ≠ EmptyString
  ∧ ∃ c, fs_lookup (w_fs w0) (path_components p) = Some (File c)
         ∧ unpickle c = Some sd.
Proof.
  unfold torch_load, read_file. mstep.
  destruct (fs_lookup (w_fs w0) (path_components p)) as [[c|ch]|] eqn:E;
    mstep.
  - case_bool_decide as Hp; mstep; [intros H; discriminate H |].
    destruct (unpickle c) as [sd'|] eqn:Eu; mstep;
      intros H; [| discriminate H].
    injection H as <- <-. eauto.
  - case_bool_decide as Hp; mstep; intros H; discriminate H.
  - intros H. discriminate H.
Qed.

Lemma load_state_dict_Ok cfg m sd w0 m' w1 :
  load_state_dict m sd w0 = (Ok m', w1) →
  module_of_config cfg m →
  w1 = w0 ∧ module_of_config cfg m'
  ∧ load_parameters m sd = Some (mod_state m').
Proof.
  unfold load_state_dict. destruct (load_parameters m sd) as [sd'|];
    mstep; intros H Hm; [| discriminate H].
  injection H as <- <-. done.
Qed.

(** What [build_model] returns: the instance with a network of the
    configured class and geometry as its [model]; when the checkpoint
    file was there, the parameters of the network are those read from
    it.  The file system and the trace are untouched. *)
Lemma build_model_Ok self cfg w0 self' w1 :
  self_cfg self = Ok cfg →
  build_model self w0 = (Ok self', w1) →
  ∃ m,
    self' = <["model" := PyModel m]> self
    ∧ module_of_config cfg m
    ∧ w_fs w1 = w_fs w0 ∧ w_trace w1 = w_trace w0
    ∧ ∀ c, checkpoint_path (cfg_train_cfg cfg) ≠ EmptyString →
           fs_lookup (w_fs w0)
             (path_components (checkpoint_path (cfg_train_cfg cfg)))
           = Some (File c) →
           ∃ sd m0, unpickle c = Some sd ∧ module_of_config cfg m0
                    ∧ load_parameters m0 sd = Some (mod_state m).
Proof.
  intros Hcfg H. unfold build_model in H.
  inv_bind H cfg' w Ec. apply lift_Ok_inv in Ec as [Ec ->].
  assert (cfg' = cfg) as -> by congruence.
  inv_bind H self1 w2 E1.
  assert (∃ m, self1 = <["model" := PyModel m]> self
               ∧ module_of_config cfg m
               ∧ w_fs w2 = w_fs w0 ∧ w_trace w2 = w_trace w0)
    as (m & -> & Hm & Hfs & Htr).
  { case_bool_decide as Hn1; [| case_bool_decide as Hn2].
    - inv_bind E1 m w3 Em. injection E1 as <- <-.
      rewrite <- Hn1 in Em. apply new_module_Ok in Em as (? & ? & ? & ?).
      eauto.
    - inv_bind E1 m w3 Em. injection E1 as <- <-.
      rewrite <- Hn2 in Em. apply new_module_Ok in Em as (? & ? & ? & ?).
      eauto.
    - discriminate E1. }
  inv_bind H found w3 Ef. unfold os_path_exists in Ef.
  inv_bind Ef fs w4 Eg. injection Eg as <- <-. injection Ef as <- <-.
  destruct (path_exists (w_fs w2)
              (checkpoint_path (cfg_train_cfg cfg))) eqn:Ee.
  - inv_bind H u w5 Ep. apply print_Ok_inv in Ep as (Hfs5 & _ & Htr5 & _).
    inv_bind H m1 w6 Em1. apply lift_Ok_inv in Em1 as [Em1 ->].
    unfold self_model in Em1. rewrite getattr_insert in Em1.
    injection Em1 as <-.
    inv_bind H sd w7 El. apply torch_load_Ok in El as (-> & _ & c & Hc & Hu).
    inv_bind H m' w8 Es.
    eapply load_state_dict_Ok in Es as (-> & Hm' & Hl); [| exact Hm].
    injection H as <- <-. exists m'. rewrite insert_insert_eq.
    split_and!; [done | done | congruence | congruence |].
    intros c' _ Hc'. exists sd, m. rewrite Hfs5, Hfs, Hc' in Hc.
    injection Hc as ->. done.
  - inv_bind H u w5 Ep. apply print_Ok_inv in Ep as (Hfs5 & _ & Htr5 & _).
    injection H as <- <-. exists m.
    split_and!; [done | done | congruence | congruence |].
    intros c Hne Hc. unfold path_exists in Ee. rewrite Hfs, Hc in Ee.
    rewrite bool_decide_eq_true_2 in Ee by done.
    rewrite bool_decide_eq_true_2 in Ee by eauto. discriminate Ee.
Qed.

Lemma torch_randn_Ok shape w0 x w1 :
  torch_randn shape w0 = (Ok x, w1) →
  t_shape x = shape ∧ w_fs w1 = w_fs w0 ∧ w_trace w1 = w_trace w0.
Proof.
  unfold torch_randn, with_rng. rewrite bind_unfold.
  destruct (randn_data shape (w_rng w0)) as [d r]. mstep.
  intros H. injection H as <- <-. done.
Qed.

(** What [parse_config] returns, and the world it leaves. *)
Lemma parse_config_Ok self cfg w0 self' w1 :
  self_cfg self = Ok cfg →
  parse_config self w0 = (Ok self', w1) →
  ∃ m x,
    module_of_config cfg m
    ∧ t_shape x = [1; 3; cfg_img_height cfg; cfg_img_width cfg]%Z
    ∧ self' =
        <["optimizer" :=
            PyOptimizer {| adam_moments := adam_init (mod_state m) |}]>
          (<["label_encoder" :=
               PyEncoder (encoder_of_config cfg (get_predictor_shapes m x))]>
             (<["criterion" :=
                  PyCriterion
                    {| loss_alpha := tc_alpha (cfg_train_cfg cfg);
                       loss_neg_pos_ratio :=
                         tc_neg_pos_ratio (cfg_train_cfg cfg) |}]>
                (<["model" := PyModel m]> self)))
    ∧ w_trace w1 =
        w_trace w0 ++
        [Call_generate_anchor_boxes_model (get_predictor_shapes m x)
           (cfg_scales cfg) (cfg_aspect_ratios cfg)]
    ∧ fs_lookup (w_fs w1)
        (path_components (tc_checkpoint_dir (cfg_train_cfg cfg)))
      = Some (Dir ∅)
    ∧ ∀ c, checkpoint_path (cfg_train_cfg cfg) ≠ EmptyString →
           fs_lookup (w_fs w0)
             (path_components (checkpoint_path (cfg_train_cfg cfg)))
           = Some (File c) →
           ∃ sd m0, unpickle c = Some sd ∧ module_of_config cfg m0
                    ∧ load_parameters m0 sd = Some (mod_state m).
Proof.
  intros Hcfg H. unfold parse_config in H.
  inv_bind H self1 w2 Eb.
  eapply build_model_Ok in Eb as (m & -> & Hm & Hfs & Htr & Hload);
    [| exact Hcfg].
  inv_bind H cfg' w3 Ec. apply lift_Ok_inv in Ec as [Ec ->].
  rewrite self_cfg_insert_ne in Ec by done.
  assert (cfg' = cfg) as -> by congruence.
  inv_bind H x w4 Ex. apply torch_randn_Ok in Ex as (Hx & Hfs4 & Htr4).
  inv_bind H m1 w5 Em1. apply lift_Ok_inv in Em1 as [Em1 ->].
  unfold self_model in Em1. rewrite getattr_insert_ne in Em1 by done.
  rewrite getattr_insert in Em1. injection Em1 as <-.
  inv_bind H boxes w6 Eg. unfold call_generate_anchor_boxes_model in Eg.
  inv_bind Eg u w7 Ee. injection Ee as _ <-. injection Eg as <- <-.
  inv_bind H m2 w8 Em2. apply lift_Ok_inv in Em2 as [Em2 ->].
  unfold self_model in Em2. rewrite !getattr_insert_ne in Em2 by done.
  rewrite getattr_insert in Em2. injection Em2 as <-.
  apply rmtree_makedirs_Ok in H as (w9 & H & Hdir & Htr9 & _ & _).
  injection H as <- <-. exists m, x.
  split_and!; [done | done | reflexivity | | done | done].
  rewrite Htr9. simpl. by rewrite Htr4, Htr.
Qed.

(** What [Trainer.__init__] returns, and the world it leaves. *)
Lemma Trainer__init___Ok cfg w0 self w1 :
  Trainer__init__ cfg w0 = (Ok self, w1) →
  ∃ m x,
    module_of_config cfg m
    ∧ t_shape x = [1; 3; cfg_img_height cfg; cfg_img_width cfg]%Z
    ∧ self_cfg self = Ok cfg
    ∧ self_model self = Ok m
    ∧ self_label_encoder self
      = Ok (encoder_of_config cfg (get_predictor_shapes m x))
    ∧ w_trace w1 =
        w_trace w0 ++
        [Call_generate_anchor_boxes_model (get_predictor_shapes m x)
           (cfg_scales cfg) (cfg_aspect_ratios cfg)]
    ∧ fs_lookup (w_fs w1)
        (path_components (tc_checkpoint_dir (cfg_train_cfg cfg)))
      = Some (Dir ∅)
    ∧ ∀ c, checkpoint_path (cfg_train_cfg cfg) ≠ EmptyString →
           fs_lookup (w_fs w0)
             (path_components (checkpoint_path (cfg_train_cfg cfg)))
           = Some (File c) →
           ∃ sd m0, unpickle c = Some sd ∧ module_of_config cfg m0
                    ∧ load_parameters m0 sd = Some (mod_state m).
Proof.
  unfold Trainer__init__. intros H. inv_bind H self1 w2 Ep.
  pose proof (quiet_prepare_data {["cfg" := PyConfig cfg]} w0) as Hq.
  rewrite Ep in Hq. simpl in Hq. destruct Hq as (Hfs & _ & Htr).
  apply prepare_data_Ok in Ep as (cfg' & tds & eds & Hcfg & ->).
  assert (cfg' = cfg) as -> by (by injection Hcfg).
  eapply parse_config_Ok in H
    as (m & x & Hm & Hx & -> & Htr1 & Hdir & Hload);
    [| by rewrite !self_cfg_insert_ne by done].
  exists m, x. split_and!; try done.
  - by rewrite Htr1, Htr.
  - by rewrite <- Hfs.
Qed.

(** ** The epochs keep the label encoder *)

Lemma emits_call_label_encoder P enc objs :
  P (Call_label_encoder enc objs) →
  emits P (λ _, True) (call_label_encoder enc objs).
Proof.
  intros HP. unfold call_label_encoder. eapply emits_bind.
  - by apply emits_emit.
  - intros _ _. by apply emits_ret.
Qed.

Lemma emits_call_criterion P crit output labels :
  P (Call_criterion crit output labels) →
  emits P (λ _, True) (call_criterion crit output labels).
Proof.
  intros HP. unfold call_criterion. eapply emits_bind.
  - by apply emits_emit.
  - intros _ _. by apply emits_ret.
Qed.

Lemma self_label_encoder_insert_ne (self : pyobj) attr v :
  attr ≠ "label_encoder" →
  self_label_encoder (<[attr := v]> self) = self_label_encoder self.
Proof. intros H. unfold self_label_encoder. by rewrite getattr_insert_ne. Qed.

Lemma train_batch_uses_encoder enc st sample :
  self_label_encoder st.1 = Ok enc →
  emits (uses_encoder enc) (λ st', self_label_encoder st'.1 = Ok enc)
    (train_batch st sample).
Proof.
  destruct st as [self total]. simpl. intros Henc. unfold train_batch.
  emits_step. emits_step. simpl in *.
  assert (a0 = enc) as -> by congruence.
  eapply emits_bind; [by apply emits_call_label_encoder |]. intros labels _.
  emits_step.
  eapply emits_bind; [by apply emits_call_criterion |]. intros loss _.
  emits_step. emits_step.
  destruct (adam_step _ _ _) as [moments sd]. apply emits_ret. simpl.
  by rewrite !self_label_encoder_insert_ne.
Qed.

Lemma evaluate_batch_uses_encoder enc st sample :
  self_label_encoder st.1 = Ok enc →
  emits (uses_encoder enc) (λ st', self_label_encoder st'.1 = Ok enc)
    (evaluate_batch st sample).
Proof.
  destruct st as [self total]. simpl. intros Henc. unfold evaluate_batch.
  emits_step. emits_step. simpl in *.
  assert (a0 = enc) as -> by congruence.
  eapply emits_bind; [by apply emits_call_label_encoder |]. intros labels _.
  emits_step.
  eapply emits_bind; [by apply emits_call_criterion |]. intros loss _.
  emits_step. by apply emits_ret.
Qed.

Lemma train_on_epoch_uses_encoder enc self epoch :
  self_label_encoder self = Ok enc →
  emits (uses_encoder enc) (λ r, self_label_encoder r.1 = Ok enc)
    (train_on_epoch self epoch).
Proof.
  intros Henc. unfold train_on_epoch. emits_step. emits_step. emits_step.
  eapply emits_bind.
  - apply emits_for_each_then
      with (I := λ st : pyobj * pyval, self_label_encoder st.1 = Ok enc).
    + intros st x Hst _. by apply train_batch_uses_encoder.
    + simpl. by rewrite self_label_encoder_insert_ne.
  - intros [self' total] Hst. simpl in Hst. emits_step. emits_step.
    by apply emits_ret.
Qed.

Lemma evaluate_on_epoch_uses_encoder enc self epoch :
  self_label_encoder self = Ok enc →
  emits (uses_encoder enc) (λ r, self_label_encoder r.1 = Ok enc)
    (evaluate_on_epoch self epoch).
Proof.
  intros Henc. unfold evaluate_on_epoch. emits_step. emits_step. emits_step.
  eapply emits_bind.
  - apply emits_for_each_then
      with (I := λ st : pyobj * pyval, self_label_encoder st.1 = Ok enc).
    + intros st x Hst _. by apply evaluate_batch_uses_encoder.
    + simpl. by rewrite self_label_encoder_insert_ne.
  - intros [self' total] Hst. simpl in Hst. emits_step. emits_step.
    by apply emits_ret.
Qed.

Lemma run_epoch_uses_encoder enc self epoch :
  self_label_encoder self = Ok enc →
  emits (uses_encoder enc) (λ self', self_label_encoder self' = Ok enc)
    (run_epoch self epoch).
Proof.
  intros Henc. unfold run_epoch. eapply emits_bind.
  { by apply train_on_epoch_uses_encoder. }
  intros [self1 train_loss] H1. simpl in H1. eapply emits_bind.
  { by apply evaluate_on_epoch_uses_encoder. }
  intros [self2 eval_loss] H2. simpl in H2.
  do 6 emits_step. by apply emits_ret.
Qed.

Lemma Trainer_run_uses_encoder enc self :
  self_label_encoder self = Ok enc →
  emits (uses_encoder enc) (λ self', self_label_encoder self' = Ok enc)
    (Trainer_run self).
Proof.
  intros Henc. unfold Trainer_run. do 3 emits_step.
  apply emits_for_each
    with (I := λ self' : pyobj, self_label_encoder self' = Ok enc);
    [| done].
  intros s x Hs _. by apply run_epoch_uses_encoder.
Qed.

(** ** What an epoch does *)

Lemma only_updated_refl (self : pyobj) :
  only_model_and_optimizer_updated self self.
Proof. intros attr v H. by left. Qed.

Lemma only_updated_trans (s1 s2 s3 : pyobj) :
  only_model_and_optimizer_updated s1 s2 →
  only_model_and_optimizer_updated s2 s3 →
  only_model_and_optimizer_updated s1 s3.
Proof.
  intros H12 H23 attr v H. destruct (H23 attr v H) as [H2|H2]; [| by right].
  by apply H12.
Qed.

Lemma only_updated_model (self : pyobj) m :
  only_model_and_optimizer_updated self (<["model" := PyModel m]> self).
Proof.
  intros attr v H. destruct (decide (attr = "model")) as [->|Hne].
  - rewrite lookup_insert_eq in H. injection H as <-. right. left. eauto.
  - rewrite lookup_insert_ne in H by done. by left.
Qed.

Lemma only_updated_optimizer (self : pyobj) o :
  only_model_and_optimizer_updated self
    (<["optimizer" := PyOptimizer o]> self).
Proof.
  intros attr v H. destruct (decide (attr = "optimizer")) as [->|Hne].
  - rewrite lookup_insert_eq in H. injection H as <-. right. right. eauto.
  - rewrite lookup_insert_ne in H by done. by left.
Qed.

Lemma py_add_float total x total' :
  py_add total (PyFloat x) = Ok total' → total' = add_loss total x.
Proof.
  destruct total; simpl; intros H; try discriminate H; by injection H as <-.
Qed.

Lemma emit_Ok_inv c w0 u w1 :
  emit c w0 = (Ok u, w1) →
  w_trace w1 = w_trace w0 ++ [c] ∧ w_fs w1 = w_fs w0 ∧ w_rng w1 = w_rng w0.
Proof. unfold emit. intros H. injection H as _ <-. done. Qed.

Lemma call_label_encoder_Ok enc objs w0 labels w1 :
  call_label_encoder enc objs w0 = (Ok labels, w1) →
  labels = encode enc objs
  ∧ w_trace w1 = w_trace w0 ++ [Call_label_encoder enc objs]
  ∧ w_fs w1 = w_fs w0 ∧ w_rng w1 = w_rng w0.
Proof.
  unfold call_label_encoder. intros H. inv_bind H u w E.
  apply emit_Ok_inv in E. injection H as <- <-. done.
Qed.

Lemma call_criterion_Ok crit output labels w0 loss w1 :
  call_criterion crit output labels w0 = (Ok loss, w1) →
  loss = ssd_loss crit output labels
  ∧ w_trace w1 = w_trace w0 ++ [Call_criterion crit output labels]
  ∧ w_fs w1 = w_fs w0 ∧ w_rng w1 = w_rng w0.
Proof.
  unfold call_criterion. intros H. inv_bind H u w E.
  apply emit_Ok_inv in E. injection H as <- <-. done.
Qed.

Lemma self_criterion_insert_ne (self : pyobj) attr v :
  attr ≠ "criterion" →
  self_criterion (<[attr := v]> self) = self_criterion self.
Proof. intros H. unfold self_criterion. by rewrite getattr_insert_ne. Qed.

Lemma self_loader_insert_ne (self : pyobj) attr attr' v :
  attr ≠ attr' →
  self_loader (<[attr := v]> self) attr' = self_loader self attr'.
Proof. intros H. unfold self_loader. by rewrite getattr_insert_ne. Qed.

(** One iteration of the training loop. *)
Lemma train_batch_Ok self total s w0 self' total' w1 :
  train_batch (self, total) s w0 = (Ok (self', total'), w1) →
  ∃ m enc crit,
    self_model self = Ok m
    ∧ self_label_encoder self = Ok enc
    ∧ self_criterion self = Ok crit
    ∧ w_trace w1
      = w_trace w0 ++ batch_calls enc crit (s, forward m (s_image s))
    ∧ total' = add_loss total (batch_loss enc crit (s, forward m (s_image s)))
    ∧ only_model_and_optimizer_updated self self'
    ∧ (∀ attr, attr ≠ "model" → attr ≠ "optimizer" →
               getattr self' attr = getattr self attr)
    ∧ w_fs w1 = w_fs w0 ∧ w_rng w1 = w_rng w0.
Proof.
  unfold train_batch. intros H.
  inv_bind H m w Em. apply lift_Ok_inv in Em as [Em ->].
  inv_bind H enc w Ee. apply lift_Ok_inv in Ee as [Ee ->].
  inv_bind H labels w2 El.
  apply call_label_encoder_Ok in El as (-> & Htr2 & Hfs2 & Hrng2).
  inv_bind H crit w Ec. apply lift_Ok_inv in Ec as [Ec ->].
  inv_bind H loss w3 Ecr.
  apply call_criterion_Ok in Ecr as (-> & Htr3 & Hfs3 & Hrng3).
  inv_bind H t w Et. apply lift_Ok_inv in Et as [Et ->].
  apply py_add_float in Et.
  inv_bind H opt w Eo. apply lift_Ok_inv in Eo as [Eo ->].
  destruct (adam_step _ _ _) as [moments sd].
  injection H as <- <- <-. exists m, enc, crit.
  split_and!; try done.
  - rewrite Htr3, Htr2, <- app_assoc. reflexivity.
  - eapply only_updated_trans;
      [apply only_updated_model | apply only_updated_optimizer].
  - intros attr H1 H2. by rewrite !getattr_insert_ne.
  - congruence.
  - congruence.
Qed.

(** One iteration of the evaluation loop. *)
Lemma evaluate_batch_Ok self total s w0 self' total' w1 :
  evaluate_batch (self, total) s w0 = (Ok (self', total'), w1) →
  ∃ m enc crit,
    self_model self = Ok m
    ∧ self_label_encoder self = Ok enc
    ∧ self_criterion self = Ok crit
    ∧ w_trace w1
      = w_trace w0 ++ batch_calls enc crit (s, forward m (s_image s))
    ∧ total' = add_loss total (batch_loss enc crit (s, forward m (s_image s)))
    ∧ self' = self
    ∧ w_fs w1 = w_fs w0 ∧ w_rng w1 = w_rng w0.
Proof.
  unfold evaluate_batch. intros H.
  inv_bind H m w Em. apply lift_Ok_inv in Em as [Em ->].
  inv_bind H enc w Ee. apply lift_Ok_inv in Ee as [Ee ->].
  inv_bind H labels w2 El.
  apply call_label_encoder_Ok in El as (-> & Htr2 & Hfs2 & Hrng2).
  inv_bind H crit w Ec. apply lift_Ok_inv in Ec as [Ec ->].
  inv_bind H loss w3 Ecr.
  apply call_criterion_Ok in Ecr as (-> & Htr3 & Hfs3 & Hrng3).
  inv_bind H t w Et. apply lift_Ok_inv in Et as [Et ->].
  apply py_add_float in Et.
  injection H as <- <- <-. exists m, enc, crit.
  split_and!; try done.
  - rewrite Htr3, Htr2, <- app_assoc. reflexivity.
  - congruence.
  - congruence.
Qed.

Lemma for_each_cons_Ok {A S} (body : S → A → M S) s x l w0 s' w2 :
  for_each body s (x :: l) w0 = (Ok s', w2) →
  ∃ s1 w1, body s x w0 = (Ok s1, w1) ∧ for_each body s1 l w1 = (Ok s', w2).
Proof. simpl. apply bind_Ok_inv. Qed.

(** The training loop over the batches [batches]. *)
Lemma train_loop_Ok enc crit batches : ∀ self total w0 self' total' w1,
  for_each train_batch (self, total) batches w0 = (Ok (self', total'), w1) →
  self_label_encoder self = Ok enc →
  self_criterion self = Ok crit →
  ∃ outputs,
    length outputs = length batches
    ∧ w_trace w1
      = w_trace w0 ++ flat_map (batch_calls enc crit) (zip batches outputs)
    ∧ total'
      = fold_left add_loss
          (batch_loss enc crit <$> zip batches outputs) total
    ∧ only_model_and_optimizer_updated self self'
    ∧ (∀ attr, attr ≠ "model" → attr ≠ "optimizer" →
               getattr self' attr = getattr self attr).
Proof.
  induction batches as [|s batches IH]; intros self total w0 self' total' w1 H
    Henc Hcrit.
  - injection H as <- <- <-. exists []. simpl. rewrite app_nil_r.
    split_and!; try done. apply only_updated_refl.
  - apply for_each_cons_Ok in H as ([self1 total1] & w & Hb & H).
    apply train_batch_Ok in Hb
      as (m & enc' & crit' & Hm & He & Hc & Htr & Ht & Hup & Hattr & _ & _).
    assert (enc' = enc) as -> by congruence.
    assert (crit' = crit) as -> by congruence.
    apply IH in H as (outputs & Hlen & Htr' & Ht' & Hup' & Hattr').
    + exists (forward m (s_image s) :: outputs). simpl.
      split_and!.
      * by rewrite Hlen.
      * rewrite Htr', Htr, <- app_assoc. reflexivity.
      * by rewrite Ht', Ht.
      * by eapply only_updated_trans.
      * intros attr H1 H2. rewrite Hattr' by done. by apply Hattr.
    + unfold self_label_encoder. rewrite Hattr by done. exact Henc.
    + unfold self_criterion. rewrite Hattr by done. exact Hcrit.
Qed.

(** The evaluation loop over the batches [batches]. *)
Lemma evaluate_loop_Ok enc crit m batches : ∀ self total w0 self' total' w1,
  for_each evaluate_batch (self, total) batches w0
  = (Ok (self', total'), w1) →
  self_model self = Ok m →
  self_label_encoder self = Ok enc →
  self_criterion self = Ok crit →
  self' = self
  ∧ w_trace w1
    = w_trace w0 ++
      flat_map (batch_calls enc crit)
        (zip batches (forward m ∘ s_image <$> batches))
  ∧ total'
    = fold_left add_loss
        (batch_loss enc crit
         <$> zip batches (forward m ∘ s_image <$> batches)) total.
Proof.
  induction batches as [|s batches IH]; intros self total w0 self' total' w1 H
    Hmod Henc Hcrit.
  - injection H as <- <- <-. simpl. by rewrite app_nil_r.
  - apply for_each_cons_Ok in H as ([self1 total1] & w & Hb & H).
    apply evaluate_batch_Ok in Hb
      as (m' & enc' & crit' & Hm & He & Hc & Htr & Ht & -> & _ & _).
    assert (m' = m) as -> by congruence.
    assert (enc' = enc) as -> by congruence.
    assert (crit' = crit) as -> by congruence.
    apply IH in H as (-> & Htr' & Ht'); try done.
    split_and!; [done | |].
    + simpl. rewrite Htr', Htr, <- app_assoc. reflexivity.
    + simpl. by rewrite Ht', Ht.
Qed.

Lemma iterate_Ok loader w0 it w1 :
  iterate loader w0 = (Ok it, w1) →
  it = (loader_iter loader (w_fs w0) (w_rng w0)).1
  ∧ w_trace w1 = w_trace w0 ∧ w_fs w1 = w_fs w0.
Proof.
  unfold iterate, with_rng. mstep.
  destruct (loader_iter loader (w_fs w0) (w_rng w0)) as [it' r].
  intros H. injection H as <- <-. done.
Qed.

Lemma for_each_then_Ok {A S} (body : S → A → M S) s it w0 s' w1 :
  for_each_then body s it w0 = (Ok s', w1) →
  it.2 = None ∧ for_each body s it.1 w0 = (Ok s', w1).
Proof.
  unfold for_each_then. intros H. inv_bind H s1 w E.
  destruct (it.2); [discriminate H |]. injection H as <- <-. done.
Qed.

Lemma py_truediv_int_Ok total n r :
  py_truediv total (PyInt n) = Ok r → n ≠ 0%Z.
Proof.
  destruct total; simpl; try discriminate; case_bool_decide; done.
Qed.

(** What [train_on_epoch] does when it returns. *)
Lemma train_on_epoch_Ok self enc crit epoch w0 self' r w1 :
  train_on_epoch self epoch w0 = (Ok (self', r), w1) →
  self_label_encoder self = Ok enc →
  self_criterion self = Ok crit →
  ∃ loader outputs,
    self_loader self "train_loader" = Ok loader
    ∧ (loader_iter loader (w_fs w0) (w_rng w0)).1.2 = None
    ∧ length outputs
      = length (loader_iter loader (w_fs w0) (w_rng w0)).1.1
    ∧ w_trace w1
      = w_trace w0 ++
        flat_map (batch_calls enc crit)
          (zip (loader_iter loader (w_fs w0) (w_rng w0)).1.1 outputs)
    ∧ loader_len loader ≠ 0%Z
    ∧ py_truediv
        (accumulated_loss
           (batch_loss enc crit
            <$> zip (loader_iter loader (w_fs w0) (w_rng w0)).1.1 outputs))
        (PyInt (loader_len loader)) = Ok r
    ∧ only_model_and_optimizer_updated self self'.
Proof.
  unfold train_on_epoch. intros H Henc Hcrit.
  inv_bind H m w Em. apply lift_Ok_inv in Em as [Em ->].
  inv_bind H loader w El. apply lift_Ok_inv in El as [El ->].
  rewrite self_loader_insert_ne in El by done.
  inv_bind H it w2 Ei. apply iterate_Ok in Ei as (-> & Htr2 & Hfs2).
  inv_bind H st w3 Ef. destruct st as [self1 total].
  apply for_each_then_Ok in Ef as [Hnone Ef].
  eapply train_loop_Ok in Ef
    as (outputs & Hlen & Htr3 & Ht & Hup & Hattr);
    [| by rewrite self_label_encoder_insert_ne
     | by rewrite self_criterion_insert_ne].
  inv_bind H loader' w El'. apply lift_Ok_inv in El' as [El' ->].
  unfold self_loader in El'. rewrite Hattr in El' by done.
  rewrite getattr_insert_ne in El' by done.
  fold (self_loader self "train_loader") in El'.
  assert (loader' = loader) as -> by congruence.
  inv_bind H r' w Er. apply lift_Ok_inv in Er as [Er ->].
  injection H as <- <- <-. exists loader, outputs.
  split_and!; try done.
  - by rewrite Htr3, Htr2.
  - by eapply py_truediv_int_Ok.
  - unfold accumulated_loss. by rewrite <- Ht.
  - eapply only_updated_trans; [apply only_updated_model | exact Hup].
Qed.

(** What [evaluate_on_epoch] does when it returns. *)
Lemma evaluate_on_epoch_Ok self enc crit epoch w0 self' r w1 :
  evaluate_on_epoch self epoch w0 = (Ok (self', r), w1) →
  self_label_encoder self = Ok enc →
  self_criterion self = Ok crit →
  ∃ m loader,
    self_model self = Ok m
    ∧ self_loader self "eval_loader" = Ok loader
    ∧ (loader_iter loader (w_fs w0) (w_rng w0)).1.2 = None
    ∧ w_trace w1
      = w_trace w0 ++
        flat_map (batch_calls enc crit)
          (zip (loader_iter loader (w_fs w0) (w_rng w0)).1.1
             (forward (set_training false m) ∘ s_image
              <$> (loader_iter loader (w_fs w0) (w_rng w0)).1.1))
    ∧ loader_len loader ≠ 0%Z
    ∧ py_truediv
        (accumulated_loss
           (batch_loss enc crit
            <$> zip (loader_iter loader (w_fs w0) (w_rng w0)).1.1
                  (forward (set_training false m) ∘ s_image
                   <$> (loader_iter loader (w_fs w0) (w_rng w0)).1.1)))
        (PyInt (loader_len loader)) = Ok r
    ∧ self' = <["model" := PyModel (set_training false m)]> self.
Proof.
  unfold evaluate_on_epoch. intros H Henc Hcrit.
  inv_bind H m w Em. apply lift_Ok_inv in Em as [Em ->].
  inv_bind H loader w El. apply lift_Ok_inv in El as [El ->].
  rewrite self_loader_insert_ne in El by done.
  inv_bind H it w2 Ei. apply iterate_Ok in Ei as (-> & Htr2 & Hfs2).
  inv_bind H st w3 Ef. destruct st as [self1 total].
  apply for_each_then_Ok in Ef as [Hnone Ef].
  eapply (evaluate_loop_Ok enc crit (set_training false m)) in Ef
    as (-> & Htr3 & Ht);
    [| unfold self_model; by rewrite getattr_insert
     | by rewrite self_label_encoder_insert_ne
     | by rewrite self_criterion_insert_ne].
  inv_bind H loader' w El'. apply lift_Ok_inv in El' as [El' ->].
  rewrite self_loader_insert_ne in El' by done.
  assert (loader' = loader) as -> by congruence.
  inv_bind H r' w Er. apply lift_Ok_inv in Er as [Er ->].
  injection H as <- <- <-. exists m, loader.
  split_and!; try done.
  - by rewrite Htr3, Htr2.
  - by eapply py_truediv_int_Ok.
  - unfold accumulated_loss. by rewrite <- Ht.
Qed.

(** An epoch over a loader without batches and of length zero. *)
Lemma train_on_epoch_no_batch self m loader epoch w0 r' :
  self_model self = Ok m →
  self_loader self "train_loader" = Ok loader →
  loader_iter loader (w_fs w0) (w_rng w0) = (([], None), r') →
  loader_len loader = 0%Z →
  train_on_epoch self epoch w0
  = (Raise ZeroDivisionError,
     {| w_fs := w_fs w0; w_rng := r'; w_stdout := w_stdout w0;
        w_trace := w_trace w0 |}).
Proof.
  intros Hm Hl Hit Hlen. unfold train_on_epoch.
  rewrite bind_unfold. unfold lift at 1. rewrite Hm. cbv beta iota.
  rewrite bind_unfold. unfold lift at 1.
  rewrite self_loader_insert_ne by done. rewrite Hl. cbv beta iota.
  rewrite bind_unfold. unfold iterate at 1, with_rng. mstep. rewrite Hit.
  unfold for_each_then. mstep.
  rewrite self_loader_insert_ne by done. rewrite Hl. mstep.
  rewrite Hlen. reflexivity.
Qed.

Lemma evaluate_on_epoch_no_batch self m loader epoch w0 r' :
  self_model self = Ok m →
  self_loader self "eval_loader" = Ok loader →
  loader_iter loader (w_fs w0) (w_rng w0) = (([], None), r') →
  loader_len loader = 0%Z →
  evaluate_on_epoch self epoch w0
  = (Raise ZeroDivisionError,
     {| w_fs := w_fs w0; w_rng := r'; w_stdout := w_stdout w0;
        w_trace := w_trace w0 |}).
Proof.
  intros Hm Hl Hit Hlen. unfold evaluate_on_epoch.
  rewrite bind_unfold. unfold lift at 1. rewrite Hm. cbv beta iota.
  rewrite bind_unfold. unfold lift at 1.
  rewrite self_loader_insert_ne by done. rewrite Hl. cbv beta iota.
  rewrite bind_unfold. unfold iterate at 1, with_rng. mstep. rewrite Hit.
  unfold for_each_then. mstep.
  rewrite self_loader_insert_ne by done. rewrite Hl. mstep.
  rewrite Hlen. reflexivity.
Qed.

(** ** The trace of [Eval.run] *)

Lemma trace_ext_impl (P P' : call → Prop) w0 w1 :
  (∀ c, P c → P' c) → trace_ext P w0 w1 → trace_ext P' w0 w1.
Proof.
  intros HP (evs & H & F). exists evs. split; [exact H |].
  eapply Forall_impl; eassumption.
Qed.

Lemma emits_cv2_rectangle P img pt1 pt2 color thickness :
  P (Call_cv2_rectangle img pt1 pt2 color thickness) →
  emits P (λ img', im_h img' = im_h img ∧ im_w img' = im_w img)
    (cv2_rectangle img pt1 pt2 color thickness).
Proof.
  intros HP. unfold cv2_rectangle. eapply emits_bind.
  - by apply emits_emit.
  - intros _ _. by apply emits_ret.
Qed.

Lemma emits_cv2_putText P img text org font font_scale color thickness :
  P (Call_cv2_putText img text org font font_scale color thickness) →
  emits P (λ img', im_h img' = im_h img ∧ im_w img' = im_w img)
    (cv2_putText img text org font font_scale color thickness).
Proof.
  intros HP. unfold cv2_putText. eapply emits_bind.
  - by apply emits_emit.
  - intros _ _. by apply emits_ret.
Qed.

Lemma emits_call_decode_output P y_pred conf_thresh iou_thresh :
  P (Call_decode_output [PyArray y_pred]
       [("conf_thresh", conf_thresh); ("iou_thresh", iou_thresh)]) →
  emits P (λ r, r = decode_output y_pred conf_thresh iou_thresh)
    (call_decode_output y_pred conf_thresh iou_thresh).
Proof.
  intros HP. unfold call_decode_output. eapply emits_bind.
  - by apply emits_emit.
  - intros _ _. by apply emits_ret.
Qed.

Lemma scale_from_1_Ok (box box' : ndarray) scalex scaley :
  scale_from 1 box scalex scaley = Ok box' →
  ∃ cls xmin ymin xmax ymax,
    box = [cls; xmin; ymin; xmax; ymax]
    ∧ box' = [cls; fmul xmin scalex; fmul ymin scaley;
              fmul xmax scalex; fmul ymax scaley].
Proof.
  unfold scale_from.
  destruct box as [|a [|b [|c [|d [|e [|f box]]]]]]; simpl; try discriminate.
  intros H. injection H as <-. by eexists _, _, _, _, _.
Qed.

Lemma scale_from_2_Ok (box box' : ndarray) scalex scaley :
  scale_from 2 box scalex scaley = Ok box' →
  ∃ cls conf xmin ymin xmax ymax,
    box = [cls; conf; xmin; ymin; xmax; ymax]
    ∧ box' = [cls; conf; fmul xmin scalex; fmul ymin scaley;
              fmul xmax scalex; fmul ymax scaley].
Proof.
  unfold scale_from.
  destruct box as [|a [|b [|c [|d [|e [|f [|k box]]]]]]]; simpl;
    try discriminate.
  intros H. injection H as <-. by eexists _, _, _, _, _, _.
Qed.

Section EvalRun.
Context (g self : pyobj) (batches : list sample).

Let P := eval_call_ok g self batches.

(** Lines 45-49: the rectangles of the ground truth are red. *)
Lemma draw_label_box_emits f scalex scaley (img0 img : image) box :
  im_h img = im_h img0 ∧ im_w img = im_w img0 →
  emits P (λ img', im_h img' = im_h img0 ∧ im_w img' = im_w img0)
    (draw_label_box g f scalex scaley img box).
Proof.
  intros [Hh Hw]. unfold draw_label_box. do 7 emits_step.
  eapply emits_bind; [emits_leaf |]. intros box' Hbox'. simpl in Hbox'.
  apply scale_from_1_Ok in Hbox'
    as (cls & xmin & ymin & xmax & ymax & -> & ->).
  do 2 emits_step. simpl.
  eapply emits_weaken.
  - apply emits_cv2_rectangle. split; [done |]. simpl. intros Hc.
    discriminate Hc.
  - simpl. intros img' [? ?]. split; congruence.
Qed.

(** Lines 53-58: the rectangles of the detections are blue, at the scaled
    coordinates. *)
Lemma draw_detection_emits f font scalex scaley img_height img_width
    (img0 img : image) box :
  lookup_name g "img_height" = Ok img_height →
  lookup_name g "img_width" = Ok img_width →
  int_truediv (im_h img0) img_height = Ok scaley →
  int_truediv (im_w img0) img_width = Ok scalex →
  decoded box →
  im_h img = im_h img0 ∧ im_w img = im_w img0 →
  emits P (λ img', im_h img' = im_h img0 ∧ im_w img' = im_w img0)
    (draw_detection g f font scalex scaley img box).
Proof.
  intros Hih Hiw Hsy Hsx Hdec [Hh Hw]. unfold draw_detection.
  do 8 emits_step.
  eapply emits_bind; [emits_leaf |]. intros box' Hbox'. simpl in Hbox'.
  apply scale_from_2_Ok in Hbox'
    as (cls & conf & xmin & ymin & xmax & ymax & -> & ->).
  do 2 emits_step. simpl.
  eapply emits_bind.
  - apply emits_cv2_rectangle. split; [done |]. simpl. intros _.
    exists img_height, img_width, scaley, scalex, cls, conf, xmin, ymin,
      xmax, ymax.
    rewrite Hh, Hw. done.
  - intros img1 [Hh1 Hw1]. do 2 emits_step.
    eapply emits_weaken; [by apply emits_cv2_putText |].
    simpl. intros img' [? ?]. split; congruence.
Qed.

(** Lines 40-60: one image of the batch. *)
Lemma eval_image_emits font yp label filename :
  (∀ box, box ∈ yp → decoded box) →
  emits P (λ _, True) (eval_image g self font tt (yp, label, filename)).
Proof.
  intros Hyp. unfold eval_image. do 4 emits_step.
  eapply emits_bind; [emits_leaf |]. intros oimg _.
  destruct oimg as [img|]; [| emits_leaf].
  eapply emits_bind; [emits_leaf |]. intros img_height Hih.
  eapply emits_bind; [emits_leaf |]. intros scaley Hsy.
  eapply emits_bind; [emits_leaf |]. intros img_width Hiw.
  eapply emits_bind; [emits_leaf |]. intros scalex Hsx.
  simpl in Hih, Hsy, Hiw, Hsx. do 4 emits_step.
  eapply emits_bind.
  { apply emits_for_each
      with (I := λ img' : image, im_h img' = im_h img ∧ im_w img' = im_w img);
      [| done].
    intros img' box Himg' _. by apply draw_label_box_emits. }
  intros img1 Himg1. do 4 emits_step.
  eapply emits_bind.
  { apply emits_for_each
      with (I := λ img' : image, im_h img' = im_h img ∧ im_w img' = im_w img);
      [| exact Himg1].
    intros img' box Himg' Hbox.
    eapply draw_detection_emits; eauto. }
  intros img2 Himg2. emits_go.
Qed.

Lemma elem_of_zip3 {A B C} (a : list A) (b : list B) (c : list C) x y z :
  (x, y, z) ∈ zip3 a b c → x ∈ a.
Proof.
  revert b c. induction a as [|x' a IH]; intros [|y' b] [|z' c] H;
    simpl in H; try by apply elem_of_nil in H.
  apply elem_of_cons in H as [H|H].
  - injection H as -> _ _. left.
  - right. by eapply IH.
Qed.

(** Lines 32-60: one batch. *)
Lemma eval_batch_emits font total sample :
  sample ∈ batches →
  emits P (λ _, True) (eval_batch g self font total sample).
Proof.
  intros Hs. unfold eval_batch. do 2 emits_step.
  eapply emits_bind; [emits_leaf |]. intros n _.
  eapply emits_bind; [emits_leaf |]. intros m Hm. simpl in Hm.
  emits_step.
  eapply emits_bind; [emits_leaf |]. intros ec Hec. simpl in Hec.
  eapply emits_bind; [emits_leaf |]. intros ec' Hec'. simpl in Hec'.
  assert (ec' = ec) as -> by congruence.
  eapply emits_bind.
  { apply emits_call_decode_output. split; [| done].
    exists m, ec, sample. done. }
  intros dets ->. emits_step.
  eapply emits_bind.
  { apply emits_for_each with (I := λ _ : unit, True); [| done].
    intros [] [[yp label] filename] _ Hitem.
    apply eval_image_emits. intros box Hbox.
    apply elem_of_zip3 in Hitem. unfold decoded. eauto 10. }
  intros _ _. by apply emits_ret.
Qed.

(** The loop of [run] and what follows it. *)
Lemma eval_loop_emits font total (it : list sample * option exn) :
  it.1 = batches →
  emits P (λ _, True)
    (total ← for_each_then (eval_batch g self font) total it;
     use_callable g "print" "builtins.print";;
     print ["Total images: "; pretty total]).
Proof.
  intros Hit. eapply emits_bind.
  { apply emits_for_each_then with (I := λ _ : Z, True); [| done].
    intros t s _ Hs. rewrite Hit in Hs.
    eapply emits_weaken; [by apply eval_batch_emits | done]. }
  intros t _. emits_go.
Qed.
End EvalRun.

(** Every call that [Eval.run] adds to the trace is as the source has it:
    the decoder is called with the network output for a batch of the
    loader and the two thresholds, and the detections are drawn at the
    scaled coordinates. *)
Lemma Eval_run_trace (g self : pyobj) (w0 : world) :
  trace_ext (eval_call_ok g self (eval_batches self w0)) w0
    (Eval_run g self w0).2.
Proof.
  unfold Eval_run. rewrite bind_unfold.
  destruct (use_module g "cv2" "cv2" "FONT_HERSHEY_SIMPLEX" w0)
    as [[[]|e] w1] eqn:E1.
  2:{ simpl. pose proof (emits_use_module
        (eval_call_ok g self (eval_batches self w0))
        g "cv2" "cv2" "FONT_HERSHEY_SIMPLEX" w0) as [Ht _].
      by rewrite E1 in Ht. }
  assert (w1 = w0) as ->.
  { unfold use_module in E1. inv_bind E1 v w Ev.
    apply lift_Ok_inv in Ev as [_ ->]. by apply lift_Ok_inv in E1 as [_ ->]. }
  rewrite bind_unfold. unfold lift at 1. unfold eval_batches.
  destruct (self_loader self "eval_loader") as [loader|e];
    [| apply trace_ext_refl].
  cbv beta iota. rewrite bind_unfold.
  destruct (iterate loader w0) as [[it|e] w2] eqn:E2.
  2:{ unfold iterate, with_rng in E2. revert E2. mstep.
      by destruct (loader_iter loader (w_fs w0) (w_rng w0)). }
  apply iterate_Ok in E2 as (-> & Htr & _).
  eapply trace_ext_trans; [by apply trace_ext_same |].
  by apply eval_loop_emits.
Qed.

(** ** The rectangles that [Eval.run] draws for the detections *)















(** * eval.py: the names [run] needs *)

Lemma eval_globals_unbound :
  Forall (λ name, lookup_name eval_globals name = Raise (NameError name))
    ["cv2"; "os"; "np"; "device"; "images_dir"; "img_height"; "img_width";
     "SSDDataset"].
Proof. repeat constructor. Qed.

(** The two methods that would set [model] and [eval_loader] fail on an
    unbound name as well: [build_model] on [device], after the network is
    constructed, and [prepare_data] on [SSDDataset]. *)
Lemma Eval_build_model_raises (cfg : Config) (w0 : world) :
  (Eval_build_model eval_globals {["cfg" := PyConfig cfg]} w0).1
  = Raise (NameError "device").
Proof.
  unfold Eval_build_model. rewrite bind_unfold.
  change (use_callable eval_globals "SSDModel" "model.SSDModel" w0)
    with (Ok tt, w0).
  cbv beta iota. rewrite bind_unfold.
  change (lift (self_cfg {["cfg" := PyConfig cfg]}) w0) with (Ok cfg, w0).
  cbv beta iota. rewrite bind_unfold.
  destruct (new_module_run "SSDModel" (cfg_img_width cfg)
              (cfg_img_height cfg) (cfg_nclasses cfg) (cfg_scales cfg)
              (cfg_aspect_ratios cfg) w0) as (sd & gr & r & _ & ->).
  reflexivity.
Qed.

Lemma Eval_prepare_data_raises (cfg : Config) (w0 : world) :
  Eval_prepare_data eval_globals {["cfg" := PyConfig cfg]} w0
  = (Raise (NameError "SSDDataset"), w0).
Proof. reflexivity. Qed.

Lemma Eval__init___attributes (cfg : Config) :
  Forall (λ attr, getattr ({["cfg" := PyConfig cfg]} : pyobj) attr
                  = Raise (AttributeError attr))
    ["eval_cfg"; "model"; "eval_loader"].
Proof. repeat constructor. Qed.

(** C8: for every configuration and in every world, [Eval(cfg).run()]
    raises [NameError] for [cv2] (the first statement that reads a global
    name) and leaves the world, and so the trace of calls, as it was: no
    batch is read, no detection is decoded.  Moreover none of the names
    [cv2], [os], [np], [device], [images_dir], [img_height], [img_width] is
    bound in the module or in the builtins, and the instance built by
    [__init__] has none of the attributes [eval_cfg], [model] and
    [eval_loader] that [run] reads. *)
Theorem Eval_run_raises_NameError (cfg : Config) (w0 : world) :
  (Eval__init__ cfg ≫= Eval_run eval_globals) w0
    = (Raise (NameError "cv2"), w0)
  ∧ Forall (λ name, lookup_name eval_globals name = Raise (NameError name))
      ["cv2"; "os"; "np"; "device"; "images_dir"; "img_height"; "img_width"]
  ∧ Eval__init__ cfg w0 = (Ok {["cfg" := PyConfig cfg]}, w0)
  ∧ Forall (λ attr, getattr ({["cfg" := PyConfig cfg]} : pyobj) attr
                    = Raise (AttributeError attr))
      ["eval_cfg"; "model"; "eval_loader"].
Proof.
  split; [reflexivity |]. split; [| split; [reflexivity |]].
  - pose proof eval_globals_unbound as H.
    repeat (apply Forall_cons in H as [? H]). repeat constructor; done.
  - apply Eval__init___attributes.
Qed.

(** * train.py: construction *)

(** C2: a configuration whose model name is neither ['SSDModel'] nor
    ['Vgg19BaseSSD'] makes [Trainer.__init__] raise, whatever the world.
    When [prepare_data] has returned, the exception is the one
    [build_model] raises, ['Model name not found!'].  Up to that point the
    file system, the generator and the trace of calls are those of the
    start: no batch was drawn, nothing was encoded, no loss computed. *)
Theorem Trainer__init___unknown_model (cfg : Config) (w0 : world) :
  tc_model_name (cfg_train_cfg cfg) ≠ "SSDModel" →
  tc_model_name (cfg_train_cfg cfg) ≠ "Vgg19BaseSSD" →
  ∃ e w1,
    Trainer__init__ cfg w0 = (Raise e, w1)
    ∧ w_fs w1 = w_fs w0 ∧ w_rng w1 = w_rng w0 ∧ w_trace w1 = w_trace w0
    ∧ ∀ self w', prepare_data {["cfg" := PyConfig cfg]} w0 = (Ok self, w') →
                 e = Exception_ "Model name not found!" ∧ w1 = w'.
Proof.
  intros Hssd Hvgg. unfold Trainer__init__. rewrite bind_unfold.
  pose proof (quiet_prepare_data {["cfg" := PyConfig cfg]} w0) as Hq.
  destruct (prepare_data {["cfg" := PyConfig cfg]} w0) as [[self|e] w1] eqn:E;
    simpl in Hq.
  - exists (Exception_ "Model name not found!"), w1.
    apply prepare_data_Ok in E as (cfg' & tds & eds & Hcfg & ->).
    assert (cfg' = cfg) as -> by (by injection Hcfg).
    split;
      [| destruct Hq as (? & ? & ?); split_and!; try done;
         by intros ? ? [= _ <-]].
    unfold parse_config, build_model. rewrite bind_unfold.
    rewrite (bind_unfold (lift _)).
    rewrite !self_cfg_insert_ne by done. rewrite Hcfg. simpl.
    rewrite bool_decide_eq_false_2 by done.
    rewrite bool_decide_eq_false_2 by done. reflexivity.
  - exists e, w1. split; [reflexivity |].
    destruct Hq as (? & ? & ?). by split_and!.
Qed.


(** C10: [build_model] on a world where the checkpoint path does not
    exist.  With one of the two known model names it returns normally: the
    model is the freshly constructed network, the message
    ['Checkpoint file ... don't exists'] is printed, and nothing else
    changes but the generator that gave the initial parameters.  With any
    other name it raises ['Model name not found!'], the only exception it
    can raise there. *)
Theorem build_model_missing_checkpoint (self : pyobj) (cfg : Config)
    (w0 : world) :
  self_cfg self = Ok cfg →
  path_exists (w_fs w0) (checkpoint_path (cfg_train_cfg cfg)) = false →
  (tc_model_name (cfg_train_cfg cfg) = "SSDModel"
   ∨ tc_model_name (cfg_train_cfg cfg) = "Vgg19BaseSSD" →
   ∃ m w1,
     new_module (tc_model_name (cfg_train_cfg cfg)) (cfg_img_width cfg)
       (cfg_img_height cfg) (cfg_nclasses cfg) (cfg_scales cfg)
       (cfg_aspect_ratios cfg) w0 = (Ok m, w1)
     ∧ build_model self w0
       = (Ok (<["model" := PyModel m]> self),
          {| w_fs := w_fs w0; w_rng := w_rng w1;
             w_stdout :=
               w_stdout w0 ++
               ["Checkpoint file "
                +:+ checkpoint_path (cfg_train_cfg cfg)
                +:+ " don't exists"];
             w_trace := w_trace w0 |}))
  ∧ (tc_model_name (cfg_train_cfg cfg) ≠ "SSDModel" →
     tc_model_name (cfg_train_cfg cfg) ≠ "Vgg19BaseSSD" →
     build_model self w0 = (Raise (Exception_ "Model name not found!"), w0)).
Proof.
  intros Hcfg Hex. split.
  - intros Hname.
    destruct (new_module_run (tc_model_name (cfg_train_cfg cfg))
                (cfg_img_width cfg) (cfg_img_height cfg) (cfg_nclasses cfg)
                (cfg_scales cfg) (cfg_aspect_ratios cfg) w0)
      as (sd & g & r & _ & Hnew).
    eexists _, _. split; [exact Hnew |].
    unfold build_model. rewrite bind_unfold. unfold lift at 1.
    rewrite Hcfg. cbv beta iota.
    assert (∀ k : pyobj → M pyobj,
              ((if bool_decide (tc_model_name (cfg_train_cfg cfg) = "SSDModel")
                then
                  m ← new_module "SSDModel" (cfg_img_width cfg)
                        (cfg_img_height cfg) (cfg_nclasses cfg)
                        (cfg_scales cfg) (cfg_aspect_ratios cfg);
                  mret (<["model" := PyModel m]> self)
                else if bool_decide
                          (tc_model_name (cfg_train_cfg cfg) = "Vgg19BaseSSD")
                then
                  m ← new_module "Vgg19BaseSSD" (cfg_img_width cfg)
                        (cfg_img_height cfg) (cfg_nclasses cfg)
                        (cfg_scales cfg) (cfg_aspect_ratios cfg);
                  mret (<["model" := PyModel m]> self)
                else raise (Exception_ "Model name not found!")) ≫= k) w0
              = (m ← new_module (tc_model_name (cfg_train_cfg cfg))
                       (cfg_img_width cfg) (cfg_img_height cfg)
                       (cfg_nclasses cfg) (cfg_scales cfg)
                       (cfg_aspect_ratios cfg);
                 k (<["model" := PyModel m]> self)) w0) as Hif.
    { intros k. destruct Hname as [Hn|Hn]; rewrite Hn.
      - rewrite bool_decide_eq_true_2 by done. by rewrite bind_assoc.
      - rewrite bool_decide_eq_false_2 by done.
        rewrite bool_decide_eq_true_2 by done. by rewrite bind_assoc. }
    rewrite Hif. rewrite (bind_Ok _ _ _ _ _ Hnew).
    unfold os_path_exists. mstep. rewrite Hex. reflexivity.
  - intros Hn1 Hn2. unfold build_model. rewrite bind_unfold.
    unfold lift at 1. rewrite Hcfg. cbv beta iota.
    rewrite bind_unfold.
    rewrite bool_decide_eq_false_2 by done.
    rewrite bool_decide_eq_false_2 by done. reflexivity.
Qed.

(** C4: under the geometry assumption on the absent network code
    ([shapes_from_geometry]), two constructions of a trainer from the same
    configuration, in any two worlds (different generator states,
    different files), end with the same label encoder, hence with the same
    list of anchor boxes: the entries drawn by [torch.randn] do not reach
    it. *)
Theorem anchor_boxes_deterministic (cfg : Config) (w1 w2 w1' w2' : world)
    (self1 self2 : pyobj) :
  shapes_from_geometry →
  Trainer__init__ cfg w1 = (Ok self1, w1') →
  Trainer__init__ cfg w2 = (Ok self2, w2') →
  ∃ enc,
    self_label_encoder self1 = Ok enc ∧ self_label_encoder self2 = Ok enc
    ∧ ∃ shapes,
        enc_anchor_boxes enc
        = generate_anchor_boxes_model shapes (cfg_scales cfg)
            (cfg_aspect_ratios cfg).
Proof.
  intros Hgeo H1 H2.
  apply Trainer__init___Ok in H1
    as (m1 & x1 & Hm1 & Hx1 & _ & _ & He1 & _).
  apply Trainer__init___Ok in H2
    as (m2 & x2 & Hm2 & Hx2 & _ & _ & He2 & _).
  assert (get_predictor_shapes m2 x2 = get_predictor_shapes m1 x1) as Heq.
  { apply Hgeo; [| congruence].
    destruct Hm1 as (? & ? & ? & ? & ? & ?).
    destruct Hm2 as (? & ? & ? & ? & ? & ?).
    unfold same_geometry. split_and!; congruence. }
  rewrite Heq in He2. eexists. split; [exact He1 |]. split; [exact He2 |].
  eexists. reflexivity.
Qed.

(** * train.py: the epochs *)

(** C3: when [Trainer.__init__] returns, the trace of the construction
    holds exactly one call of [generate_anchor_boxes_model], and the label
    encoder of the instance is built from its result.  From then on, for
    every instance that holds this encoder, [train_on_epoch],
    [evaluate_on_epoch] and [run] make no call of
    [generate_anchor_boxes_model], encode with this encoder only, and
    return an instance that still holds it. *)
Theorem anchor_boxes_generated_once (cfg : Config) (w0 w1 : world)
    (self : pyobj) :
  Trainer__init__ cfg w0 = (Ok self, w1) →
  ∃ shapes,
    w_trace w1
    = w_trace w0 ++
      [Call_generate_anchor_boxes_model shapes (cfg_scales cfg)
         (cfg_aspect_ratios cfg)]
    ∧ self_label_encoder self = Ok (encoder_of_config cfg shapes)
    ∧ ∀ self' : pyobj,
        self_label_encoder self' = Ok (encoder_of_config cfg shapes) →
        (∀ epoch,
           emits (uses_encoder (encoder_of_config cfg shapes))
             (λ r, self_label_encoder r.1
                   = Ok (encoder_of_config cfg shapes))
             (train_on_epoch self' epoch))
        ∧ (∀ epoch,
             emits (uses_encoder (encoder_of_config cfg shapes))
               (λ r, self_label_encoder r.1
                     = Ok (encoder_of_config cfg shapes))
               (evaluate_on_epoch self' epoch))
        ∧ emits (uses_encoder (encoder_of_config cfg shapes))
            (λ self'', self_label_encoder self''
                       = Ok (encoder_of_config cfg shapes))
            (Trainer_run self').
Proof.
  intros H.
  apply Trainer__init___Ok in H
    as (m & x & _ & _ & _ & _ & Henc & Htr & _).
  exists (get_predictor_shapes m x). split; [exact Htr |].
  split; [exact Henc |]. intros self' Henc'. split_and!.
  - intros epoch. by apply train_on_epoch_uses_encoder.
  - intros epoch. by apply evaluate_on_epoch_uses_encoder.
  - by apply Trainer_run_uses_encoder.
Qed.

(** C5, as the code has it: the two epoch functions divide the accumulated
    loss by [len(loader)] without a guard.  When one of them returns, the
    length of its loader is not zero and the value is the accumulated loss
    of the batches divided by that length; on a loader of length zero that
    yields no batch it raises [ZeroDivisionError]. *)
Theorem epoch_loss_division (self : pyobj) (enc : SSDLabelEncoder)
    (crit : SSDLoss) (epoch : Z) (w0 : world) :
  self_label_encoder self = Ok enc →
  self_criterion self = Ok crit →
  (∀ self' r w1,
     train_on_epoch self epoch w0 = (Ok (self', r), w1) →
     ∃ loader outputs,
       self_loader self "train_loader" = Ok loader
       ∧ loader_len loader ≠ 0%Z
       ∧ length outputs
         = length (loader_iter loader (w_fs w0) (w_rng w0)).1.1
       ∧ py_truediv
           (accumulated_loss
              (batch_loss enc crit
               <$> zip (loader_iter loader (w_fs w0) (w_rng w0)).1.1
                     outputs))
           (PyInt (loader_len loader)) = Ok r)
  ∧ (∀ self' r w1,
       evaluate_on_epoch self epoch w0 = (Ok (self', r), w1) →
       ∃ m loader,
         self_model self = Ok m
         ∧ self_loader self "eval_loader" = Ok loader
         ∧ loader_len loader ≠ 0%Z
         ∧ py_truediv
             (accumulated_loss
                (batch_loss enc crit
                 <$> zip (loader_iter loader (w_fs w0) (w_rng w0)).1.1
                       (forward (set_training false m) ∘ s_image
                        <$> (loader_iter loader (w_fs w0) (w_rng w0)).1.1)))
             (PyInt (loader_len loader)) = Ok r)
  ∧ (∀ m loader r',
       self_model self = Ok m →
       loader_iter loader (w_fs w0) (w_rng w0) = (([], None), r') →
       loader_len loader = 0%Z →
       (self_loader self "train_loader" = Ok loader →
        (train_on_epoch self epoch w0).1 = Raise ZeroDivisionError)
       ∧ (self_loader self "eval_loader" = Ok loader →
          (evaluate_on_epoch self epoch w0).1 = Raise ZeroDivisionError)).
Proof.
  intros Henc Hcrit. split_and!.
  - intros self' r w1 H.
    eapply train_on_epoch_Ok in H
      as (loader & outputs & ? & ? & ? & ? & ? & ? & ?); [| done | done].
    by exists loader, outputs.
  - intros self' r w1 H.
    eapply evaluate_on_epoch_Ok in H
      as (m & loader & ? & ? & ? & ? & ? & ? & ?); [| done | done].
    by exists m, loader.
  - intros m loader r' Hm Hit Hlen. split; intros Hl.
    + by erewrite train_on_epoch_no_batch.
    + by erewrite evaluate_on_epoch_no_batch.
Qed.

(** C7: when an epoch function returns, the calls it has added to the
    trace are, batch after batch in the order of the loader, one encoding
    of the ground truth of that batch followed by one loss of the output
    of the network against that very encoding; and the instance it
    returns has the attributes of the one it was given, except for the
    network in [model] and the optimizer in [optimizer]: no encoded
    target is kept on it. *)
Theorem encoded_targets_per_batch (self : pyobj) (enc : SSDLabelEncoder)
    (crit : SSDLoss) (epoch : Z) (w0 : world) :
  self_label_encoder self = Ok enc →
  self_criterion self = Ok crit →
  (∀ self' r w1,
     train_on_epoch self epoch w0 = (Ok (self', r), w1) →
     ∃ loader outputs,
       self_loader self "train_loader" = Ok loader
       ∧ length outputs
         = length (loader_iter loader (w_fs w0) (w_rng w0)).1.1
       ∧ w_trace w1
         = w_trace w0 ++
           flat_map (batch_calls enc crit)
             (zip (loader_iter loader (w_fs w0) (w_rng w0)).1.1 outputs)
       ∧ only_model_and_optimizer_updated self self')
  ∧ (∀ self' r w1,
       evaluate_on_epoch self epoch w0 = (Ok (self', r), w1) →
       ∃ m loader,
         self_model self = Ok m
         ∧ self_loader self "eval_loader" = Ok loader
         ∧ w_trace w1
           = w_trace w0 ++
             flat_map (batch_calls enc crit)
               (zip (loader_iter loader (w_fs w0) (w_rng w0)).1.1
                  (forward (set_training false m) ∘ s_image
                   <$> (loader_iter loader (w_fs w0) (w_rng w0)).1.1))
         ∧ only_model_and_optimizer_updated self self').
Proof.
  intros Henc Hcrit. split.
  - intros self' r w1 H.
    eapply train_on_epoch_Ok in H
      as (loader & outputs & ? & ? & ? & ? & ? & ? & ?); [| done | done].
    by exists loader, outputs.
  - intros self' r w1 H.
    eapply evaluate_on_epoch_Ok in H
      as (m & loader & ? & ? & ? & ? & ? & ? & ->); [| done | done].
    exists m, loader. split_and!; try done. apply only_updated_model.
Qed.

(** * eval.py: the decoder and the drawing *)

(** C1, as the code has it: whatever the global names, the instance and
    the world, every call of the decoder that [Eval.run] makes has exactly
    one positional argument, the output of the network on the image
    tensor of a whole batch of the evaluation loader, and the two keyword
    arguments [conf_thresh] and [iou_thresh], read from
    [self.eval_cfg.threshold] and [self.eval_cfg.iou_threshold]; no anchor
    list and no variance vector is handed over. *)
Theorem decode_call_arguments (g self : pyobj) (w0 : world) :
  trace_ext (decode_call_as_written self (eval_batches self w0)) w0
    (Eval_run g self w0).2.
Proof.
  eapply trace_ext_impl; [| apply Eval_run_trace].
  intros c [H _]. exact H.
Qed.


(** * Further properties of train.py *)

(** ** Statements that leave the file system alone *)

Lemma keeps_fs_ret {A} (a : A) : keeps_fs (mret a : M A).
Proof. intros w0. done. Qed.

Lemma keeps_fs_raise {A} e : keeps_fs (raise e : M A).
Proof. intros w0. done. Qed.

Lemma keeps_fs_lift {A} (r : result A) : keeps_fs (lift r).
Proof. intros w0. done. Qed.

Lemma keeps_fs_print args : keeps_fs (print args).
Proof. intros w0. done. Qed.

Lemma keeps_fs_emit c : keeps_fs (emit c).
Proof. intros w0. done. Qed.

Lemma keeps_fs_bind {A B} (m : M A) (f : A → M B) :
  keeps_fs m → (∀ a, keeps_fs (f a)) → keeps_fs (m ≫= f).
Proof.
  intros Hm Hf w0. rewrite bind_unfold. specialize (Hm w0).
  destruct (m w0) as [[a|e] w1]; simpl in *; [| done].
  by rewrite Hf.
Qed.

Lemma keeps_fs_for_each {A S} (body : S → A → M S) l :
  (∀ s x, keeps_fs (body s x)) → ∀ s, keeps_fs (for_each body s l).
Proof.
  intros Hbody. induction l as [|x l IH]; intros s; simpl.
  - apply keeps_fs_ret.
  - apply keeps_fs_bind; [apply Hbody | apply IH].
Qed.

Lemma keeps_fs_for_each_then {A S} (body : S → A → M S) it :
  (∀ s x, keeps_fs (body s x)) → ∀ s, keeps_fs (for_each_then body s it).
Proof.
  intros Hbody s. unfold for_each_then. apply keeps_fs_bind.
  - by apply keeps_fs_for_each.
  - intros s'. destruct (it.2); [apply keeps_fs_raise | apply keeps_fs_ret].
Qed.

Lemma keeps_fs_iterate loader : keeps_fs (iterate loader).
Proof.
  intros w0. unfold iterate, with_rng. mstep.
  by destruct (loader_iter loader (w_fs w0) (w_rng w0)).
Qed.

Lemma keeps_fs_call_label_encoder enc objs :
  keeps_fs (call_label_encoder enc objs).
Proof.
  apply keeps_fs_bind; [apply keeps_fs_emit |]. intros _. apply keeps_fs_ret.
Qed.

Lemma keeps_fs_call_criterion crit output labels :
  keeps_fs (call_criterion crit output labels).
Proof.
  apply keeps_fs_bind; [apply keeps_fs_emit |]. intros _. apply keeps_fs_ret.
Qed.

Ltac keeps_fs_step :=
  lazymatch goal with
  | |- keeps_fs (_ ≫= _) => apply keeps_fs_bind; [| intros ?]
  | |- keeps_fs (mret _) => apply keeps_fs_ret
  | |- keeps_fs (raise _) => apply keeps_fs_raise
  | |- keeps_fs (lift _) => apply keeps_fs_lift
  | |- keeps_fs (print _) => apply keeps_fs_print
  | |- keeps_fs (iterate _) => apply keeps_fs_iterate
  | |- keeps_fs (call_label_encoder _ _) => apply keeps_fs_call_label_encoder
  | |- keeps_fs (call_criterion _ _ _) => apply keeps_fs_call_criterion
  | |- keeps_fs (let '(_, _) := ?x in _) => destruct x
  end.

Lemma keeps_fs_train_batch st s : keeps_fs (train_batch st s).
Proof. destruct st as [self total]. unfold train_batch. repeat keeps_fs_step. Qed.

Lemma keeps_fs_evaluate_batch st s : keeps_fs (evaluate_batch st s).
Proof.
  destruct st as [self total]. unfold evaluate_batch. repeat keeps_fs_step.
Qed.

Lemma keeps_fs_train_on_epoch self epoch : keeps_fs (train_on_epoch self epoch).
Proof.
  unfold train_on_epoch.
  apply keeps_fs_bind; [apply keeps_fs_lift |]. intros m.
  apply keeps_fs_bind; [apply keeps_fs_lift |]. intros loader.
  apply keeps_fs_bind; [apply keeps_fs_iterate |]. intros it.
  apply keeps_fs_bind.
  - apply keeps_fs_for_each_then. apply keeps_fs_train_batch.
  - intros [self' total]. repeat keeps_fs_step.
Qed.

Lemma keeps_fs_evaluate_on_epoch self epoch :
  keeps_fs (evaluate_on_epoch self epoch).
Proof.
  unfold evaluate_on_epoch.
  apply keeps_fs_bind; [apply keeps_fs_lift |]. intros m.
  apply keeps_fs_bind; [apply keeps_fs_lift |]. intros loader.
  apply keeps_fs_bind; [apply keeps_fs_iterate |]. intros it.
  apply keeps_fs_bind.
  - apply keeps_fs_for_each_then. apply keeps_fs_evaluate_batch.
  - intros [self' total]. repeat keeps_fs_step.
Qed.

(** ** What the epochs return *)

Lemma evaluate_loop_self batches : ∀ self total w0 self' total' w1,
  for_each evaluate_batch (self, total) batches w0 = (Ok (self', total'), w1) →
  self' = self.
Proof.
  induction batches as [|s batches IH]; intros self total w0 self' total' w1 H.
  - by injection H as <- _ _.
  - apply for_each_cons_Ok in H as ([self1 total1] & w & Hb & H).
    apply evaluate_batch_Ok in Hb as (_ & _ & _ & _ & _ & _ & _ & _ & -> & _).
    by eapply IH.
Qed.

Lemma evaluate_on_epoch_returns self epoch w0 self' r w1 :
  evaluate_on_epoch self epoch w0 = (Ok (self', r), w1) →
  ∃ m loader,
    self_model self = Ok m
    ∧ self_loader self "eval_loader" = Ok loader
    ∧ loader_len loader ≠ 0%Z
    ∧ self' = <["model" := PyModel (set_training false m)]> self
    ∧ ∃ x, r = PyFloat x.
Proof.
  unfold evaluate_on_epoch. intros H.
  inv_bind H m w Em. apply lift_Ok_inv in Em as [Em ->].
  inv_bind H loader w El. apply lift_Ok_inv in El as [El ->].
  rewrite self_loader_insert_ne in El by done.
  inv_bind H it w2 Ei.
  inv_bind H st w3 Ef. destruct st as [self1 total].
  apply for_each_then_Ok in Ef as [_ Ef].
  apply evaluate_loop_self in Ef as ->.
  inv_bind H loader' w El'. apply lift_Ok_inv in El' as [El' ->].
  rewrite self_loader_insert_ne in El' by done.
  assert (loader' = loader) as -> by congruence.
  inv_bind H r' w Er. apply lift_Ok_inv in Er as [Er ->].
  injection H as <- <- <-. exists m, loader. split_and!; try done.
  - by eapply py_truediv_int_Ok.
  - destruct total; simpl in Er; try discriminate Er;
      case_bool_decide; try discriminate Er; injection Er as <-; eauto.
Qed.

(** One iteration of the training loop, by what it does to the instance:
    the network keeps its class, the arguments of its constructor and its
    mode, the other attributes but the optimizer stay. *)
Lemma train_batch_instance self total s w0 self' total' w1 :
  train_batch (self, total) s w0 = (Ok (self', total'), w1) →
  (∀ attr, attr ≠ "model" → attr ≠ "optimizer" →
           getattr self' attr = getattr self attr)
  ∧ ∃ m m', self_model self = Ok m ∧ self_model self' = Ok m'
            ∧ same_geometry m m' ∧ mod_training m' = mod_training m.
Proof.
  unfold train_batch. intros H.
  inv_bind H m w Em. apply lift_Ok_inv in Em as [Em ->].
  inv_bind H enc w Ee. inv_bind H labels w2 El.
  inv_bind H crit w3 Ec. inv_bind H loss w4 Ecr.
  inv_bind H t w5 Et. inv_bind H opt w6 Eo.
  destruct (adam_step _ _ _) as [moments sd].
  injection H as <- <- <-. split.
  - intros attr H1 H2. by rewrite !getattr_insert_ne.
  - eexists m, _. split; [exact Em |]. split.
    + unfold self_model. rewrite getattr_insert_ne by done.
      by rewrite getattr_insert.
    + done.
Qed.

Lemma same_geometry_trans m1 m2 m3 :
  same_geometry m1 m2 → same_geometry m2 m3 → same_geometry m1 m3.
Proof.
  intros (? & ? & ? & ? & ? & ?) (? & ? & ? & ? & ? & ?).
  unfold same_geometry. split_and!; congruence.
Qed.

Lemma train_loop_instance batches : ∀ self total w0 self' total' w1 m,
  for_each train_batch (self, total) batches w0 = (Ok (self', total'), w1) →
  self_model self = Ok m →
  (∀ attr, attr ≠ "model" → attr ≠ "optimizer" →
           getattr self' attr = getattr self attr)
  ∧ ∃ m', self_model self' = Ok m' ∧ same_geometry m m'
          ∧ mod_training m' = mod_training m.
Proof.
  induction batches as [|s batches IH];
    intros self total w0 self' total' w1 m H Hm.
  - injection H as <- _ _. split; [done |]. by exists m.
  - apply for_each_cons_Ok in H as ([self1 total1] & w & Hb & H).
    apply train_batch_instance in Hb
      as (Hattr & m0 & m1 & Hm0 & Hm1 & Hg & Ht).
    assert (m0 = m) as -> by congruence.
    eapply IH in H as (Hattr' & m' & Hm' & Hg' & Ht'); [| exact Hm1].
    split.
    + intros attr H1 H2. rewrite Hattr' by done. by apply Hattr.
    + exists m'. split_and!; [done | by eapply same_geometry_trans |
                               congruence].
Qed.

Lemma train_on_epoch_returns self epoch w0 self' r w1 :
  train_on_epoch self epoch w0 = (Ok (self', r), w1) →
  ∃ m m' loader,
    self_model self = Ok m
    ∧ self_model self' = Ok m'
    ∧ same_geometry m m' ∧ mod_training m' = true
    ∧ self_loader self "train_loader" = Ok loader
    ∧ loader_len loader ≠ 0%Z
    ∧ (∀ attr, attr ≠ "model" → attr ≠ "optimizer" →
               getattr self' attr = getattr self attr)
    ∧ ∃ x, r = PyFloat x.
Proof.
  unfold train_on_epoch. intros H.
  inv_bind H m w Em. apply lift_Ok_inv in Em as [Em ->].
  inv_bind H loader w El. apply lift_Ok_inv in El as [El ->].
  rewrite self_loader_insert_ne in El by done.
  inv_bind H it w2 Ei.
  inv_bind H st w3 Ef. destruct st as [self1 total].
  apply for_each_then_Ok in Ef as [_ Ef].
  eapply train_loop_instance in Ef as (Hattr & m' & Hm' & Hg & Ht);
    [| unfold self_model; by rewrite getattr_insert].
  inv_bind H loader' w El'. apply lift_Ok_inv in El' as [El' ->].
  unfold self_loader in El'. rewrite Hattr in El' by done.
  rewrite getattr_insert_ne in El' by done.
  fold (self_loader self "train_loader") in El'.
  assert (loader' = loader) as -> by congruence.
  inv_bind H r' w Er. apply lift_Ok_inv in Er as [Er ->].
  injection H as <- <- <-. exists m, m', loader. split_and!; try done.
  - by eapply py_truediv_int_Ok.
  - intros attr H1 H2. rewrite Hattr by done. by rewrite getattr_insert_ne.
  - destruct total; simpl in Er; try discriminate Er;
      case_bool_decide; try discriminate Er; injection Er as <-; eauto.
Qed.

(** ** Files that are written *)

Lemma fs_lookup_put p : ∀ n n' f,
  fs_put n p f = Some n' → fs_lookup n' p = Some (File f).
Proof.
  induction p as [|c p IH]; intros n n' f H.
  - destruct n; simpl in H; [by injection H as <- | done].
  - destruct n as [s|ch]; [done |]. simpl in H.
    destruct p as [|c' p'].
    + destruct (ch !! c) as [n1|] eqn:E.
      * destruct (fs_put n1 [] f) as [n2|] eqn:E'; [| done].
        injection H as <-. simpl. rewrite lookup_insert_eq.
        destruct n1; simpl in E'; [by injection E' as <- | done].
      * injection H as <-. simpl. by rewrite lookup_insert_eq.
    + destruct (ch !! c) as [n1|] eqn:E; [| done].
      destruct (fs_put n1 (c' :: p') f) as [n2|] eqn:E'; [| done].
      injection H as <-.
      change (fs_lookup (Dir ?m) (c :: ?q))
        with (match m !! c with
              | Some n' => fs_lookup n' q
              | None => None
              end).
      rewrite lookup_insert_eq. by eapply IH.
Qed.

Lemma write_file_Ok p c w0 u w1 :
  write_file p c w0 = (Ok u, w1) →
  p ≠ EmptyString
  ∧ fs_lookup (w_fs w1) (path_components p) = Some (File c)
  ∧ w_rng w1 = w_rng w0 ∧ w_stdout w1 = w_stdout w0
  ∧ w_trace w1 = w_trace w0.
Proof.
  unfold write_file. destruct w0 as [fs r out tr]. mstep.
  case_bool_decide as Hp; [intros H; discriminate H |].
  destruct (fs_put fs (path_components p) c) as [fs'|] eqn:E.
  - destruct (fs_lookup fs (path_components p)) as [[s|ch]|];
      mstep; intros H; try discriminate H;
      injection H as _ <-; simpl; split_and!; try done;
      by eapply fs_lookup_put.
  - destruct (fs_lookup fs (path_components p)) as [[s|ch]|];
      mstep; intros H; discriminate H.
Qed.

(** What [read_file] gives for a regular file. *)
Lemma read_file_File p c w :
  p ≠ EmptyString →
  fs_lookup (w_fs w) (path_components p) = Some (File c) →
  read_file p w = (Ok c, w).
Proof.
  intros Hp E. unfold read_file. mstep. rewrite E.
  by rewrite bool_decide_eq_false_2.
Qed.

(** ** The loop of [Trainer.run] *)

Lemma py_fixed4_float x : py_fixed4 (PyFloat x) = Ok (format_float4 x).
Proof. done. Qed.

Lemma self_cfg_model (self : pyobj) m :
  self_cfg (<["model" := PyModel m]> self) = self_cfg self.
Proof. by apply self_cfg_insert_ne. Qed.

(** One iteration of the loop of [run], when it returns. *)
Lemma run_epoch_Ok self epoch w0 self' w1 :
  run_epoch self epoch w0 = (Ok self', w1) →
  ∃ m m' cfg x y,
    self_model self = Ok m
    ∧ self_model self' = Ok m'
    ∧ same_geometry m m' ∧ mod_training m' = false
    ∧ self_cfg self = Ok cfg ∧ self_cfg self' = Ok cfg
    ∧ (∀ attr, attr ≠ "model" → attr ≠ "optimizer" →
               getattr self' attr = getattr self attr)
    ∧ fs_lookup (w_fs w1)
        (path_components
           (os_path_join (tc_checkpoint_dir (cfg_train_cfg cfg))
              ("ssd_" +:+ pretty epoch +:+ "_" +:+ format_float4 x +:+ "_"
               +:+ format_float4 y +:+ ".pth")))
      = Some (File (pickle (mod_state m'))).
Proof.
  unfold run_epoch. intros H.
  inv_bind H st wa Et. destruct st as [self1 tl].
  inv_bind H st w2 Ee. destruct st as [self2 el].
  apply train_on_epoch_returns in Et
    as (m & m1 & l & Hm & Hm1 & Hg & _ & _ & _ & Hattr & x & ->).
  apply evaluate_on_epoch_returns in Ee
    as (m1' & l' & Hm1' & _ & _ & -> & y & ->).
  assert (m1' = m1) as -> by congruence.
  inv_bind H u w3 Ep. apply print_Ok_inv in Ep as (Hfs & _).
  inv_bind H t4 w Ef. apply lift_Ok_inv in Ef as [Ef ->].
  inv_bind H e4 w Ef'. apply lift_Ok_inv in Ef' as [Ef' ->].
  injection Ef as <-. injection Ef' as <-.
  inv_bind H m2 w Em. apply lift_Ok_inv in Em as [Em ->].
  inv_bind H cfg w Ec. apply lift_Ok_inv in Ec as [Ec ->].
  inv_bind H u' w4 Es. injection H as <- <-.
  unfold self_model in Em. rewrite getattr_insert in Em.
  injection Em as <-.
  rewrite self_cfg_model in Ec.
  assert (self_cfg self = Ok cfg) as Hcfg.
  { unfold self_cfg in *. by rewrite <- Hattr. }
  apply write_file_Ok in Es as (_ & Hf & _).
  exists m, (set_training false m1), cfg, x, y. split_and!; try done.
  - unfold self_model. by rewrite getattr_insert.
  - by rewrite self_cfg_model.
  - intros attr H1 H2. rewrite getattr_insert_ne by done. by apply Hattr.
Qed.

Lemma for_each_app {A S} (body : S → A → M S) l1 : ∀ s l2 w,
  for_each body s (l1 ++ l2) w
  = (s' ← for_each body s l1; for_each body s' l2) w.
Proof.
  induction l1 as [|a l1 IH]; intros s l2 w; [done |].
  simpl. rewrite !bind_unfold. destruct (body s a w) as [[s1|e] w'];
    [| done]. rewrite IH. by rewrite bind_unfold.
Qed.

(** The instance after some iterations of the loop of [run]. *)
Lemma run_loop_attributes epochs : ∀ self w0 self' w1,
  for_each run_epoch self epochs w0 = (Ok self', w1) →
  ∀ attr, attr ≠ "model" → attr ≠ "optimizer" →
          getattr self' attr = getattr self attr.
Proof.
  induction epochs as [|epoch epochs IH]; intros self w0 self' w1 H.
  - by injection H as <- _.
  - apply for_each_cons_Ok in H as (self1 & w & Hb & H).
    apply run_epoch_Ok in Hb
      as (_ & _ & _ & _ & _ & _ & _ & _ & _ & _ & _ & Hattr & _).
    intros attr H1 H2. rewrite (IH _ _ _ _ H) by done. by apply Hattr.
Qed.

Lemma run_loop_cfg epochs self w0 self' w1 :
  for_each run_epoch self epochs w0 = (Ok self', w1) →
  self_cfg self' = self_cfg self.
Proof.
  intros H. unfold self_cfg. by rewrite (run_loop_attributes _ _ _ _ _ H).
Qed.

Lemma run_loop_model epochs : ∀ self w0 self' w1 m,
  for_each run_epoch self epochs w0 = (Ok self', w1) →
  self_model self = Ok m →
  ∃ m', self_model self' = Ok m' ∧ same_geometry m m'
        ∧ (epochs ≠ [] → mod_training m' = false).
Proof.
  induction epochs as [|epoch epochs IH]; intros self w0 self' w1 m H Hm.
  - injection H as <- _. by exists m.
  - apply for_each_cons_Ok in H as (self1 & w & Hb & H).
    apply run_epoch_Ok in Hb
      as (m0 & m1 & _ & _ & _ & Hm0 & Hm1 & Hg & Ht & _).
    assert (m0 = m) as -> by congruence.
    pose proof H as H'.
    eapply IH in H as (m' & Hm' & Hg' & Ht'); [| exact Hm1].
    exists m'. split_and!; [done | by eapply same_geometry_trans |].
    intros _. destruct epochs as [|e' es]; [| by apply Ht'].
    injection H' as <- _. congruence.
Qed.

(** [run] up to its loop: two lines are printed. *)
Lemma Trainer_run_unfold self cfg w0 :
  self_cfg self = Ok cfg →
  Trainer_run self w0
  = for_each run_epoch self (seqZ 0 (tc_num_epochs (cfg_train_cfg cfg)))
      {| w_fs := w_fs w0; w_rng := w_rng w0;
         w_stdout :=
           w_stdout w0 ++ ["Start train model!"; "Device:  " +:+ device];
         w_trace := w_trace w0 |}.
Proof.
  intros Hcfg. unfold Trainer_run, print. rewrite Hcfg. mstep.
  by rewrite <- app_assoc.
Qed.

Lemma Trainer_run_Ok_cfg self w0 self' w1 :
  Trainer_run self w0 = (Ok self', w1) → ∃ cfg, self_cfg self = Ok cfg.
Proof.
  unfold Trainer_run. intros H.
  inv_bind H u w Ep. inv_bind H u' w2 Ep'.
  inv_bind H cfg w3 Ec. apply lift_Ok_inv in Ec as [Ec _]. eauto.
Qed.

(** With a loader of length zero an iteration of the loop of [run]
    raises before it saves anything. *)
Lemma run_epoch_empty_loader self epoch attr loader w0 :
  attr = "train_loader" ∨ attr = "eval_loader" →
  self_loader self attr = Ok loader →
  loader_len loader = 0%Z →
  (∃ e, (run_epoch self epoch w0).1 = Raise e)
  ∧ w_fs (run_epoch self epoch w0).2 = w_fs w0.
Proof.
  intros Hattr Hl Hlen. unfold run_epoch. rewrite bind_unfold.
  pose proof (keeps_fs_train_on_epoch self epoch w0) as Hfs.
  destruct (train_on_epoch self epoch w0) as [[[self1 tl]|e] w] eqn:Et;
    simpl in Hfs; [| eauto].
  apply train_on_epoch_returns in Et
    as (_ & _ & l & _ & _ & _ & _ & Hl0 & Hne & Hkeep & _).
  destruct Hattr as [-> | ->]; [congruence |].
  assert (self_loader self1 "eval_loader" = Ok loader) as Hl1.
  { unfold self_loader in *. by rewrite Hkeep. }
  rewrite bind_unfold.
  pose proof (keeps_fs_evaluate_on_epoch self1 epoch w) as Hfs'.
  destruct (evaluate_on_epoch self1 epoch w) as [[[self2 el]|e] w'] eqn:Ee;
    simpl in Hfs'.
  - apply evaluate_on_epoch_returns in Ee as (_ & l' & _ & Hl' & Hne' & _).
    congruence.
  - simpl. split; [eauto | congruence].
Qed.

Lemma seqZ_snoc (n : Z) :
  (0 < n)%Z → seqZ 0 n = seqZ 0 (n - 1) ++ [(n - 1)%Z].
Proof.
  intros Hn. replace n with ((n - 1) + 1)%Z at 1 by lia.
  rewrite seqZ_app by lia. f_equal.
Qed.

Lemma os_path_join_nonempty a c b :
  os_path_join a (String c b) ≠ EmptyString.
Proof.
  unfold os_path_join. destruct (starts_with_slash _); [done |].
  destruct (_ || _); by destruct a.
Qed.


Lemma Trainer_run_raises_empty_loader self cfg attr loader w0 :
  self_cfg self = Ok cfg →
  attr = "train_loader" ∨ attr = "eval_loader" →
  self_loader self attr = Ok loader →
  loader_len loader = 0%Z →
  (0 < tc_num_epochs (cfg_train_cfg cfg))%Z →
  (∃ e, (Trainer_run self w0).1 = Raise e)
  ∧ w_fs (Trainer_run self w0).2 = w_fs w0.
Proof.
  intros Hcfg Hattr Hl Hlen Hn. rewrite (Trainer_run_unfold _ _ _ Hcfg).
  rewrite seqZ_cons by done.
  change (for_each run_epoch self (?e :: ?l))
    with (s' ← run_epoch self e; for_each run_epoch s' l).
  rewrite bind_unfold.
  match goal with |- context [run_epoch self 0 ?w] =>
    destruct (run_epoch_empty_loader self 0 _ _ w Hattr Hl Hlen)
      as [[e He] Hfs];
    destruct (run_epoch self 0 w) as [[s|e'] w'] eqn:E
  end; simpl in *; [discriminate He |]. eauto.
Qed.

(** * Further properties of train.py *)

(** X1: [train_on_epoch] and [evaluate_on_epoch] never write to the file
    system, whether they return or raise: an epoch reads its batches and
    updates the objects in memory, the checkpoints are written by [run]
    alone. *)
Theorem epochs_keep_file_system self epoch :
  keeps_fs (train_on_epoch self epoch)
  ∧ keeps_fs (evaluate_on_epoch self epoch).
Proof.
  split; [apply keeps_fs_train_on_epoch | apply keeps_fs_evaluate_on_epoch].
Qed.

(** X2: when [evaluate_on_epoch] returns, the instance it returns is the
    given one with the network switched to evaluation mode: the parameters
    and the gradients of the network are the ones it had, and every other
    attribute (the optimizer among them) is untouched. *)
Theorem evaluate_on_epoch_only_changes_mode self epoch w0 self' r w1 :
  evaluate_on_epoch self epoch w0 = (Ok (self', r), w1) →
  ∃ m m',
    self_model self = Ok m ∧ self_model self' = Ok m'
    ∧ mod_state m' = mod_state m ∧ mod_grad m' = mod_grad m
    ∧ same_geometry m m' ∧ mod_training m' = false
    ∧ ∀ attr, attr ≠ "model" → getattr self' attr = getattr self attr.
Proof.
  intros H.
  apply evaluate_on_epoch_returns in H as (m & l & Hm & _ & _ & -> & _).
  exists m, (set_training false m). split_and!; try done.
  - unfold self_model. by rewrite getattr_insert.
  - intros attr Hattr. by rewrite getattr_insert_ne.
Qed.

(** X3: when [train_on_epoch] returns, the network is in training mode
    and is of the class and constructor arguments it had before; the
    attributes other than [model] and [optimizer] are untouched, and the
    training loader was not empty. *)
Theorem train_on_epoch_keeps_network_shape self epoch w0 self' r w1 :
  train_on_epoch self epoch w0 = (Ok (self', r), w1) →
  ∃ m m' loader,
    self_model self = Ok m ∧ self_model self' = Ok m'
    ∧ same_geometry m m' ∧ mod_training m' = true
    ∧ self_loader self "train_loader" = Ok loader
    ∧ loader_len loader ≠ 0%Z
    ∧ ∀ attr, attr ≠ "model" → attr ≠ "optimizer" →
              getattr self' attr = getattr self attr.
Proof.
  intros H.
  apply train_on_epoch_returns in H
    as (m & m' & l & Hm & Hm' & Hg & Ht & Hl & Hne & Hattr & _).
  by exists m, m', l.
Qed.

(** X4: with [num_epochs] zero or negative, [run] prints its two lines
    and returns: the instance, the file system, the generator and the
    trace of calls are as before. *)
Theorem Trainer_run_no_epochs self cfg w0 :
  self_cfg self = Ok cfg →
  (tc_num_epochs (cfg_train_cfg cfg) ≤ 0)%Z →
  Trainer_run self w0
  = (Ok self,
     {| w_fs := w_fs w0; w_rng := w_rng w0;
        w_stdout :=
          w_stdout w0 ++ ["Start train model!"; "Device:  " +:+ device];
        w_trace := w_trace w0 |}).
Proof.
  intros Hcfg Hn. rewrite (Trainer_run_unfold _ _ _ Hcfg).
  by rewrite seqZ_nil.
Qed.

(** X6: when the training loader or the evaluation loader has length
    zero and [num_epochs] is positive, [run] raises (in the first epoch)
    and has written no file. *)
Theorem Trainer_run_empty_loader self cfg attr loader w0 :
  self_cfg self = Ok cfg →
  attr = "train_loader" ∨ attr = "eval_loader" →
  self_loader self attr = Ok loader →
  loader_len loader = 0%Z →
  (0 < tc_num_epochs (cfg_train_cfg cfg))%Z →
  (∃ e, (Trainer_run self w0).1 = Raise e)
  ∧ w_fs (Trainer_run self w0).2 = w_fs w0.
Proof. apply Trainer_run_raises_empty_loader. Qed.

(** X7: when [run] returns, every attribute of the instance other than
    [model] and [optimizer] is the one it had (the configuration, the two
    loaders, the criterion and the label encoder are never rebound), and
    the network is still of the class and constructor arguments it was
    built with. *)
Theorem Trainer_run_keeps_attributes self w0 self' w1 :
  Trainer_run self w0 = (Ok self', w1) →
  (∀ attr, attr ≠ "model" → attr ≠ "optimizer" →
           getattr self' attr = getattr self attr)
  ∧ ∀ m, self_model self = Ok m →
         ∃ m', self_model self' = Ok m' ∧ same_geometry m m'.
Proof.
  intros H. destruct (Trainer_run_Ok_cfg _ _ _ _ H) as [cfg Hcfg].
  rewrite (Trainer_run_unfold _ _ _ Hcfg) in H. split.
  - by eapply run_loop_attributes.
  - intros m Hm. eapply run_loop_model in H as (m' & Hm' & Hg & _); eauto.
Qed.



(** ** The construction and the file system *)

Lemma keeps_fs_get_fs : keeps_fs get_fs.
Proof. intros w0. done. Qed.

Lemma keeps_fs_with_rng {A} (f : rng → A * rng) : keeps_fs (with_rng f).
Proof. intros w0. unfold with_rng. by destruct (f (w_rng w0)). Qed.

Lemma keeps_fs_quiet {A} (m : M A) : quiet m → keeps_fs m.
Proof. intros H w0. by destruct (H w0). Qed.

Lemma keeps_fs_new_module cls width height n scales ratios :
  keeps_fs (new_module cls width height n scales ratios).
Proof.
  unfold new_module. apply keeps_fs_bind; [apply keeps_fs_with_rng |].
  intros [sd g]. apply keeps_fs_ret.
Qed.

Lemma keeps_fs_os_path_exists p : keeps_fs (os_path_exists p).
Proof.
  unfold os_path_exists. apply keeps_fs_bind; [apply keeps_fs_get_fs |].
  intros fs. apply keeps_fs_ret.
Qed.

Lemma keeps_fs_read_file p : keeps_fs (read_file p).
Proof.
  unfold read_file. apply keeps_fs_bind; [apply keeps_fs_get_fs |].
  intros fs. destruct (fs_lookup fs (path_components p)) as [[c|ch]|];
    repeat case_bool_decide;
    first [apply keeps_fs_ret | apply keeps_fs_raise].
Qed.

Lemma keeps_fs_torch_load p : keeps_fs (torch_load p).
Proof.
  unfold torch_load. apply keeps_fs_bind; [apply keeps_fs_read_file |].
  intros c. destruct (unpickle c);
    first [apply keeps_fs_ret | apply keeps_fs_raise].
Qed.

Lemma keeps_fs_load_state_dict m sd : keeps_fs (load_state_dict m sd).
Proof.
  unfold load_state_dict. destruct (load_parameters m sd);
    first [apply keeps_fs_ret | apply keeps_fs_raise].
Qed.

Lemma keeps_fs_build_model self : keeps_fs (build_model self).
Proof.
  unfold build_model. apply keeps_fs_bind; [apply keeps_fs_lift |].
  intros cfg. apply keeps_fs_bind.
  { repeat case_bool_decide; try apply keeps_fs_raise;
      (apply keeps_fs_bind; [apply keeps_fs_new_module |]; intros m;
       apply keeps_fs_ret). }
  intros self1. apply keeps_fs_bind; [apply keeps_fs_os_path_exists |].
  intros [|].
  - apply keeps_fs_bind; [apply keeps_fs_print |]. intros _.
    apply keeps_fs_bind; [apply keeps_fs_lift |]. intros m.
    apply keeps_fs_bind; [apply keeps_fs_torch_load |]. intros sd.
    apply keeps_fs_bind; [apply keeps_fs_load_state_dict |]. intros m'.
    apply keeps_fs_ret.
  - apply keeps_fs_bind; [apply keeps_fs_print |]. intros _.
    apply keeps_fs_ret.
Qed.

Lemma keeps_fs_prepare_data self : keeps_fs (prepare_data self).
Proof. apply keeps_fs_quiet, quiet_prepare_data. Qed.

Lemma keeps_fs_torch_randn shape : keeps_fs (torch_randn shape).
Proof.
  unfold torch_randn. apply keeps_fs_bind; [apply keeps_fs_with_rng |].
  intros d. apply keeps_fs_ret.
Qed.

Lemma keeps_fs_call_generate_anchor_boxes_model shapes scales ratios :
  keeps_fs (call_generate_anchor_boxes_model shapes scales ratios).
Proof.
  apply keeps_fs_bind; [apply keeps_fs_emit |]. intros _. apply keeps_fs_ret.
Qed.

(** A statement that keeps the file system, followed by one that raises
    and keeps it. *)
Lemma bind_raises_keeping_fs {A B} (m : M A) (k : A → M B) w0 :
  keeps_fs m →
  (∀ a w, m w0 = (Ok a, w) →
          (∃ e, (k a w).1 = Raise e) ∧ w_fs (k a w).2 = w_fs w) →
  (∃ e, ((m ≫= k) w0).1 = Raise e) ∧ w_fs ((m ≫= k) w0).2 = w_fs w0.
Proof.
  intros Hm Hk. rewrite bind_unfold. specialize (Hm w0).
  destruct (m w0) as [[a|e] w]; simpl in *; [| eauto].
  destruct (Hk a w eq_refl) as [He Hfs]. split; [done | congruence].
Qed.

(** Lines 86-88 of [parse_config] when the checkpoint directory is the
    empty string or a regular file: [os.makedirs] raises. *)
Lemma rmtree_makedirs_raises {A} d (k : M A) w :
  d = EmptyString
  ∨ (∃ s, fs_lookup (w_fs w) (path_components d) = Some (File s)) →
  ∃ e,
    (e ← os_path_exists d;
     b ← (if e : bool then os_path_isdir d else mret false);
     (if b : bool then shutil_rmtree d else mret tt);;
     os_makedirs_exist_ok d;;
     k) w = (Raise e, w)
    ∧ e = (if bool_decide (d = EmptyString) then FileNotFoundError d
           else FileExistsError d).
Proof.
  unfold os_path_exists, os_path_isdir, shutil_rmtree, os_makedirs_exist_ok,
    path_exists, path_isdir.
  destruct w as [fs r out tr]. mstep. intros [-> | [s Hs]].
  - eexists. split; reflexivity.
  - rewrite Hs. destruct (decide (d = EmptyString)) as [->|Hd].
    + eexists. split; reflexivity.
    + rewrite !(bool_decide_eq_true_2 (d ≠ EmptyString)) by done.
      rewrite (bool_decide_eq_false_2 (d = EmptyString)) by done.
      rewrite bool_decide_eq_true_2 by eauto. mstep.
      repeat (rewrite Hs; mstep). eexists. split; reflexivity.
Qed.

Lemma rmtree_makedirs_raises_keeping_fs {A} d (k : M A) w :
  d = EmptyString
  ∨ (∃ s, fs_lookup (w_fs w) (path_components d) = Some (File s)) →
  (∃ e,
     ((e ← os_path_exists d;
       b ← (if e : bool then os_path_isdir d else mret false);
       (if b : bool then shutil_rmtree d else mret tt);;
       os_makedirs_exist_ok d;;
       k) w).1 = Raise e)
  ∧ w_fs ((e ← os_path_exists d;
           b ← (if e : bool then os_path_isdir d else mret false);
           (if b : bool then shutil_rmtree d else mret tt);;
           os_makedirs_exist_ok d;;
           k) w).2 = w_fs w.
Proof.
  intros Hd. destruct (rmtree_makedirs_raises d k w Hd) as (e & He & _).
  rewrite He. eauto.
Qed.

Lemma parse_config_raises self cfg w0 :
  self_cfg self = Ok cfg →
  tc_checkpoint_dir (cfg_train_cfg cfg) = EmptyString
  ∨ (∃ s, fs_lookup (w_fs w0)
            (path_components (tc_checkpoint_dir (cfg_train_cfg cfg)))
          = Some (File s)) →
  (∃ e, (parse_config self w0).1 = Raise e)
  ∧ w_fs (parse_config self w0).2 = w_fs w0.
Proof.
  intros Hcfg Hd. unfold parse_config.
  apply bind_raises_keeping_fs; [apply keeps_fs_build_model |].
  intros self1 w1 Eb.
  apply (build_model_Ok _ _ _ _ _ Hcfg) in Eb as (m & -> & _ & Hfs1 & _).
  rewrite self_cfg_insert_ne, Hcfg by done.
  apply bind_raises_keeping_fs; [apply keeps_fs_lift |].
  intros cfg' w Ec. apply lift_Ok_inv in Ec as [Ec ->]. injection Ec as <-.
  apply bind_raises_keeping_fs; [apply keeps_fs_torch_randn |].
  intros x w2 Ex. apply torch_randn_Ok in Ex as (_ & Hfs2 & _).
  apply bind_raises_keeping_fs; [apply keeps_fs_lift |].
  intros m1 w Em. apply lift_Ok_inv in Em as [Em ->].
  apply bind_raises_keeping_fs;
    [apply keeps_fs_call_generate_anchor_boxes_model |].
  intros boxes w3 Eg.
  assert (w_fs w3 = w_fs w2) as Hfs3.
  { pose proof (keeps_fs_call_generate_anchor_boxes_model
                  (get_predictor_shapes m1 x) (cfg_scales cfg)
                  (cfg_aspect_ratios cfg) w2) as Hk.
    by rewrite Eg in Hk. }
  apply bind_raises_keeping_fs; [apply keeps_fs_lift |].
  intros m2 w Em2. apply lift_Ok_inv in Em2 as [Em2 ->].
  apply rmtree_makedirs_raises_keeping_fs.
  destruct Hd as [Hd | [s Hs]]; [by left | right].
  exists s. by rewrite Hfs3, Hfs2, Hfs1.
Qed.

Lemma Trainer__init___raises cfg w0 :
  tc_checkpoint_dir (cfg_train_cfg cfg) = EmptyString
  ∨ (∃ s, fs_lookup (w_fs w0)
            (path_components (tc_checkpoint_dir (cfg_train_cfg cfg)))
          = Some (File s)) →
  (∃ e, (Trainer__init__ cfg w0).1 = Raise e)
  ∧ w_fs (Trainer__init__ cfg w0).2 = w_fs w0.
Proof.
  intros Hd. unfold Trainer__init__.
  apply bind_raises_keeping_fs; [apply keeps_fs_prepare_data |].
  intros self w1 Ep.
  pose proof (keeps_fs_prepare_data {["cfg" := PyConfig cfg]} w0) as Hfs.
  rewrite Ep in Hfs. simpl in Hfs.
  apply prepare_data_Ok in Ep as (cfg' & tr & ev & Hc & ->).
  injection Hc as <-.
  apply (parse_config_raises _ cfg).
  - by rewrite !self_cfg_insert_ne.
  - destruct Hd as [Hd | [s Hs]]; [by left | right].
    exists s. by rewrite Hfs.
Qed.

(** ** A checkpoint that is found *)

(** What [build_model] has done when it returns and the checkpoint path
    exists. *)
Lemma build_model_found_Ok self cfg w0 self' w1 :
  self_cfg self = Ok cfg →
  path_exists (w_fs w0) (checkpoint_path (cfg_train_cfg cfg)) = true →
  build_model self w0 = (Ok self', w1) →
  ∃ c sd m0 m,
    fs_lookup (w_fs w0)
      (path_components (checkpoint_path (cfg_train_cfg cfg)))
    = Some (File c)
    ∧ unpickle c = Some sd ∧ module_of_config cfg m0
    ∧ load_parameters m0 sd = Some (mod_state m)
    ∧ self' = <["model" := PyModel m]> self
    ∧ w_stdout w1
      = w_stdout w0 ++ ["Loading checkpoint from:  "
                        +:+ checkpoint_path (cfg_train_cfg cfg)].
Proof.
  intros Hcfg Hex H. unfold build_model in H.
  inv_bind H cfg' w Ec. apply lift_Ok_inv in Ec as [Ec ->].
  assert (cfg' = cfg) as -> by congruence.
  inv_bind H self1 w2 E1.
  assert (∃ m, self1 = <["model" := PyModel m]> self
               ∧ module_of_config cfg m
               ∧ w_fs w2 = w_fs w0 ∧ w_stdout w2 = w_stdout w0)
    as (m & -> & Hm & Hfs & Hout).
  { case_bool_decide as Hn1; [| case_bool_decide as Hn2].
    - inv_bind E1 m w3 Em. injection E1 as <- <-.
      rewrite <- Hn1 in Em. apply new_module_Ok in Em as (? & ? & ? & ?).
      eauto.
    - inv_bind E1 m w3 Em. injection E1 as <- <-.
      rewrite <- Hn2 in Em. apply new_module_Ok in Em as (? & ? & ? & ?).
      eauto.
    - discriminate E1. }
  inv_bind H found w3 Ef. unfold os_path_exists in Ef.
  inv_bind Ef fs w4 Eg. injection Eg as <- <-. injection Ef as <- <-.
  rewrite Hfs, Hex in H.
  inv_bind H u w5 Ep. apply print_Ok_inv in Ep as (Hfs5 & _ & _ & Hout5).
  inv_bind H m1 w6 Em1. apply lift_Ok_inv in Em1 as [Em1 ->].
  unfold self_model in Em1. rewrite getattr_insert in Em1.
  injection Em1 as <-.
  inv_bind H sd w7 El. apply torch_load_Ok in El as (-> & _ & c & Hc & Hu).
  inv_bind H m' w8 Es.
  eapply load_state_dict_Ok in Es as (-> & Hm' & Hl); [| exact Hm].
  injection H as <- <-. exists c, sd, m, m'. rewrite insert_insert_eq.
  split_and!; try done; [congruence |].
  rewrite Hout5, Hout. done.
Qed.

Lemma build_model_unusable self cfg w0 :
  self_cfg self = Ok cfg →
  path_exists (w_fs w0) (checkpoint_path (cfg_train_cfg cfg)) = true →
  (∀ c sd m,
     fs_lookup (w_fs w0)
       (path_components (checkpoint_path (cfg_train_cfg cfg)))
     = Some (File c) →
     unpickle c = Some sd → module_of_config cfg m →
     load_parameters m sd = None) →
  (∃ e, (build_model self w0).1 = Raise e)
  ∧ w_fs (build_model self w0).2 = w_fs w0.
Proof.
  intros Hcfg Hex Hbad. split; [| apply keeps_fs_build_model].
  destruct (build_model self w0) as [[self'|e] w1] eqn:E; [| eauto].
  apply (build_model_found_Ok _ _ _ _ _ Hcfg Hex) in E
    as (c & sd & m0 & m & Hc & Hu & Hm0 & Hl & _).
  rewrite (Hbad _ _ _ Hc Hu Hm0) in Hl. discriminate Hl.
Qed.

(** The checkpoint path is a directory: [torch.load] fails to open it. *)
Lemma build_model_directory self cfg w0 ch :
  self_cfg self = Ok cfg →
  tc_model_name (cfg_train_cfg cfg) = "SSDModel"
  ∨ tc_model_name (cfg_train_cfg cfg) = "Vgg19BaseSSD" →
  checkpoint_path (cfg_train_cfg cfg) ≠ EmptyString →
  fs_lookup (w_fs w0)
    (path_components (checkpoint_path (cfg_train_cfg cfg)))
  = Some (Dir ch) →
  (build_model self w0).1
  = Raise (IsADirectoryError (checkpoint_path (cfg_train_cfg cfg))).
Proof.
  intros Hcfg Hname Hne Hdir. unfold build_model.
  rewrite Hcfg.
  assert (∃ m w, w_fs w = w_fs w0 ∧
    (if bool_decide (tc_model_name (cfg_train_cfg cfg) = "SSDModel") then
       m ← new_module "SSDModel" (cfg_img_width cfg) (cfg_img_height cfg)
             (cfg_nclasses cfg) (cfg_scales cfg) (cfg_aspect_ratios cfg);
       mret (<["model" := PyModel m]> self)
     else if bool_decide (tc_model_name (cfg_train_cfg cfg) = "Vgg19BaseSSD")
     then
       m ← new_module "Vgg19BaseSSD" (cfg_img_width cfg) (cfg_img_height cfg)
             (cfg_nclasses cfg) (cfg_scales cfg) (cfg_aspect_ratios cfg);
       mret (<["model" := PyModel m]> self)
     else raise (Exception_ "Model name not found!")) w0
    = (Ok (<["model" := PyModel m]> self), w)) as (m & w & Hfs & E).
  { case_bool_decide as Hn1; [| case_bool_decide as Hn2].
    - destruct (new_module_run "SSDModel" (cfg_img_width cfg)
                  (cfg_img_height cfg) (cfg_nclasses cfg) (cfg_scales cfg)
                  (cfg_aspect_ratios cfg) w0) as (sd & g & r & _ & E).
      eexists _, _. split; [| rewrite bind_unfold, E; reflexivity]. done.
    - destruct (new_module_run "Vgg19BaseSSD" (cfg_img_width cfg)
                  (cfg_img_height cfg) (cfg_nclasses cfg) (cfg_scales cfg)
                  (cfg_aspect_ratios cfg) w0) as (sd & g & r & _ & E).
      eexists _, _. split; [| rewrite bind_unfold, E; reflexivity]. done.
    - by destruct Hname. }
  rewrite bind_unfold. unfold lift at 1. cbv beta iota.
  rewrite bind_unfold, E.
  unfold os_path_exists, path_exists, print, torch_load, read_file,
    self_model.
  rewrite getattr_insert. mstep. rewrite Hfs, Hdir.
  rewrite bool_decide_eq_true_2 by done.
  rewrite bool_decide_eq_true_2 by eauto. mstep.
  rewrite Hfs, Hdir. by rewrite bool_decide_eq_false_2.
Qed.

(** * Further properties of eval.py *)

(** X13: with the names that eval.py binds, [Eval(cfg).build_model()]
    raises [NameError] for [device], after the network has been
    constructed (the generator has advanced, the network is dropped), and
    [Eval(cfg).prepare_data()] raises [NameError] for [SSDDataset] before
    it reads anything: neither [model] nor [eval_loader] can be set by
    the methods of the class. *)
Theorem Eval_setup_raises_NameError (cfg : Config) (w0 : world) :
  (∃ sd gr r,
     init_parameters "SSDModel" (cfg_img_width cfg) (cfg_img_height cfg)
       (cfg_nclasses cfg) (cfg_scales cfg) (cfg_aspect_ratios cfg)
       (w_rng w0) = (sd, gr, r)
     ∧ (self ← Eval__init__ cfg; Eval_build_model eval_globals self) w0
       = (Raise (NameError "device"),
          {| w_fs := w_fs w0; w_rng := r; w_stdout := w_stdout w0;
             w_trace := w_trace w0 |}))
  ∧ (self ← Eval__init__ cfg; Eval_prepare_data eval_globals self) w0
    = (Raise (NameError "SSDDataset"), w0).
Proof.
  split; [| reflexivity].
  destruct (new_module_run "SSDModel" (cfg_img_width cfg)
              (cfg_img_height cfg) (cfg_nclasses cfg) (cfg_scales cfg)
              (cfg_aspect_ratios cfg) w0) as (sd & gr & r & Hi & E).
  exists sd, gr, r. split; [exact Hi |].
  unfold Eval__init__, Eval_build_model. rewrite bind_unfold.
  change ((mret ({["cfg" := PyConfig cfg]} : pyobj) : M pyobj) w0)
    with (Ok ({["cfg" := PyConfig cfg]} : pyobj), w0).
  cbv beta iota. rewrite bind_unfold.
  change (use_callable eval_globals "SSDModel" "model.SSDModel" w0)
    with (Ok tt, w0).
  cbv beta iota. rewrite bind_unfold.
  change (lift (self_cfg {["cfg" := PyConfig cfg]}) w0) with (Ok cfg, w0).
  cbv beta iota. rewrite bind_unfold, E. reflexivity.
Qed.

Lemma use_module_Ok g name module attr w :
  lookup_name g name = Ok (PyModule module) →
  use_module g name module attr w = (Ok tt, w).
Proof.
  intros H. unfold use_module. rewrite H. mstep.
  by rewrite bool_decide_eq_true_2.
Qed.

Lemma use_callable_Ok g name qualname w :
  lookup_name g name = Ok (PyCallable qualname) →
  use_callable g name qualname w = (Ok tt, w).
Proof.
  intros H. unfold use_callable. rewrite H. mstep.
  by rewrite bool_decide_eq_true_2.
Qed.

(** X14: when the loader yields no batch, [run] needs only the names
    [cv2] and [print] and the attribute [eval_loader]: it prints that the
    total is zero and returns; no file is written and nothing is decoded
    or drawn. *)
Theorem Eval_run_no_batches g self loader r w0 :
  lookup_name g "cv2" = Ok (PyModule "cv2") →
  lookup_name g "print" = Ok (PyCallable "builtins.print") →
  self_loader self "eval_loader" = Ok loader →
  loader_iter loader (w_fs w0) (w_rng w0) = (([], None), r) →
  Eval_run g self w0
  = (Ok tt,
     {| w_fs := w_fs w0; w_rng := r;
        w_stdout := w_stdout w0 ++ ["Total images:  0"];
        w_trace := w_trace w0 |}).
Proof.
  intros Hcv2 Hprint Hl Hit. unfold Eval_run.
  rewrite bind_unfold, (use_module_Ok _ _ _ _ _ Hcv2). cbv beta iota.
  rewrite Hl. rewrite bind_unfold. unfold lift at 1. cbv beta iota.
  rewrite bind_unfold. unfold iterate, with_rng. mstep. rewrite Hit.
  unfold for_each_then. mstep.
  rewrite (use_callable_Ok _ _ _ _ Hprint). reflexivity.
Qed.

(** X15: when the image of a sample is not a file that OpenCV can decode
    (it is missing, a directory, or not an image), [cv2.imread] gives
    [None] and line 41 raises [AttributeError] for [shape]; no file has
    been opened or written for that image. *)
Theorem eval_image_unreadable g self font yp label filename images_dir w0 :
  lookup_name g "cv2" = Ok (PyModule "cv2") →
  lookup_name g "os" = Ok (PyModule "os") →
  lookup_name g "images_dir" = Ok (PyStr images_dir) →
  (∀ c, fs_lookup (w_fs w0)
          (path_components (os_path_join images_dir filename))
        = Some (File c) → imdecode c = None) →
  eval_image g self font tt (yp, label, filename) w0
  = (Raise (AttributeError "shape"), w0).
Proof.
  intros Hcv2 Hos Hdir Himg. unfold eval_image.
  rewrite bind_unfold, (use_module_Ok _ _ _ _ _ Hcv2). cbv beta iota.
  rewrite bind_unfold, (use_module_Ok _ _ _ _ _ Hos). cbv beta iota.
  rewrite Hdir. unfold cv2_imread. mstep.
  destruct (fs_lookup (w_fs w0)
              (path_components (os_path_join images_dir filename)))
    as [[c|ch]|] eqn:E; mstep; try reflexivity.
  by rewrite (Himg c).
Qed.

(** ** The files that [Eval.run] writes *)

(** Writing at [p] leaves the regular files at other paths as they are. *)
Lemma fs_put_lookup_file p : ∀ n n' f q c,
  fs_put n p f = Some n' → fs_lookup n q = Some (File c) → q ≠ p →
  fs_lookup n' q = Some (File c).
Proof.
  induction p as [|c0 p IH]; intros n n' f q c Hp Hq Hne.
  - destruct n as [s|ch]; [| done]. destruct q; [done | done].
  - destruct n as [s|ch]; [done |].
    destruct q as [|c1 q]; [done |]. simpl in Hq.
    destruct (ch !! c1) as [n1|] eqn:E1; [| done].
    simpl in Hp.
    destruct (ch !! c0) as [n0|] eqn:E0.
    + assert (∃ n'', fs_put n0 p f = Some n''
                     ∧ n' = Dir (<[c0 := n'']> ch)) as (n'' & Hp' & ->).
      { destruct p; destruct (fs_put n0 _ f) as [n''|]; try done;
          injection Hp as <-; eauto. }
      simpl. destruct (decide (c1 = c0)) as [->|Hc].
      * rewrite lookup_insert_eq. rewrite E0 in E1. injection E1 as ->.
        eapply IH; [exact Hp' | exact Hq | congruence].
      * rewrite lookup_insert_ne by done. by rewrite E1.
    + destruct p; [| done]. injection Hp as <-. simpl.
      destruct (decide (c1 = c0)) as [->|Hc]; [congruence |].
      rewrite lookup_insert_ne by done. by rewrite E1.
Qed.

Lemma write_file_other p c w0 u w1 q c' :
  write_file p c w0 = (Ok u, w1) →
  fs_lookup (w_fs w0) q = Some (File c') → q ≠ path_components p →
  fs_lookup (w_fs w1) q = Some (File c').
Proof.
  unfold write_file. destruct w0 as [fs r out tr]. mstep.
  case_bool_decide as Hp; [intros H; discriminate H |].
  intros H Hq Hne.
  destruct (fs_put fs (path_components p) c) as [fs'|] eqn:E.
  - destruct (fs_lookup fs (path_components p)) as [[s|ch]|];
      revert H; mstep; intros H; try discriminate H;
      injection H as _ <-; simpl; by eapply fs_put_lookup_file.
  - destruct (fs_lookup fs (path_components p)) as [[s|ch]|];
      revert H; mstep; intros H; discriminate H.
Qed.

Lemma keeps_fs_Ok {A} (m : M A) w0 a w1 :
  keeps_fs m → m w0 = (Ok a, w1) → w_fs w1 = w_fs w0.
Proof. intros Hm E. specialize (Hm w0). by rewrite E in Hm. Qed.

Lemma keeps_fs_use_module g name module attr :
  keeps_fs (use_module g name module attr).
Proof.
  unfold use_module. apply keeps_fs_bind; [apply keeps_fs_lift |].
  intros v. apply keeps_fs_lift.
Qed.

Lemma keeps_fs_use_callable g name qualname :
  keeps_fs (use_callable g name qualname).
Proof.
  unfold use_callable. apply keeps_fs_bind; [apply keeps_fs_lift |].
  intros v. apply keeps_fs_lift.
Qed.

Lemma keeps_fs_cv2_rectangle img pt1 pt2 color thickness :
  keeps_fs (cv2_rectangle img pt1 pt2 color thickness).
Proof.
  apply keeps_fs_bind; [apply keeps_fs_emit |]. intros _. apply keeps_fs_ret.
Qed.

Lemma keeps_fs_cv2_putText img text org font font_scale color thickness :
  keeps_fs (cv2_putText img text org font font_scale color thickness).
Proof.
  apply keeps_fs_bind; [apply keeps_fs_emit |]. intros _. apply keeps_fs_ret.
Qed.

Lemma keeps_fs_call_decode_output y conf iou :
  keeps_fs (call_decode_output y conf iou).
Proof.
  apply keeps_fs_bind; [apply keeps_fs_emit |]. intros _. apply keeps_fs_ret.
Qed.

(** [f.write(s)]: the file [f] gets [s] at its end, the other files stay. *)
Lemma f_write_Ok f s w0 u w1 :
  f_write f s w0 = (Ok u, w1) →
  (∃ c, fs_lookup (w_fs w0) (path_components f) = Some (File c)
        ∧ fs_lookup (w_fs w1) (path_components f) = Some (File (c +:+ s)))
  ∧ ∀ q c', q ≠ path_components f →
            fs_lookup (w_fs w0) q = Some (File c') →
            fs_lookup (w_fs w1) q = Some (File c').
Proof.
  unfold f_write. intros H. inv_bind H c w Er.
  assert (w = w0 ∧ fs_lookup (w_fs w0) (path_components f) = Some (File c))
    as [-> Hc].
  { revert Er. unfold read_file. mstep.
    destruct (fs_lookup (w_fs w0) (path_components f)) as [[c0|ch]|];
      repeat case_bool_decide; mstep; intros Er; try discriminate Er.
    by injection Er as <- <-. }
  split.
  - exists c. split; [done |]. by apply write_file_Ok in H as (_ & H & _).
  - intros q c' Hq Hl. by eapply write_file_other.
Qed.

(** [open(p, 'w')] *)
Lemma open_w_Ok p w0 f w1 :
  open_w p w0 = (Ok f, w1) →
  f = p ∧ p ≠ EmptyString
  ∧ fs_lookup (w_fs w1) (path_components p) = Some (File EmptyString)
  ∧ ∀ q c', q ≠ path_components p →
            fs_lookup (w_fs w0) q = Some (File c') →
            fs_lookup (w_fs w1) q = Some (File c').
Proof.
  unfold open_w. intros H. inv_bind H u w E. injection H as <- <-.
  split; [done |]. pose proof E as E'.
  apply write_file_Ok in E as (Hp & Hl & _). split_and!; try done.
  intros q c' Hq Hc. by eapply write_file_other.
Qed.

(** ** The lines of the two text files *)

Lemma string_app_nil_r (s : string) : s +:+ EmptyString = s.
Proof.
  induction s as [|a s IH]; [done |].
  change (String a (s +:+ EmptyString) = String a s). by rewrite IH.
Qed.

Lemma string_app_assoc (a b c : string) : (a +:+ b) +:+ c = a +:+ (b +:+ c).
Proof.
  induction a as [|x a IH]; [done |].
  change (String x ((a +:+ b) +:+ c) = String x (a +:+ (b +:+ c))).
  by rewrite IH.
Qed.

Lemma appended_nil f w0 w1 :
  w_fs w1 = w_fs w0 → appended f EmptyString w0 w1.
Proof.
  intros Hfs. split.
  - intros c Hc. by rewrite string_app_nil_r, Hfs.
  - intros q c' _ Hq. by rewrite Hfs.
Qed.

Lemma appended_trans f s1 s2 w0 w1 w2 :
  appended f s1 w0 w1 → appended f s2 w1 w2 →
  appended f (s1 +:+ s2) w0 w2.
Proof.
  intros [H1 H1'] [H2 H2']. split.
  - intros c Hc. rewrite <- string_app_assoc. by apply H2, H1.
  - intros q c' Hq Hc. by apply H2', H1'.
Qed.

Lemma appended_fs f s w0 w1 w1' :
  w_fs w1' = w_fs w1 → appended f s w0 w1 → appended f s w0 w1'.
Proof. intros Hfs [H1 H2]. split; intros; rewrite Hfs; eauto. Qed.

Lemma f_write_appended f s w0 u w1 :
  f_write f s w0 = (Ok u, w1) → appended f s w0 w1.
Proof.
  intros H. apply f_write_Ok in H as [(c & Hc & Hc') H]. split; [| done].
  intros c0 Hc0. rewrite Hc0 in Hc. by injection Hc as ->.
Qed.

Lemma index_Ok (box : ndarray) i x : index box i = Ok x → box !! i = Some x.
Proof. unfold index. destruct (box !! i); [| done]. by intros [= ->]. Qed.

(** Lines 46-49: the line of a ground-truth box is written with the
    coordinates the box has on the network input. *)
Lemma draw_label_box_Ok g f scalex scaley img box w0 img' w1 :
  draw_label_box g f scalex scaley img box w0 = (Ok img', w1) →
  ∃ line, groundtruth_line box = Some line ∧ appended f line w0 w1.
Proof.
  unfold draw_label_box. intros H.
  inv_bind H u wa E0.
  apply (keeps_fs_Ok _ _ _ _ (keeps_fs_use_callable _ _ _)) in E0 as Hfa.
  inv_bind H b0 w E. apply lift_Ok_inv in E as [Hb0 ->].
  inv_bind H b1 w E. apply lift_Ok_inv in E as [Hb1 ->].
  inv_bind H b2 w E. apply lift_Ok_inv in E as [Hb2 ->].
  inv_bind H b3 w E. apply lift_Ok_inv in E as [Hb3 ->].
  inv_bind H b4 w E. apply lift_Ok_inv in E as [Hb4 ->].
  inv_bind H u' wb Ew. apply f_write_appended in Ew.
  inv_bind H box' w E. apply lift_Ok_inv in E as [Hs ->].
  apply scale_from_1_Ok in Hs as (cls & xmin & ymin & xmax & ymax & -> & ->).
  apply index_Ok in Hb0, Hb1, Hb2, Hb3, Hb4. simpl in *.
  injection Hb0 as <-. injection Hb1 as <-. injection Hb2 as <-.
  injection Hb3 as <-. injection Hb4 as <-.
  inv_bind H u2 wc E1.
  apply (keeps_fs_Ok _ _ _ _ (keeps_fs_use_module _ _ _ _)) in E1 as Hfc.
  inv_bind H u3 wd E2.
  apply (keeps_fs_Ok _ _ _ _ (keeps_fs_use_module _ _ _ _)) in E2 as Hfd.
  apply (keeps_fs_Ok _ _ _ _ (keeps_fs_cv2_rectangle _ _ _ _ _)) in H as Hfe.
  eexists. split; [reflexivity |].
  eapply (appended_fs _ _ _ wb); [congruence |].
  destruct Ew as [Ha Hb]. split; intros; rewrite <- Hfa in *; eauto.
Qed.

(** Lines 54-58: the line of a detection is written with the coordinates
    the decoder gave, before they are scaled to the image. *)
Lemma draw_detection_Ok g f font scalex scaley img box w0 img' w1 :
  draw_detection g f font scalex scaley img box w0 = (Ok img', w1) →
  ∃ line, detection_line box = Some line ∧ appended f line w0 w1.
Proof.
  unfold draw_detection. intros H.
  inv_bind H u wa E0.
  apply (keeps_fs_Ok _ _ _ _ (keeps_fs_use_callable _ _ _)) in E0 as Hfa.
  inv_bind H b0 w E. apply lift_Ok_inv in E as [Hb0 ->].
  inv_bind H b1 w E. apply lift_Ok_inv in E as [Hb1 ->].
  inv_bind H b2 w E. apply lift_Ok_inv in E as [Hb2 ->].
  inv_bind H b3 w E. apply lift_Ok_inv in E as [Hb3 ->].
  inv_bind H b4 w E. apply lift_Ok_inv in E as [Hb4 ->].
  inv_bind H b5 w E. apply lift_Ok_inv in E as [Hb5 ->].
  inv_bind H u' wb Ew. apply f_write_appended in Ew.
  inv_bind H box' w E. apply lift_Ok_inv in E as [Hs ->].
  apply scale_from_2_Ok in Hs
    as (cls & conf & xmin & ymin & xmax & ymax & -> & ->).
  apply index_Ok in Hb0, Hb1, Hb2, Hb3, Hb4, Hb5. simpl in *.
  injection Hb0 as <-. injection Hb1 as <-. injection Hb2 as <-.
  injection Hb3 as <-. injection Hb4 as <-. injection Hb5 as <-.
  inv_bind H u2 wc E1.
  apply (keeps_fs_Ok _ _ _ _ (keeps_fs_use_module _ _ _ _)) in E1 as Hfc.
  inv_bind H u3 wd E2.
  apply (keeps_fs_Ok _ _ _ _ (keeps_fs_use_module _ _ _ _)) in E2 as Hfd.
  inv_bind H img1 we E3.
  apply (keeps_fs_Ok _ _ _ _ (keeps_fs_cv2_rectangle _ _ _ _ _)) in E3 as Hfe.
  inv_bind H u4 wf E4.
  apply (keeps_fs_Ok _ _ _ _ (keeps_fs_use_module _ _ _ _)) in E4 as Hff.
  inv_bind H b1' w E. apply lift_Ok_inv in E as [_ ->].
  apply (keeps_fs_Ok _ _ _ _ (keeps_fs_cv2_putText _ _ _ _ _ _ _)) in H
    as Hfg.
  eexists. split; [reflexivity |].
  eapply (appended_fs _ _ _ wb); [congruence |].
  destruct Ew as [Ha Hb]. split; intros; rewrite <- Hfa in *; eauto.
Qed.

(** A loop whose body appends a line for each element. *)
Lemma for_each_appended {A S} (body : S → A → M S) (line : A → option string)
    f l :
  (∀ s x w0 s' w1, body s x w0 = (Ok s', w1) →
     ∃ ln, line x = Some ln ∧ appended f ln w0 w1) →
  ∀ s w0 s' w1,
    for_each body s l w0 = (Ok s', w1) →
    ∃ lines, Forall2 (λ x ln, line x = Some ln) l lines
             ∧ appended f (String.concat EmptyString lines) w0 w1.
Proof.
  intros Hbody. induction l as [|x l IH]; intros s w0 s' w1 H.
  - injection H as _ <-. exists []. split; [constructor |].
    by apply appended_nil.
  - apply for_each_cons_Ok in H as (s1 & w & Hb & H).
    apply Hbody in Hb as (ln & Hln & Ha).
    apply IH in H as (lines & Hl & Ha').
    exists (ln :: lines). split; [by constructor |].
    assert (String.concat EmptyString (ln :: lines)
            = ln +:+ String.concat EmptyString lines) as ->.
    { destruct lines; simpl; [by rewrite string_app_nil_r | done]. }
    by eapply appended_trans.
Qed.

Lemma keeps_fs_cv2_imread p : keeps_fs (cv2_imread p).
Proof.
  unfold cv2_imread. apply keeps_fs_bind; [apply keeps_fs_get_fs |].
  intros fs. destruct (fs_lookup fs (path_components p)) as [[c|ch]|];
    apply keeps_fs_ret.
Qed.

(** Inversion of a statement that reads a name or an attribute: the world
    is the same, or at least its file system. *)
Ltac inv_read H a :=
  let w := fresh "w" in
  let E := fresh "E" in
  inv_bind H a w E;
  first
    [ apply lift_Ok_inv in E as [E ->]
    | apply (keeps_fs_Ok _ _ _ _ (keeps_fs_use_module _ _ _ _)) in E;
      rewrite <- ?E in *; clear E
    | apply (keeps_fs_Ok _ _ _ _ (keeps_fs_use_callable _ _ _)) in E;
      rewrite <- ?E in *; clear E ].

(** Lines 40-60 for one image, when they return: the two text files hold
    the lines of the boxes. *)
Lemma eval_image_Ok g self font yp label filename w0 w1 :
  eval_image g self font tt (yp, label, filename) w0 = (Ok tt, w1) →
  ∃ ec gt_lines det_lines,
    self_eval_cfg self = Ok ec
    ∧ Forall2 (λ box ln, groundtruth_line box = Some ln) label gt_lines
    ∧ Forall2 (λ box ln, detection_line box = Some ln) yp det_lines
    ∧ (path_components (detections_path ec filename)
       ≠ path_components (debug_img_path ec filename) →
       read_file (detections_path ec filename) w1
       = (Ok (String.concat EmptyString det_lines), w1))
    ∧ (path_components (groundtruths_path ec filename)
       ≠ path_components (detections_path ec filename) →
       path_components (groundtruths_path ec filename)
       ≠ path_components (debug_img_path ec filename) →
       read_file (groundtruths_path ec filename) w1
       = (Ok (String.concat EmptyString gt_lines), w1)).
Proof.
  unfold eval_image. intros H.
  inv_read H u1. inv_read H u2. inv_read H d0. inv_read H images_dir.
  inv_bind H oimg wa Ei. destruct oimg as [img|]; [| discriminate H].
  inv_read H img_height. inv_read H scaley. inv_read H img_width.
  inv_read H scalex. inv_read H u3. inv_read H u4. inv_read H ec.
  inv_bind H f wb Eo. apply open_w_Ok in Eo as (-> & Hgt & Hgt0 & _).
  fold (groundtruths_path ec filename) in *.
  inv_bind H img1 wc Eg.
  eapply for_each_appended in Eg as (gt_lines & Hgl & [Hg _]);
    [| intros ? ? ? ? ?; apply draw_label_box_Ok].
  apply Hg in Hgt0. simpl in Hgt0.
  inv_read H u5. inv_read H u6. inv_read H ec'.
  assert (ec' = ec) as -> by congruence.
  inv_bind H f wd Eo. apply open_w_Ok in Eo as (-> & Hdet & Hdet0 & Hoth).
  fold (detections_path ec filename) in *.
  inv_bind H img2 we Ed.
  eapply for_each_appended in Ed as (det_lines & Hdl & [Hd Hd']);
    [| intros ? ? ? ? ?; apply draw_detection_Ok].
  apply Hd in Hdet0. simpl in Hdet0.
  inv_read H u7. inv_read H u8. inv_read H ec'.
  assert (ec' = ec) as -> by congruence.
  fold (debug_img_path ec filename) in *. unfold cv2_imwrite in H.
  exists ec, gt_lines, det_lines. split_and!; try done.
  - intros Hne. apply read_file_File; [done |].
    by eapply write_file_other.
  - intros Hne1 Hne2. apply read_file_File; [done |].
    eapply write_file_other; [exact H | | done].
    apply Hd'; [done |]. by apply Hoth.
Qed.

(** X16: when the body of the loop over the images (lines 40-60) returns
    for an image, the detections file of the image holds one line per
    detection, in the order of the decoder, with the class, the
    confidence to four decimals and the coordinates as the decoder gave
    them (on the network input, not scaled to the image); the
    ground-truth file holds one line per labelled box, likewise unscaled.
    This needs the paths of the files that are written later to differ
    from the path of the file that is read back. *)
Theorem eval_image_writes_boxes g self font yp label filename w0 w1 :
  eval_image g self font tt (yp, label, filename) w0 = (Ok tt, w1) →
  ∃ ec gt_lines det_lines,
    self_eval_cfg self = Ok ec
    ∧ Forall2 (λ box ln, groundtruth_line box = Some ln) label gt_lines
    ∧ Forall2 (λ box ln, detection_line box = Some ln) yp det_lines
    ∧ (path_components (detections_path ec filename)
       ≠ path_components (debug_img_path ec filename) →
       read_file (detections_path ec filename) w1
       = (Ok (String.concat EmptyString det_lines), w1))
    ∧ (path_components (groundtruths_path ec filename)
       ≠ path_components (detections_path ec filename) →
       path_components (groundtruths_path ec filename)
       ≠ path_components (debug_img_path ec filename) →
       read_file (groundtruths_path ec filename) w1
       = (Ok (String.concat EmptyString gt_lines), w1)).
Proof. apply eval_image_Ok. Qed.

(** ** The count of images *)

Lemma eval_batch_total g self font total s w0 total' w1 :
  eval_batch g self font total s w0 = (Ok total', w1) →
  ∃ n, len_tensor (s_image s) = Ok n ∧ total' = (total + n)%Z.
Proof.
  unfold eval_batch. intros H.
  inv_read H d. inv_read H u1. inv_read H n. inv_read H m. inv_read H u2.
  inv_read H ec. inv_read H ec'.
  inv_bind H dets wa Ed. inv_read H u3. inv_bind H u4 wb El.
  injection H as <- _. eauto.
Qed.

Lemma eval_loop_total g self font batches : ∀ total w0 total' w1,
  for_each (eval_batch g self font) total batches w0 = (Ok total', w1) →
  ∃ ns, Forall2 (λ s n, len_tensor (s_image s) = Ok n) batches ns
        ∧ total' = (total + foldr Z.add 0 ns)%Z.
Proof.
  induction batches as [|s batches IH]; intros total w0 total' w1 H.
  - injection H as <- _. exists []. split; [constructor | simpl; lia].
  - apply for_each_cons_Ok in H as (t1 & w & Hb & H).
    apply eval_batch_total in Hb as (n & Hn & ->).
    apply IH in H as (ns & Hns & ->).
    exists (n :: ns). split; [by constructor | simpl; lia].
Qed.

(** X17: when [run] returns, the last line it has printed is
    [Total images:] followed by the sum of [len(batch_images)] over the
    batches of the loader, that is of the first dimensions of the image
    tensors. *)
Theorem Eval_run_counts_images g self w0 w1 :
  Eval_run g self w0 = (Ok tt, w1) →
  ∃ ns,
    Forall2 (λ s n, len_tensor (s_image s) = Ok n) (eval_batches self w0) ns
    ∧ last (w_stdout w1)
      = Some ("Total images:  " +:+ pretty (foldr Z.add 0%Z ns)).
Proof.
  unfold Eval_run. intros H.
  inv_bind H u1 wa E1. inv_read H loader.
  inv_bind H it wb Ei. apply iterate_Ok in Ei as (-> & _).
  inv_bind H tot wc El. apply for_each_then_Ok in El as [_ El].
  apply eval_loop_total in El as (ns & Hns & ->).
  inv_read H u2. unfold print in H. injection H as <-.
  exists ns. split.
  - unfold eval_batches.
    assert (wa = w0) as ->.
    { unfold use_module in E1. inv_read E1 v.
      by apply lift_Ok_inv in E1 as [_ ->]. }
    by rewrite E.
  - simpl. by rewrite last_snoc.
Qed.

(** * Further properties of the construction *)

(** X10: when the checkpoint path exists but cannot be loaded (it is a
    directory, its content does not unpickle, or the state it holds does
    not fit the network), [build_model] raises: there is no fallback to
    the freshly initialised parameters.  The file system is as before.
    When the path is a directory and the model name is known, the
    exception is the [IsADirectoryError] of [torch.load]. *)
Theorem build_model_unusable_checkpoint self cfg w0 :
  self_cfg self = Ok cfg →
  path_exists (w_fs w0) (checkpoint_path (cfg_train_cfg cfg)) = true →
  (∀ c sd m,
     fs_lookup (w_fs w0)
       (path_components (checkpoint_path (cfg_train_cfg cfg)))
     = Some (File c) →
     unpickle c = Some sd → module_of_config cfg m →
     load_parameters m sd = None) →
  (∃ e, (build_model self w0).1 = Raise e)
  ∧ w_fs (build_model self w0).2 = w_fs w0
  ∧ (tc_model_name (cfg_train_cfg cfg) = "SSDModel"
     ∨ tc_model_name (cfg_train_cfg cfg) = "Vgg19BaseSSD" →
     ∀ ch,
       fs_lookup (w_fs w0)
         (path_components (checkpoint_path (cfg_train_cfg cfg)))
       = Some (Dir ch) →
       (build_model self w0).1
       = Raise (IsADirectoryError (checkpoint_path (cfg_train_cfg cfg)))).
Proof.
  intros Hcfg Hex Hbad.
  destruct (build_model_unusable _ _ _ Hcfg Hex Hbad) as [He Hfs].
  split_and!; [done | done |].
  intros Hname ch Hdir. eapply build_model_directory; eauto.
  unfold path_exists in Hex. apply andb_true_iff in Hex as [Hne _].
  by apply bool_decide_eq_true_1 in Hne.
Qed.

(** X11: when [checkpoint_dir] is the empty string, or names a regular
    file, the construction of a trainer raises (at the latest in
    [os.makedirs], line 88) and leaves the file system as it was. *)
Theorem Trainer__init___checkpoint_dir_unusable cfg w0 :
  tc_checkpoint_dir (cfg_train_cfg cfg) = EmptyString
  ∨ (∃ s, fs_lookup (w_fs w0)
            (path_components (tc_checkpoint_dir (cfg_train_cfg cfg)))
          = Some (File s)) →
  (∃ e, (Trainer__init__ cfg w0).1 = Raise e)
  ∧ w_fs (Trainer__init__ cfg w0).2 = w_fs w0.
Proof. apply Trainer__init___raises. Qed.

Lemma new_dataset_Raise data_dir file_path tr w0 e :
  read_annotations data_dir file_path (w_fs w0) = Raise e →
  new_dataset data_dir file_path tr w0 = (Raise e, w0).
Proof. intros H. unfold new_dataset. mstep. by rewrite H. Qed.

Lemma new_dataset_Ok_run data_dir file_path tr w0 idx :
  read_annotations data_dir file_path (w_fs w0) = Ok idx →
  new_dataset data_dir file_path tr w0
  = (Ok {| ds_data_dir := data_dir; ds_file_path := file_path;
           ds_transform := tr; ds_index := idx |}, w0).
Proof. intros H. unfold new_dataset. mstep. by rewrite H. Qed.

(** X12: when the annotation file of the training set cannot be read, or
    that of the evaluation set after it, the construction of a trainer
    raises the error of the data set and nothing else has happened: no
    network is built, nothing is printed, and the checkpoint directory is
    not touched. *)
Theorem Trainer__init___unreadable_annotations cfg w0 e :
  read_annotations (tc_data_dir (cfg_train_cfg cfg))
    (tc_train_file_path (cfg_train_cfg cfg)) (w_fs w0) = Raise e
  ∨ (∃ idx,
       read_annotations (tc_data_dir (cfg_train_cfg cfg))
         (tc_train_file_path (cfg_train_cfg cfg)) (w_fs w0) = Ok idx
       ∧ read_annotations (tc_data_dir (cfg_train_cfg cfg))
           (tc_eval_file_path (cfg_train_cfg cfg)) (w_fs w0) = Raise e) →
  Trainer__init__ cfg w0 = (Raise e, w0).
Proof.
  intros H. unfold Trainer__init__, prepare_data.
  change (self_cfg {["cfg" := PyConfig cfg]}) with (Ok cfg).
  rewrite bind_unfold, bind_unfold. unfold lift at 1. cbv beta iota.
  rewrite bind_unfold.
  destruct H as [H | (idx & H1 & H2)].
  - by rewrite (new_dataset_Raise _ _ _ _ _ H).
  - rewrite (new_dataset_Ok_run _ _ _ _ _ H1). cbv beta iota.
    rewrite bind_unfold. by rewrite (new_dataset_Raise _ _ _ _ _ H2).
Qed.

(** X22: when the training set is empty (the annotation files are read,
    and the training data set has length zero), the construction of a
    trainer raises the [ValueError] of the shuffling [DataLoader] of line
    69, whose sampler refuses an empty data set; nothing else has
    happened: nothing is printed, no network is built and the checkpoint
    directory is not touched. *)
Theorem Trainer__init___empty_training_set cfg w0 train_idx eval_idx :
  read_annotations (tc_data_dir (cfg_train_cfg cfg))
    (tc_train_file_path (cfg_train_cfg cfg)) (w_fs w0) = Ok train_idx →
  read_annotations (tc_data_dir (cfg_train_cfg cfg))
    (tc_eval_file_path (cfg_train_cfg cfg)) (w_fs w0) = Ok eval_idx →
  (∀ tr, dataset_len
           {| ds_data_dir := tc_data_dir (cfg_train_cfg cfg);
              ds_file_path := tc_train_file_path (cfg_train_cfg cfg);
              ds_transform := tr; ds_index := train_idx |} = 0%Z) →
  Trainer__init__ cfg w0
  = (Raise (ValueError
              ("num_samples should be a positive integer value, "
               +:+ "but got num_samples=0")), w0).
Proof.
  intros H1 H2 Hlen. unfold Trainer__init__, prepare_data.
  change (self_cfg {["cfg" := PyConfig cfg]}) with (Ok cfg).
  rewrite bind_unfold, bind_unfold. unfold lift at 1. cbv beta iota.
  rewrite bind_unfold, (new_dataset_Ok_run _ _ _ _ _ H1). cbv beta iota.
  rewrite bind_unfold, (new_dataset_Ok_run _ _ _ _ _ H2). cbv beta iota.
  rewrite bind_unfold. unfold new_loader. rewrite Hlen. reflexivity.
Qed.

(** ** Checkpoints accumulate *)

Lemma write_file_keeps_files p c w0 u w1 q c' :
  write_file p c w0 = (Ok u, w1) →
  fs_lookup (w_fs w0) q = Some (File c') →
  ∃ c'', fs_lookup (w_fs w1) q = Some (File c'').
Proof.
  intros H Hq. destruct (decide (q = path_components p)) as [->|Hne].
  - apply write_file_Ok in H as (_ & H & _). eauto.
  - exists c'. by eapply write_file_other.
Qed.

Lemma run_epoch_keeps_files self epoch w0 self' w1 q c :
  run_epoch self epoch w0 = (Ok self', w1) →
  fs_lookup (w_fs w0) q = Some (File c) →
  ∃ c', fs_lookup (w_fs w1) q = Some (File c').
Proof.
  unfold run_epoch. intros H Hq.
  inv_bind H st wa Et. destruct st as [self1 tl].
  apply (keeps_fs_Ok _ _ _ _ (keeps_fs_train_on_epoch _ _)) in Et.
  inv_bind H st wb Ee. destruct st as [self2 el].
  apply (keeps_fs_Ok _ _ _ _ (keeps_fs_evaluate_on_epoch _ _)) in Ee.
  inv_bind H u wc Ep. apply print_Ok_inv in Ep as (Hfs & _).
  inv_bind H t4 w E. apply lift_Ok_inv in E as [_ ->].
  inv_bind H e4 w E. apply lift_Ok_inv in E as [_ ->].
  inv_bind H m w E. apply lift_Ok_inv in E as [_ ->].
  inv_bind H cfg w E. apply lift_Ok_inv in E as [_ ->].
  inv_bind H u' wd Es. injection H as _ <-.
  eapply write_file_keeps_files; [exact Es |]. rewrite Hfs, Ee, Et. exact Hq.
Qed.

Lemma run_loop_files epochs : ∀ self cfg w0 self' w1,
  for_each run_epoch self epochs w0 = (Ok self', w1) →
  self_cfg self = Ok cfg →
  (∀ q c, fs_lookup (w_fs w0) q = Some (File c) →
          ∃ c', fs_lookup (w_fs w1) q = Some (File c'))
  ∧ ∀ epoch, epoch ∈ epochs →
      ∃ x y c,
        fs_lookup (w_fs w1)
          (path_components
             (os_path_join (tc_checkpoint_dir (cfg_train_cfg cfg))
                ("ssd_" +:+ pretty epoch +:+ "_" +:+ format_float4 x
                 +:+ "_" +:+ format_float4 y +:+ ".pth")))
        = Some (File c).
Proof.
  induction epochs as [|e epochs IH]; intros self cfg w0 self' w1 H Hcfg.
  - injection H as _ <-. split; [eauto |]. intros epoch He.
    by apply elem_of_nil in He.
  - apply for_each_cons_Ok in H as (self1 & w & Hb & H).
    pose proof Hb as Hk.
    apply run_epoch_Ok in Hb
      as (_ & m' & cfg' & x & y & _ & _ & _ & _ & Hc & Hc1 & _ & Hf).
    assert (cfg' = cfg) as -> by congruence.
    destruct (IH _ _ _ _ _ H Hc1) as [Hkeep Hnew]. split.
    + intros q c Hq.
      destruct (run_epoch_keeps_files _ _ _ _ _ _ _ Hk Hq) as [c' Hq'].
      by eapply Hkeep.
    + intros epoch He. apply elem_of_cons in He as [-> | He].
      * destruct (Hkeep _ _ Hf) as [c' Hc']. by exists x, y, c'.
      * by apply Hnew.
Qed.

(** ** The losses in the name of a checkpoint *)

(** One iteration of the loop of [run], when it returns: the file is named
    with the two losses of the epoch, which are also the ones printed. *)
Lemma run_epoch_losses self epoch w0 self' w1 :
  run_epoch self epoch w0 = (Ok self', w1) →
  ∃ x y w' m' cfg,
    epoch_losses self epoch w0 x y self' w'
    ∧ self_model self' = Ok m' ∧ mod_training m' = false
    ∧ self_cfg self' = Ok cfg
    ∧ fs_lookup (w_fs w1)
        (path_components
           (os_path_join (tc_checkpoint_dir (cfg_train_cfg cfg))
              (checkpoint_name epoch x y)))
      = Some (File (pickle (mod_state m')))
    ∧ w_stdout w1 = w_stdout w' ++ [epoch_line epoch x y].
Proof.
  unfold run_epoch. intros H.
  inv_bind H st wa Et. destruct st as [self1 tl].
  inv_bind H st wb Ee. destruct st as [self2 el].
  pose proof Et as Et'. pose proof Ee as Ee'.
  apply train_on_epoch_returns in Et'
    as (m & m1 & l & Hm & Hm1 & Hg & _ & _ & _ & Hattr & x & ->).
  apply evaluate_on_epoch_returns in Ee'
    as (m1' & l' & Hm1' & _ & _ & -> & y & ->).
  assert (m1' = m1) as -> by congruence.
  inv_bind H u wc Ep. apply print_Ok_inv in Ep as (Hfs & _ & _ & Hout).
  inv_bind H t4 w E. apply lift_Ok_inv in E as [Ef ->].
  inv_bind H e4 w E. apply lift_Ok_inv in E as [Ef' ->].
  injection Ef as <-. injection Ef' as <-.
  inv_bind H m2 w E. apply lift_Ok_inv in E as [Em ->].
  inv_bind H cfg w E. apply lift_Ok_inv in E as [Ec ->].
  inv_bind H u' wd Es. injection H as <- <-.
  unfold self_model in Em. rewrite getattr_insert in Em.
  injection Em as <-.
  apply write_file_Ok in Es as (_ & Hf & _ & Hout' & _).
  exists x, y, wb, (set_training false m1), cfg. split_and!; try done.
  - by exists self1, wa.
  - unfold self_model. by rewrite getattr_insert.
  - rewrite Hout', Hout. done.
Qed.

(** The loop up to an element, the element, and the rest. *)
Lemma for_each_split {A S} (body : S → A → M S) l1 x l2 s w s' w' :
  for_each body s (l1 ++ x :: l2) w = (Ok s', w') →
  ∃ sa wa sb wb,
    for_each body s l1 w = (Ok sa, wa)
    ∧ body sa x wa = (Ok sb, wb)
    ∧ for_each body sb l2 wb = (Ok s', w').
Proof.
  rewrite for_each_app. intros H. inv_bind H sa wa E1.
  apply for_each_cons_Ok in H as (sb & wb & Hb & H). eauto 10.
Qed.

Lemma seqZ_split (n epoch : Z) :
  (0 ≤ epoch < n)%Z →
  seqZ 0 n = seqZ 0 epoch ++ epoch :: seqZ (epoch + 1) (n - epoch - 1).
Proof.
  intros He. replace n with (epoch + (n - epoch))%Z at 1 by lia.
  rewrite seqZ_app by lia. f_equal. rewrite seqZ_cons by lia.
  repeat (f_equal; try lia).
Qed.

(** The checkpoint of an epoch of [run] at the end of the run. *)
Lemma Trainer_run_epoch_checkpoint self cfg w0 self' w1 epoch :
  self_cfg self = Ok cfg →
  Trainer_run self w0 = (Ok self', w1) →
  (0 ≤ epoch < tc_num_epochs (cfg_train_cfg cfg))%Z →
  ∃ self_a w_a self_b w_b x y c,
    for_each run_epoch self (seqZ 0 epoch) (run_started w0)
    = (Ok self_a, w_a)
    ∧ epoch_losses self_a epoch w_a x y self_b w_b
    ∧ fs_lookup (w_fs w1)
        (path_components
           (os_path_join (tc_checkpoint_dir (cfg_train_cfg cfg))
              (checkpoint_name epoch x y)))
      = Some (File c).
Proof.
  intros Hcfg H He. rewrite (Trainer_run_unfold _ _ _ Hcfg) in H.
  fold (run_started w0) in H.
  rewrite (seqZ_split _ _ He) in H.
  apply for_each_split in H as (sa & wa & sb & wb & H1 & Hb & H2).
  pose proof (run_loop_cfg _ _ _ _ _ H1) as Hca. rewrite Hcfg in Hca.
  apply run_epoch_losses in Hb
    as (x & y & w' & m' & cfg' & Hl & Hm' & _ & Hc' & Hf & _).
  assert (self_cfg sb = Ok cfg) as Hcb.
  { destruct Hl as (s1 & w1' & Et & Ee).
    apply train_on_epoch_returns in Et
      as (_ & _ & _ & _ & _ & _ & _ & _ & _ & Hk & _).
    apply evaluate_on_epoch_returns in Ee as (m0 & _ & _ & _ & _ & Hsb & _).
    rewrite Hsb, self_cfg_model. unfold self_cfg in *. by rewrite Hk. }
  assert (cfg' = cfg) as -> by congruence.
  destruct (run_loop_files _ _ _ _ _ _ H2 Hcb) as [Hkeep _].
  destruct (Hkeep _ _ Hf) as [c Hc].
  by exists sa, wa, sb, w', x, y, c.
Qed.

(** X5: when [run] returns after at least one epoch, the checkpoint
    directory holds the file of the last epoch, [num_epochs - 1].  Its name
    is [ssd_<epoch>_<train loss>_<eval loss>.pth] with the loss that
    [train_on_epoch] returned in that epoch and the loss that
    [evaluate_on_epoch] returned after it (both to four decimals), the
    epoch being run from the instance and the world that the epochs before
    it left.  The file can be read back and holds the pickled [state_dict]
    of the network that the instance holds at the end; that network is in
    evaluation mode, and the last line printed reports the same two
    losses. *)
Theorem Trainer_run_saves_last_model self cfg w0 self' w1 :
  self_cfg self = Ok cfg →
  (0 < tc_num_epochs (cfg_train_cfg cfg))%Z →
  Trainer_run self w0 = (Ok self', w1) →
  ∃ self_a w_a w_b x y m',
    for_each run_epoch self
      (seqZ 0 (tc_num_epochs (cfg_train_cfg cfg) - 1)) (run_started w0)
    = (Ok self_a, w_a)
    ∧ epoch_losses self_a (tc_num_epochs (cfg_train_cfg cfg) - 1) w_a x y
        self' w_b
    ∧ self_model self' = Ok m' ∧ mod_training m' = false
    ∧ read_file
        (os_path_join (tc_checkpoint_dir (cfg_train_cfg cfg))
           (checkpoint_name (tc_num_epochs (cfg_train_cfg cfg) - 1) x y)) w1
      = (Ok (pickle (mod_state m')), w1)
    ∧ last (w_stdout w1)
      = Some (epoch_line (tc_num_epochs (cfg_train_cfg cfg) - 1) x y).
Proof.
  intros Hcfg Hn H. rewrite (Trainer_run_unfold _ _ _ Hcfg) in H.
  fold (run_started w0) in H.
  rewrite (seqZ_snoc _ Hn) in H.
  apply for_each_split in H as (sa & wa & sb & wb & H1 & Hb & H2).
  injection H2 as <- <-.
  pose proof (run_loop_cfg _ _ _ _ _ H1) as Hca. rewrite Hcfg in Hca.
  apply run_epoch_losses in Hb
    as (x & y & w' & m' & cfg' & Hl & Hm' & Ht & Hc' & Hf & Hout).
  assert (self_cfg sb = Ok cfg) as Hcb.
  { destruct Hl as (s1 & w1' & Et & Ee).
    apply train_on_epoch_returns in Et
      as (_ & _ & _ & _ & _ & _ & _ & _ & _ & Hk & _).
    apply evaluate_on_epoch_returns in Ee as (m0 & _ & _ & _ & _ & Hsb & _).
    rewrite Hsb, self_cfg_model. unfold self_cfg in *. by rewrite Hk. }
  assert (cfg' = cfg) as -> by congruence.
  exists sa, wa, w', x, y, m'. split_and!; try done.
  - apply read_file_File; [apply os_path_join_nonempty | done].
  - rewrite Hout. apply last_snoc.
Qed.

(** X18: [run] only adds to the files: when it returns, every regular
    file that existed before is still a regular file, and for each epoch
    [0 <= epoch < num_epochs] the checkpoint directory holds a file
    [ssd_<epoch>_<train loss>_<eval loss>.pth] named with the loss that
    [train_on_epoch] returned in that epoch and the loss that
    [evaluate_on_epoch] returned after it, the epoch being run from the
    instance and the world that the epochs before it left. *)
Theorem Trainer_run_keeps_checkpoints self cfg w0 self' w1 :
  self_cfg self = Ok cfg →
  Trainer_run self w0 = (Ok self', w1) →
  (∀ q c, fs_lookup (w_fs w0) q = Some (File c) →
          ∃ c', fs_lookup (w_fs w1) q = Some (File c'))
  ∧ ∀ epoch, (0 ≤ epoch < tc_num_epochs (cfg_train_cfg cfg))%Z →
      ∃ self_a w_a self_b w_b x y c,
        for_each run_epoch self (seqZ 0 epoch) (run_started w0)
        = (Ok self_a, w_a)
        ∧ epoch_losses self_a epoch w_a x y self_b w_b
        ∧ fs_lookup (w_fs w1)
            (path_components
               (os_path_join (tc_checkpoint_dir (cfg_train_cfg cfg))
                  (checkpoint_name epoch x y)))
          = Some (File c).
Proof.
  intros Hcfg H. split.
  - pose proof H as H'. rewrite (Trainer_run_unfold _ _ _ Hcfg) in H'.
    by destruct (run_loop_files _ _ _ _ _ _ H' Hcfg) as [Hkeep _].
  - intros epoch He. by eapply Trainer_run_epoch_checkpoint.
Qed.

(** ** The checkpoint path after the construction *)

Lemma split_on_nonempty sep s : split_on sep s ≠ [].
Proof.
  destruct s as [|a s]; simpl; [done |].
  destruct (Ascii.eqb a sep); [done |]. by destruct (split_on sep s).
Qed.

Lemma split_on_app_sep sep a b :
  split_on sep (a +:+ String sep b) = split_on sep a ++ split_on sep b.
Proof.
  induction a as [|x a IH].
  - change (EmptyString +:+ String sep b) with (String sep b). simpl.
    by rewrite Ascii.eqb_refl.
  - change (String x a +:+ String sep b) with (String x (a +:+ String sep b)).
    simpl. rewrite IH. destruct (Ascii.eqb x sep); [done |].
    pose proof (split_on_nonempty sep a) as Hne.
    by destruct (split_on sep a).
Qed.

Lemma ends_with_slash_app a :
  ends_with_slash a = true → ∃ a', a = a' +:+ "/".
Proof.
  induction a as [|x a IH]; [done |]. simpl.
  destruct a as [|y a].
  - intros H. apply Ascii.eqb_eq in H as ->. by exists EmptyString.
  - intros H. destruct (IH H) as [a' Ha']. exists (String x a').
    change (String x a' +:+ "/") with (String x (a' +:+ "/")).
    by rewrite <- Ha'.
Qed.

Lemma path_components_app_sep a b :
  path_components (a +:+ String slash b)
  = path_components a ++ path_components b.
Proof. unfold path_components. by rewrite split_on_app_sep, filter_app. Qed.

Lemma path_components_join a b :
  starts_with_slash b = false →
  path_components (os_path_join a b) = path_components a ++ path_components b.
Proof.
  intros Hb. unfold os_path_join. rewrite Hb.
  destruct (decide (a = EmptyString)) as [->|Ha].
  { rewrite bool_decide_eq_true_2 by done. done. }
  rewrite bool_decide_eq_false_2 by done. simpl.
  destruct (ends_with_slash a) eqn:E.
  - apply ends_with_slash_app in E as [a' ->].
    rewrite string_app_assoc.
    change ("/" +:+ b) with (String slash b).
    change (a' +:+ "/") with (a' +:+ String slash EmptyString).
    rewrite !path_components_app_sep.
    change (path_components EmptyString) with (@nil string).
    by rewrite app_nil_r.
  - change ("/" +:+ b) with (String slash b).
    apply path_components_app_sep.
Qed.

Lemma fs_lookup_app p : ∀ n q,
  fs_lookup n (p ++ q) = fs_lookup n p ≫= λ n', fs_lookup n' q.
Proof.
  induction p as [|c p IH]; intros n q; [done |]. simpl.
  destruct n as [s|ch]; [done |]. destruct (ch !! c); [apply IH | done].
Qed.

(** X19: after the construction of a trainer has returned, the checkpoint
    path of the configuration does not exist: the checkpoint that
    [build_model] loaded has been removed with the directory.  This is for
    a checkpoint directory and a file name without [..] components (which
    the model of paths does not interpret), the file name being a relative
    path that names something. *)
Theorem Trainer__init___removes_checkpoint cfg w0 self w1 :
  Trainer__init__ cfg w0 = (Ok self, w1) →
  (".." ∉ path_components (tc_checkpoint_dir (cfg_train_cfg cfg))) →
  (".." ∉ path_components (tc_checkpoint_file (cfg_train_cfg cfg))) →
  starts_with_slash (tc_checkpoint_file (cfg_train_cfg cfg)) = false →
  path_components (tc_checkpoint_file (cfg_train_cfg cfg)) ≠ [] →
  path_exists (w_fs w1) (checkpoint_path (cfg_train_cfg cfg)) = false.
Proof.
  intros H _ _ Hrel Hne.
  apply Trainer__init___Ok in H as (_ & _ & _ & _ & _ & _ & _ & _ & Hdir & _).
  unfold path_exists, checkpoint_path.
  rewrite (path_components_join _ _ Hrel), fs_lookup_app, Hdir. simpl.
  destruct (path_components (tc_checkpoint_file (cfg_train_cfg cfg)))
    as [|c q]; [done |]. simpl. rewrite lookup_empty.
  rewrite (bool_decide_eq_false_2 (is_Some None));
    [apply andb_false_r | by intros [? ?]].
Qed.

(** ** What the constructor establishes *)

(** X20: when the construction of a trainer returns, the instance has
    exactly the seven attributes that [run] and the epochs read; the
    optimizer is a fresh Adam over the parameters the network has after
    the checkpoint (if any) was loaded, the criterion is built from
    [alpha] and [neg_pos_ratio], the training loader shuffles and the
    evaluation loader does not, both with the configured batch size and
    over data sets of the configured directory. *)
Theorem Trainer__init___sets_attributes cfg w0 self w1 :
  Trainer__init__ cfg w0 = (Ok self, w1) →
  dom self
  = list_to_set ["cfg"; "train_loader"; "eval_loader"; "model"; "criterion";
                 "label_encoder"; "optimizer"]
  ∧ ∃ m train_loader eval_loader,
      self_model self = Ok m
      ∧ self_optimizer self = Ok {| adam_moments := adam_init (mod_state m) |}
      ∧ self_criterion self
        = Ok {| loss_alpha := tc_alpha (cfg_train_cfg cfg);
                loss_neg_pos_ratio := tc_neg_pos_ratio (cfg_train_cfg cfg) |}
      ∧ self_loader self "train_loader" = Ok train_loader
      ∧ self_loader self "eval_loader" = Ok eval_loader
      ∧ dl_shuffle train_loader = true ∧ dl_shuffle eval_loader = false
      ∧ dl_batch_size train_loader = tc_batch_size (cfg_train_cfg cfg)
      ∧ dl_batch_size eval_loader = tc_batch_size (cfg_train_cfg cfg).
Proof.
  unfold Trainer__init__. intros H. inv_bind H self1 w E.
  apply prepare_data_Ok in E as (cfg' & train_ds & eval_ds & Hc & ->).
  injection Hc as <-.
  eapply parse_config_Ok in H as (m & x & _ & _ & -> & _);
    [| by rewrite !self_cfg_insert_ne].
  split.
  - rewrite !dom_insert_L, dom_singleton_L. set_solver.
  - eexists m, _, _. split_and!; try reflexivity.
Qed.

(** X21: when the global [img_height] is the integer zero, line 42 divides
    by it: for an image that is read, the body of the loop over the images
    raises [ZeroDivisionError] before a file is opened, and the world is
    as it was. *)
Theorem eval_image_zero_height g self font yp label filename images_dir c
    img w0 :
  lookup_name g "cv2" = Ok (PyModule "cv2") →
  lookup_name g "os" = Ok (PyModule "os") →
  lookup_name g "images_dir" = Ok (PyStr images_dir) →
  fs_lookup (w_fs w0) (path_components (os_path_join images_dir filename))
  = Some (File c) →
  imdecode c = Some img →
  lookup_name g "img_height" = Ok (PyInt 0) →
  eval_image g self font tt (yp, label, filename) w0
  = (Raise ZeroDivisionError, w0).
Proof.
  intros Hcv2 Hos Hdir Hf Himg Hh. unfold eval_image.
  rewrite bind_unfold, (use_module_Ok _ _ _ _ _ Hcv2). cbv beta iota.
  rewrite bind_unfold, (use_module_Ok _ _ _ _ _ Hos). cbv beta iota.
  rewrite Hdir. unfold cv2_imread. mstep. rewrite Hf. mstep.
  rewrite Himg, Hh. reflexivity.
Qed.

End Properties.

(** * The two files on concrete inputs *)

Section Examples.
Import Toy.
#[local] Existing Instance toy_carriers.
#[local] Existing Instance toy_collaborators.

Lemma trainer_built : Trainer__init__ cfg start = (Ok trainer, built).
Proof. vm_compute. reflexivity. Defined.

Lemma trainer_built' : Trainer__init__ cfg start' = (Ok trainer', built').
Proof. vm_compute. reflexivity. Defined.

Lemma trainer_attributes :
  self_label_encoder trainer = Ok trainer_encoder
  ∧ self_criterion trainer = Ok trainer_criterion.
Proof. split; vm_compute; reflexivity. Defined.

Lemma toy_shapes_from_geometry : shapes_from_geometry.
Proof.
  intros m1 m2 x1 x2 _ Hx. simpl. rewrite Hx. reflexivity.
Defined.

(** The trace of [Eval.run] once every name it reads is bound: one call of
    the decoder with three inputs, the ground-truth box in red, the
    detection (10, 20, 110, 220) of the 300 x 300 input drawn in blue at
    (30, 40, 330, 440) on the 600 x 900 image. *)
Lemma Eval_run_example :
  w_trace (Eval_run bound_globals evaluator eval_ready).2
  = [Call_decode_output
       [PyArray {| t_shape := [1; 4]%Z; t_data := 1%Z |}]
       [("conf_thresh", PyFloat 0.5%Q); ("iou_thresh", PyFloat 0.45%Q)];
     Call_cv2_rectangle {| im_h := 600; im_w := 900; im_pixels := [] |}
       (30, 20)%Z (150, 100)%Z (0, 0, 255)%Z 2;
     Call_cv2_rectangle
       {| im_h := 600; im_w := 900;
          im_pixels := [(30, 20, 150, 100)%Z] |}
       (30, 40)%Z (330, 440)%Z (255, 0, 0)%Z 2;
     Call_cv2_putText
       {| im_h := 600; im_w := 900;
          im_pixels := [(30, 20, 150, 100)%Z; (30, 40, 330, 440)%Z] |}
       "9/10" (330, 440)%Z 0 1 (0, 0, 255)%Z 2].
Proof. vm_compute. reflexivity. Qed.

(** C1, counterexample: with the names bound, [run] calls the decoder with
    three inputs, not five. *)
Lemma decoder_called_with_three_inputs :
  prepare_evaluator eval_start = (Ok evaluator, eval_ready)
  ∧ (Eval_run bound_globals evaluator eval_ready).1 = Ok tt
  ∧ (∃ c, c ∈ w_trace (Eval_run bound_globals evaluator eval_ready).2
          ∧ decoder_inputs c = Some 3%nat)
  ∧ ¬ decoder_gets_five_inputs
        (w_trace (Eval_run bound_globals evaluator eval_ready).2).
Proof.
  split; [vm_compute; reflexivity |]. split; [vm_compute; reflexivity |].
  rewrite Eval_run_example. split.
  - eexists. split; [left | reflexivity].
  - intros H. specialize (H _ 3%nat (list_elem_of_here _ _) eq_refl).
    discriminate H.
Qed.

(** C2, witness. *)
Lemma Trainer__init___unknown_model_witness :
  tc_model_name (cfg_train_cfg cfg_resnet) ≠ "SSDModel"
  ∧ tc_model_name (cfg_train_cfg cfg_resnet) ≠ "Vgg19BaseSSD"
  ∧ ∃ e w1,
      Trainer__init__ cfg_resnet start = (Raise e, w1)
      ∧ w_fs w1 = w_fs start ∧ w_rng w1 = w_rng start
      ∧ w_trace w1 = w_trace start
      ∧ ∀ self w',
          prepare_data {["cfg" := PyConfig cfg_resnet]} start
          = (Ok self, w') →
          e = Exception_ "Model name not found!" ∧ w1 = w'.
Proof.
  split; [discriminate |]. split; [discriminate |].
  apply Trainer__init___unknown_model; discriminate.
Defined.

(** C3, witness. *)
Lemma anchor_boxes_generated_once_witness :
  Trainer__init__ cfg start = (Ok trainer, built)
  ∧ ∃ shapes,
      w_trace built
      = w_trace start ++
        [Call_generate_anchor_boxes_model shapes (cfg_scales cfg)
           (cfg_aspect_ratios cfg)]
      ∧ self_label_encoder trainer = Ok (encoder_of_config cfg shapes)
      ∧ ∀ self' : gmap string pyval,
          self_label_encoder self' = Ok (encoder_of_config cfg shapes) →
          (∀ epoch,
             emits (uses_encoder (encoder_of_config cfg shapes))
               (λ r, self_label_encoder r.1
                     = Ok (encoder_of_config cfg shapes))
               (train_on_epoch self' epoch))
          ∧ (∀ epoch,
               emits (uses_encoder (encoder_of_config cfg shapes))
                 (λ r, self_label_encoder r.1
                       = Ok (encoder_of_config cfg shapes))
                 (evaluate_on_epoch self' epoch))
          ∧ emits (uses_encoder (encoder_of_config cfg shapes))
              (λ self'', self_label_encoder self''
                         = Ok (encoder_of_config cfg shapes))
              (Trainer_run self').
Proof.
  split; [exact trainer_built |].
  exact (anchor_boxes_generated_once cfg start built trainer trainer_built).
Defined.

(** C4, witness: two worlds that differ in the generator and in the
    checkpoint that is loaded. *)
Lemma anchor_boxes_deterministic_witness :
  shapes_from_geometry
  ∧ Trainer__init__ cfg start = (Ok trainer, built)
  ∧ Trainer__init__ cfg start' = (Ok trainer', built')
  ∧ ∃ enc,
      self_label_encoder trainer = Ok enc
      ∧ self_label_encoder trainer' = Ok enc
      ∧ ∃ shapes,
          enc_anchor_boxes enc
          = generate_anchor_boxes_model shapes (cfg_scales cfg)
              (cfg_aspect_ratios cfg).
Proof.
  split; [exact toy_shapes_from_geometry |].
  split; [exact trainer_built |]. split; [exact trainer_built' |].
  exact (anchor_boxes_deterministic cfg start start' built built' trainer
           trainer' toy_shapes_from_geometry trainer_built trainer_built').
Defined.

(** C5, counterexample: the evaluation set is empty, the loader yields no
    batch and has length zero, and [evaluate_on_epoch] raises
    [ZeroDivisionError] instead of returning a number. *)
Lemma evaluate_on_epoch_divides_by_zero :
  Trainer__init__ cfg start = (Ok trainer, built)
  ∧ (∃ loader,
       self_loader trainer "eval_loader" = Ok loader
       ∧ (loader_iter loader (w_fs built) (w_rng built)).1 = ([], None)
       ∧ loader_len loader = 0%Z)
  ∧ (evaluate_on_epoch trainer 0 built).1 = Raise ZeroDivisionError.
Proof.
  split; [exact trainer_built |]. split.
  - eexists. split; [vm_compute; reflexivity |].
    split; vm_compute; reflexivity.
  - vm_compute. reflexivity.
Qed.

(** C5, witness: an epoch over the training set of one batch returns the
    loss of that batch divided by one. *)
Lemma epoch_loss_division_witness :
  self_label_encoder trainer = Ok trainer_encoder
  ∧ self_criterion trainer = Ok trainer_criterion
  ∧ ∃ self' w1,
      train_on_epoch trainer 0 built = (Ok (self', PyFloat 2%Q), w1)
      ∧ ∃ loader outputs,
          self_loader trainer "train_loader" = Ok loader
          ∧ loader_len loader ≠ 0%Z
          ∧ length outputs
            = length (loader_iter loader (w_fs built) (w_rng built)).1.1
          ∧ py_truediv
              (accumulated_loss
                 (batch_loss trainer_encoder trainer_criterion
                  <$> zip (loader_iter loader (w_fs built) (w_rng built)).1.1
                        outputs))
              (PyInt (loader_len loader)) = Ok (PyFloat 2%Q).
Proof.
  destruct trainer_attributes as [Henc Hcrit].
  split; [exact Henc |]. split; [exact Hcrit |].
  eexists _, _. split; [vm_compute; reflexivity |].
  eapply (proj1 (epoch_loss_division trainer trainer_encoder
                   trainer_criterion 0 built Henc Hcrit)).
  vm_compute. reflexivity.
Defined.

(** C7, witness. *)
Lemma encoded_targets_per_batch_witness :
  self_label_encoder trainer = Ok trainer_encoder
  ∧ self_criterion trainer = Ok trainer_criterion
  ∧ ∃ self' r w1,
      train_on_epoch trainer 0 built = (Ok (self', r), w1)
      ∧ ∃ loader outputs,
          self_loader trainer "train_loader" = Ok loader
          ∧ length outputs
            = length (loader_iter loader (w_fs built) (w_rng built)).1.1
          ∧ w_trace w1
            = w_trace built ++
              flat_map (batch_calls trainer_encoder trainer_criterion)
                (zip (loader_iter loader (w_fs built) (w_rng built)).1.1
                   outputs)
          ∧ only_model_and_optimizer_updated trainer self'.
Proof.
  destruct trainer_attributes as [Henc Hcrit].
  split; [exact Henc |]. split; [exact Hcrit |].
  eexists _, _, _. split; [vm_compute; reflexivity |].
  eapply (proj1 (encoded_targets_per_batch trainer trainer_encoder
                   trainer_criterion 0 built Henc Hcrit)).
  vm_compute. reflexivity.
Defined.


(** C10, witness. *)
Lemma build_model_missing_checkpoint_witness :
  self_cfg ({["cfg" := PyConfig cfg]} : gmap string pyval) = Ok cfg
  ∧ path_exists (w_fs start) (checkpoint_path (cfg_train_cfg cfg)) = false
  ∧ ∃ m w1,
      new_module "SSDModel" 300 300 2 (cfg_scales cfg)
        (cfg_aspect_ratios cfg) start = (Ok m, w1)
      ∧ build_model {["cfg" := PyConfig cfg]} start
        = (Ok (<["model" := PyModel m]> {["cfg" := PyConfig cfg]}),
           {| w_fs := w_fs start; w_rng := w_rng w1;
              w_stdout :=
                ["Checkpoint file checkpoints/last.pth don't exists"];
              w_trace := [] |}).
Proof.
  assert (self_cfg ({["cfg" := PyConfig cfg]} : gmap string pyval) = Ok cfg)
    as Hcfg by reflexivity.
  assert (path_exists (w_fs start) (checkpoint_path (cfg_train_cfg cfg))
          = false) as Hex by (vm_compute; reflexivity).
  split; [exact Hcfg |]. split; [exact Hex |].
  exact (proj1 (build_model_missing_checkpoint _ cfg start Hcfg Hex)
           (or_introl eq_refl)).
Defined.

End Examples.

(** * Further runs on concrete inputs *)

Section FurtherExamples.
Import Toy ToyRuns.
#[local] Existing Instance toy_carriers.
#[local] Existing Instance run_collaborators.

(** A run that returns, returns its value and leaves its world. *)
Lemma returned {A} (d : A) (m : M A) (w : world) :
  returns (m w) = true → m w = (Ok (value_of d (m w)), (m w).2).
Proof.
  unfold returns, value_of. destruct (m w) as [[a|e] w']; simpl; intros H.
  - reflexivity.
  - discriminate H.
Defined.

Lemma returned_pair {A B} (d : A * B) (m : M (A * B)) (w : world) :
  returns (m w) = true →
  m w = (Ok ((value_of d (m w)).1, (value_of d (m w)).2), (m w).2).
Proof.
  unfold returns, value_of. destruct (m w) as [[[a b]|e] w']; simpl; intros H.
  - reflexivity.
  - discriminate H.
Defined.

Lemma returned_unit (m : M unit) (w : world) :
  returns (m w) = true → m w = (Ok tt, (m w).2).
Proof.
  unfold returns. destruct (m w) as [[[]|e] w']; simpl; intros H.
  - reflexivity.
  - discriminate H.
Defined.

Lemma runner_built : Trainer__init__ cfg run_start = (Ok runner, run_built).
Proof.
  unfold runner, run_built.
  apply (returned ∅ (Trainer__init__ cfg) run_start).
  vm_compute. reflexivity.
Defined.

Lemma runner_cfg : self_cfg runner = Ok cfg.
Proof. vm_compute. reflexivity. Defined.

Lemma runner_epoch :
  train_on_epoch runner 0 run_built
  = (Ok (epoch_trained.1, epoch_trained.2), after_epoch).
Proof.
  unfold epoch_trained, after_epoch.
  apply (returned_pair (∅, PyInt 0) (train_on_epoch runner 0) run_built).
  vm_compute. reflexivity.
Defined.

Lemma runner_evaluated :
  evaluate_on_epoch runner 0 run_built
  = (Ok (evaluated.1, evaluated.2), after_evaluation).
Proof.
  unfold evaluated, after_evaluation.
  apply (returned_pair (∅, PyInt 0) (evaluate_on_epoch runner 0) run_built).
  vm_compute. reflexivity.
Defined.

Lemma runner_trained :
  Trainer_run runner run_built = (Ok trained, after_training).
Proof.
  unfold trained, after_training.
  apply (returned ∅ (Trainer_run runner) run_built).
  vm_compute. reflexivity.
Defined.


Lemma one_epoch : (0 < tc_num_epochs (cfg_train_cfg cfg))%Z.
Proof. reflexivity. Defined.

(** X2, witness: the evaluation set of one image. *)
Lemma evaluate_on_epoch_only_changes_mode_witness :
  evaluate_on_epoch runner 0 run_built
  = (Ok (evaluated.1, evaluated.2), after_evaluation)
  ∧ ∃ m m',
      self_model runner = Ok m ∧ self_model evaluated.1 = Ok m'
      ∧ mod_state m' = mod_state m ∧ mod_grad m' = mod_grad m
      ∧ same_geometry m m' ∧ mod_training m' = false
      ∧ ∀ attr, attr ≠ "model" →
                getattr evaluated.1 attr = getattr runner attr.
Proof.
  split; [exact runner_evaluated |].
  exact (evaluate_on_epoch_only_changes_mode runner 0 run_built _ _ _
           runner_evaluated).
Defined.

(** X3, witness. *)
Lemma train_on_epoch_keeps_network_shape_witness :
  train_on_epoch runner 0 run_built
  = (Ok (epoch_trained.1, epoch_trained.2), after_epoch)
  ∧ ∃ m m' loader,
      self_model runner = Ok m ∧ self_model epoch_trained.1 = Ok m'
      ∧ same_geometry m m' ∧ mod_training m' = true
      ∧ self_loader runner "train_loader" = Ok loader
      ∧ loader_len loader ≠ 0%Z
      ∧ ∀ attr, attr ≠ "model" → attr ≠ "optimizer" →
                getattr epoch_trained.1 attr = getattr runner attr.
Proof.
  split; [exact runner_epoch |].
  exact (train_on_epoch_keeps_network_shape runner 0 run_built _ _ _
           runner_epoch).
Defined.

(** X4, witness: no epoch to run. *)
Lemma Trainer_run_no_epochs_witness :
  self_cfg ({["cfg" := PyConfig cfg_idle]} : gmap string pyval) = Ok cfg_idle
  ∧ (tc_num_epochs (cfg_train_cfg cfg_idle) ≤ 0)%Z
  ∧ Trainer_run {["cfg" := PyConfig cfg_idle]} run_start
    = (Ok {["cfg" := PyConfig cfg_idle]},
       {| w_fs := run_disk; w_rng := 0%nat;
          w_stdout := ["Start train model!"; "Device:  cpu"];
          w_trace := [] |}).
Proof.
  assert (self_cfg ({["cfg" := PyConfig cfg_idle]} : gmap string pyval)
          = Ok cfg_idle) as Hcfg by reflexivity.
  assert (tc_num_epochs (cfg_train_cfg cfg_idle) ≤ 0)%Z as Hn by done.
  split; [exact Hcfg |]. split; [exact Hn |].
  exact (Trainer_run_no_epochs _ cfg_idle run_start Hcfg Hn).
Defined.

(** X5, witness: one epoch, the file [ssd_0_2.0000_0.0000.pth]. *)
Lemma Trainer_run_saves_last_model_witness :
  self_cfg runner = Ok cfg
  ∧ (0 < tc_num_epochs (cfg_train_cfg cfg))%Z
  ∧ Trainer_run runner run_built = (Ok trained, after_training)
  ∧ ∃ self_a w_a w_b x y m',
      for_each run_epoch runner
        (seqZ 0 (tc_num_epochs (cfg_train_cfg cfg) - 1))
        (run_started run_built)
      = (Ok self_a, w_a)
      ∧ epoch_losses self_a (tc_num_epochs (cfg_train_cfg cfg) - 1) w_a x y
          trained w_b
      ∧ self_model trained = Ok m' ∧ mod_training m' = false
      ∧ read_file
          (os_path_join (tc_checkpoint_dir (cfg_train_cfg cfg))
             (checkpoint_name (tc_num_epochs (cfg_train_cfg cfg) - 1) x y))
          after_training
        = (Ok (pickle (mod_state m')), after_training)
      ∧ last (w_stdout after_training)
        = Some (epoch_line (tc_num_epochs (cfg_train_cfg cfg) - 1) x y).
Proof.
  split; [exact runner_cfg |]. split; [exact one_epoch |].
  split; [exact runner_trained |].
  exact (Trainer_run_saves_last_model runner cfg run_built trained
           after_training runner_cfg one_epoch runner_trained).
Defined.


Lemma idle_trainer_cfg : self_cfg idle_trainer = Ok cfg.
Proof. vm_compute. reflexivity. Defined.

Lemma idle_trainer_loader :
  self_loader idle_trainer "eval_loader"
  = Ok {| dl_dataset :=
            {| ds_data_dir := "data"; ds_file_path := "eval.txt";
               ds_transform :=
                 [Augment
                    {| aug_target_size := (300, 300)%Z;
                       aug_random_brightness := None;
                       aug_random_contrast := None;
                       aug_random_saturation := None;
                       aug_random_hue := None;
                       aug_channel_shuffle := None;
                       aug_random_translate := None;
                       aug_random_scale := None; aug_prob := None;
                       aug_train := false |};
                  Transpose; Normalization2 127.5 127.5];
               ds_index := [] |};
          dl_batch_size := 1; dl_shuffle := false |}.
Proof. vm_compute. reflexivity. Defined.

(** X6, witness: the evaluation set is empty. *)
Lemma Trainer_run_empty_loader_witness :
  self_cfg idle_trainer = Ok cfg
  ∧ (0 < tc_num_epochs (cfg_train_cfg cfg))%Z
  ∧ ∃ loader,
      self_loader idle_trainer "eval_loader" = Ok loader
      ∧ loader_len loader = 0%Z
      ∧ (∃ e, (Trainer_run idle_trainer idle_built).1 = Raise e)
      ∧ w_fs (Trainer_run idle_trainer idle_built).2 = w_fs idle_built.
Proof.
  split; [exact idle_trainer_cfg |]. split; [exact one_epoch |].
  eexists. split; [exact idle_trainer_loader |]. split; [reflexivity |].
  exact (Trainer_run_empty_loader idle_trainer cfg "eval_loader" _
           idle_built idle_trainer_cfg (or_intror eq_refl)
           idle_trainer_loader eq_refl one_epoch).
Defined.

(** X7, witness. *)
Lemma Trainer_run_keeps_attributes_witness :
  Trainer_run runner run_built = (Ok trained, after_training)
  ∧ (∀ attr, attr ≠ "model" → attr ≠ "optimizer" →
             getattr trained attr = getattr runner attr)
  ∧ ∀ m, self_model runner = Ok m →
         ∃ m', self_model trained = Ok m' ∧ same_geometry m m'.
Proof.
  split; [exact runner_trained |].
  exact (Trainer_run_keeps_attributes runner run_built trained
           after_training runner_trained).
Defined.



(** X10, witness: no checkpoint file name is configured and the
    checkpoint directory exists, so that the checkpoint path is the
    directory. *)
Lemma build_model_unusable_checkpoint_witness :
  self_cfg ({["cfg" := PyConfig cfg_no_file]} : gmap string pyval)
  = Ok cfg_no_file
  ∧ path_exists (w_fs start) (checkpoint_path (cfg_train_cfg cfg_no_file))
    = true
  ∧ path_isdir (w_fs start) (checkpoint_path (cfg_train_cfg cfg_no_file))
    = true
  ∧ (∃ e, (build_model {["cfg" := PyConfig cfg_no_file]} start).1 = Raise e)
  ∧ w_fs (build_model {["cfg" := PyConfig cfg_no_file]} start).2 = w_fs start
  ∧ (build_model {["cfg" := PyConfig cfg_no_file]} start).1
    = Raise (IsADirectoryError "checkpoints/").
Proof.
  assert (self_cfg ({["cfg" := PyConfig cfg_no_file]} : gmap string pyval)
          = Ok cfg_no_file) as Hcfg by reflexivity.
  assert (path_exists (w_fs start)
            (checkpoint_path (cfg_train_cfg cfg_no_file)) = true) as Hex
    by (vm_compute; reflexivity).
  assert (∀ c sd m,
            fs_lookup (w_fs start)
              (path_components (checkpoint_path (cfg_train_cfg cfg_no_file)))
            = Some (File c) →
            unpickle c = Some sd → module_of_config cfg_no_file m →
            load_parameters m sd = None) as Hbad.
  { intros c sd m Hc. vm_compute in Hc. discriminate Hc. }
  split; [exact Hcfg |]. split; [exact Hex |].
  split; [vm_compute; reflexivity |].
  destruct (build_model_unusable_checkpoint _ cfg_no_file start Hcfg Hex Hbad)
    as (He & Hfs & Hdir).
  split; [exact He |]. split; [exact Hfs |].
  eapply Hdir; [by left |]. vm_compute. reflexivity.
Defined.

(** X11, witness: [checkpoints] is a regular file. *)
Lemma Trainer__init___checkpoint_dir_unusable_witness :
  fs_lookup (w_fs start_checkpoints_file)
    (path_components (tc_checkpoint_dir (cfg_train_cfg cfg)))
  = Some (File "not a directory")
  ∧ (∃ e, (Trainer__init__ cfg start_checkpoints_file).1 = Raise e)
  ∧ w_fs (Trainer__init__ cfg start_checkpoints_file).2
    = w_fs start_checkpoints_file.
Proof.
  assert (fs_lookup (w_fs start_checkpoints_file)
            (path_components (tc_checkpoint_dir (cfg_train_cfg cfg)))
          = Some (File "not a directory")) as Hf by (vm_compute; reflexivity).
  split; [exact Hf |].
  exact (Trainer__init___checkpoint_dir_unusable cfg start_checkpoints_file
           (or_intror (ex_intro _ _ Hf))).
Defined.

(** X12, witness: there is no data directory. *)
Lemma Trainer__init___unreadable_annotations_witness :
  read_annotations (tc_data_dir (cfg_train_cfg cfg))
    (tc_train_file_path (cfg_train_cfg cfg)) (w_fs start_no_data)
  = Raise (FileNotFoundError "data/train.txt")
  ∧ Trainer__init__ cfg start_no_data
    = (Raise (FileNotFoundError "data/train.txt"), start_no_data).
Proof.
  assert (read_annotations (tc_data_dir (cfg_train_cfg cfg))
            (tc_train_file_path (cfg_train_cfg cfg)) (w_fs start_no_data)
          = Raise (FileNotFoundError "data/train.txt")) as Hr
    by (vm_compute; reflexivity).
  split; [exact Hr |].
  exact (Trainer__init___unreadable_annotations cfg start_no_data _
           (or_introl Hr)).
Defined.

(** X18, witness: the file [notes.txt] and the checkpoint of epoch 0. *)
Lemma Trainer_run_keeps_checkpoints_witness :
  self_cfg runner = Ok cfg
  ∧ Trainer_run runner run_built = (Ok trained, after_training)
  ∧ (∀ q c, fs_lookup (w_fs run_built) q = Some (File c) →
            ∃ c', fs_lookup (w_fs after_training) q = Some (File c'))
  ∧ ∀ epoch, (0 ≤ epoch < tc_num_epochs (cfg_train_cfg cfg))%Z →
      ∃ self_a w_a self_b w_b x y c,
        for_each run_epoch runner (seqZ 0 epoch) (run_started run_built)
        = (Ok self_a, w_a)
        ∧ epoch_losses self_a epoch w_a x y self_b w_b
        ∧ fs_lookup (w_fs after_training)
            (path_components
               (os_path_join (tc_checkpoint_dir (cfg_train_cfg cfg))
                  (checkpoint_name epoch x y)))
          = Some (File c).
Proof.
  split; [exact runner_cfg |]. split; [exact runner_trained |].
  exact (Trainer_run_keeps_checkpoints runner cfg run_built trained
           after_training runner_cfg runner_trained).
Defined.

Lemma resumed_built : Trainer__init__ cfg start' = (Ok resumed, after_resume).
Proof.
  unfold resumed, after_resume.
  apply (returned ∅ (Trainer__init__ cfg) start').
  vm_compute. reflexivity.
Defined.

(** X19, witness: the checkpoint [checkpoints/last.pth] is there before
    the construction and not after it. *)
Lemma Trainer__init___removes_checkpoint_witness :
  Trainer__init__ cfg start' = (Ok resumed, after_resume)
  ∧ (".." ∉ path_components (tc_checkpoint_dir (cfg_train_cfg cfg)))
  ∧ (".." ∉ path_components (tc_checkpoint_file (cfg_train_cfg cfg)))
  ∧ starts_with_slash (tc_checkpoint_file (cfg_train_cfg cfg)) = false
  ∧ path_components (tc_checkpoint_file (cfg_train_cfg cfg)) ≠ []
  ∧ path_exists (w_fs start') (checkpoint_path (cfg_train_cfg cfg)) = true
  ∧ path_exists (w_fs after_resume) (checkpoint_path (cfg_train_cfg cfg))
    = false.
Proof.
  assert (".." ∉ path_components (tc_checkpoint_dir (cfg_train_cfg cfg)))
    as Hd by (vm_compute; intros Hin; inversion Hin as [| ? ? ? Hin'];
              inversion Hin').
  assert (".." ∉ path_components (tc_checkpoint_file (cfg_train_cfg cfg)))
    as Hf by (vm_compute; intros Hin; inversion Hin as [| ? ? ? Hin'];
              inversion Hin').
  assert (path_components (tc_checkpoint_file (cfg_train_cfg cfg)) ≠ [])
    as Hne by (vm_compute; discriminate).
  split; [exact resumed_built |]. split; [exact Hd |]. split; [exact Hf |].
  split; [reflexivity |].
  split; [exact Hne |]. split; [vm_compute; reflexivity |].
  exact (Trainer__init___removes_checkpoint cfg start' resumed after_resume
           resumed_built Hd Hf eq_refl Hne).
Defined.

(** X14, witness: [cv2] is bound and the loader is over an empty data
    set. *)
Lemma Eval_run_no_batches_witness :
  lookup_name cv2_globals "cv2" = Ok (PyModule "cv2")
  ∧ lookup_name cv2_globals "print" = Ok (PyCallable "builtins.print")
  ∧ self_loader idle_evaluator "eval_loader" = Ok empty_loader
  ∧ loader_iter empty_loader (w_fs eval_start) (w_rng eval_start)
    = ([], None, 0%nat)
  ∧ Eval_run cv2_globals idle_evaluator eval_start
    = (Ok tt,
       {| w_fs := eval_disk; w_rng := 0%nat;
          w_stdout := ["Total images:  0"]; w_trace := [] |}).
Proof.
  assert (lookup_name cv2_globals "cv2" = Ok (PyModule "cv2")) as H1
    by reflexivity.
  assert (lookup_name cv2_globals "print" = Ok (PyCallable "builtins.print"))
    as H2 by (vm_compute; reflexivity).
  assert (self_loader idle_evaluator "eval_loader" = Ok empty_loader) as H3
    by reflexivity.
  assert (loader_iter empty_loader (w_fs eval_start) (w_rng eval_start)
          = ([], None, 0%nat)) as H4 by reflexivity.
  split; [exact H1 |]. split; [exact H2 |]. split; [exact H3 |].
  split; [exact H4 |].
  exact (Eval_run_no_batches cv2_globals idle_evaluator empty_loader 0%nat
           eval_start H1 H2 H3 H4).
Defined.

(** X15, witness: the image [missing.jpg] is not in the images
    directory. *)
Lemma eval_image_unreadable_witness :
  lookup_name bound_globals "cv2" = Ok (PyModule "cv2")
  ∧ lookup_name bound_globals "os" = Ok (PyModule "os")
  ∧ lookup_name bound_globals "images_dir" = Ok (PyStr "images")
  ∧ fs_lookup (w_fs eval_ready)
      (path_components (os_path_join "images" "missing.jpg")) = None
  ∧ eval_image bound_globals ready_evaluator 0 tt
      (a_detections, a_labels, "missing.jpg") eval_ready
    = (Raise (AttributeError "shape"), eval_ready).
Proof.
  assert (lookup_name bound_globals "cv2" = Ok (PyModule "cv2")) as H1
    by (vm_compute; reflexivity).
  assert (lookup_name bound_globals "os" = Ok (PyModule "os")) as H2
    by (vm_compute; reflexivity).
  assert (lookup_name bound_globals "images_dir" = Ok (PyStr "images")) as H3
    by (vm_compute; reflexivity).
  assert (fs_lookup (w_fs eval_ready)
            (path_components (os_path_join "images" "missing.jpg")) = None)
    as H4 by (vm_compute; reflexivity).
  split; [exact H1 |]. split; [exact H2 |]. split; [exact H3 |].
  split; [exact H4 |].
  apply (eval_image_unreadable bound_globals ready_evaluator 0 a_detections
           a_labels "missing.jpg" "images" eval_ready H1 H2 H3).
  intros c Hc. rewrite H4 in Hc. discriminate Hc.
Defined.

Lemma image_evaluated :
  eval_image bound_globals ready_evaluator 0 tt
    (a_detections, a_labels, "a.jpg") eval_ready
  = (Ok tt, after_image).
Proof.
  unfold after_image.
  apply (returned_unit
           (eval_image bound_globals ready_evaluator 0 tt
              (a_detections, a_labels, "a.jpg")) eval_ready).
  vm_compute. reflexivity.
Defined.

(** X16, witness: the image [a.jpg] with one labelled box and one
    detection. *)
Lemma eval_image_writes_boxes_witness :
  eval_image bound_globals ready_evaluator 0 tt
    (a_detections, a_labels, "a.jpg") eval_ready
  = (Ok tt, after_image)
  ∧ ∃ ec gt_lines det_lines,
      self_eval_cfg ready_evaluator = Ok ec
      ∧ Forall2 (λ box ln, groundtruth_line box = Some ln) a_labels gt_lines
      ∧ Forall2 (λ box ln, detection_line box = Some ln) a_detections
          det_lines
      ∧ (path_components (detections_path ec "a.jpg")
         ≠ path_components (debug_img_path ec "a.jpg") →
         read_file (detections_path ec "a.jpg") after_image
         = (Ok (String.concat EmptyString det_lines), after_image))
      ∧ (path_components (groundtruths_path ec "a.jpg")
         ≠ path_components (detections_path ec "a.jpg") →
         path_components (groundtruths_path ec "a.jpg")
         ≠ path_components (debug_img_path ec "a.jpg") →
         read_file (groundtruths_path ec "a.jpg") after_image
         = (Ok (String.concat EmptyString gt_lines), after_image)).
Proof.
  split; [exact image_evaluated |].
  exact (eval_image_writes_boxes bound_globals ready_evaluator 0 a_detections
           a_labels "a.jpg" eval_ready after_image image_evaluated).
Defined.

Lemma evaluation_returns :
  Eval_run bound_globals ready_evaluator eval_ready = (Ok tt, after_eval).
Proof.
  unfold after_eval.
  apply (returned_unit (Eval_run bound_globals ready_evaluator) eval_ready).
  vm_compute. reflexivity.
Defined.

(** X17, witness: one batch of one image. *)
Lemma Eval_run_counts_images_witness :
  Eval_run bound_globals ready_evaluator eval_ready = (Ok tt, after_eval)
  ∧ ∃ ns,
      Forall2 (λ s n, len_tensor (s_image s) = Ok n)
        (eval_batches ready_evaluator eval_ready) ns
      ∧ last (w_stdout after_eval)
        = Some ("Total images:  " +:+ pretty (foldr Z.add 0%Z ns)).
Proof.
  split; [exact evaluation_returns |].
  exact (Eval_run_counts_images bound_globals ready_evaluator eval_ready
           after_eval evaluation_returns).
Defined.

(** X20, witness. *)
Lemma Trainer__init___sets_attributes_witness :
  Trainer__init__ cfg run_start = (Ok runner, run_built)
  ∧ dom runner
    = list_to_set ["cfg"; "train_loader"; "eval_loader"; "model";
                   "criterion"; "label_encoder"; "optimizer"]
  ∧ ∃ m train_loader eval_loader,
      self_model runner = Ok m
      ∧ self_optimizer runner
        = Ok {| adam_moments := adam_init (mod_state m) |}
      ∧ self_criterion runner
        = Ok {| loss_alpha := tc_alpha (cfg_train_cfg cfg);
                loss_neg_pos_ratio := tc_neg_pos_ratio (cfg_train_cfg cfg) |}
      ∧ self_loader runner "train_loader" = Ok train_loader
      ∧ self_loader runner "eval_loader" = Ok eval_loader
      ∧ dl_shuffle train_loader = true ∧ dl_shuffle eval_loader = false
      ∧ dl_batch_size train_loader = tc_batch_size (cfg_train_cfg cfg)
      ∧ dl_batch_size eval_loader = tc_batch_size (cfg_train_cfg cfg).
Proof.
  split; [exact runner_built |].
  exact (Trainer__init___sets_attributes cfg run_start runner run_built
           runner_built).
Defined.

(** X21, witness: the image [a.jpg] is read, and [img_height] is zero. *)
Lemma eval_image_zero_height_witness :
  lookup_name zero_height_globals "cv2" = Ok (PyModule "cv2")
  ∧ lookup_name zero_height_globals "os" = Ok (PyModule "os")
  ∧ lookup_name zero_height_globals "images_dir" = Ok (PyStr "images")
  ∧ fs_lookup (w_fs eval_ready)
      (path_components (os_path_join "images" "a.jpg"))
    = Some (File "jpeg")
  ∧ imdecode "jpeg" = Some {| im_h := 600; im_w := 900; im_pixels := [] |}
  ∧ lookup_name zero_height_globals "img_height" = Ok (PyInt 0)
  ∧ eval_image zero_height_globals ready_evaluator 0 tt
      (a_detections, a_labels, "a.jpg") eval_ready
    = (Raise ZeroDivisionError, eval_ready).
Proof.
  assert (lookup_name zero_height_globals "cv2" = Ok (PyModule "cv2")) as H1
    by (vm_compute; reflexivity).
  assert (lookup_name zero_height_globals "os" = Ok (PyModule "os")) as H2
    by (vm_compute; reflexivity).
  assert (lookup_name zero_height_globals "images_dir" = Ok (PyStr "images"))
    as H3 by (vm_compute; reflexivity).
  assert (fs_lookup (w_fs eval_ready)
            (path_components (os_path_join "images" "a.jpg"))
          = Some (File "jpeg")) as H4 by (vm_compute; reflexivity).
  assert (imdecode "jpeg"
          = Some {| im_h := 600; im_w := 900; im_pixels := [] |}) as H5
    by reflexivity.
  assert (lookup_name zero_height_globals "img_height" = Ok (PyInt 0)) as H6
    by (vm_compute; reflexivity).
  split; [exact H1 |]. split; [exact H2 |]. split; [exact H3 |].
  split; [exact H4 |]. split; [exact H5 |]. split; [exact H6 |].
  exact (eval_image_zero_height zero_height_globals ready_evaluator 0
           a_detections a_labels "a.jpg" "images" "jpeg" _ eval_ready
           H1 H2 H3 H4 H5 H6).
Defined.

(** X22, witness: the annotation file of the training set is empty. *)
Lemma Trainer__init___empty_training_set_witness :
  read_annotations (tc_data_dir (cfg_train_cfg cfg))
    (tc_train_file_path (cfg_train_cfg cfg)) (w_fs start_empty_training_set)
  = Ok []
  ∧ read_annotations (tc_data_dir (cfg_train_cfg cfg))
      (tc_eval_file_path (cfg_train_cfg cfg)) (w_fs start_empty_training_set)
    = Ok ["b.jpg"]
  ∧ Trainer__init__ cfg start_empty_training_set
    = (Raise (ValueError
                ("num_samples should be a positive integer value, "
                 +:+ "but got num_samples=0")), start_empty_training_set).
Proof.
  assert (read_annotations (tc_data_dir (cfg_train_cfg cfg))
            (tc_train_file_path (cfg_train_cfg cfg))
            (w_fs start_empty_training_set) = Ok []) as H1
    by (vm_compute; reflexivity).
  assert (read_annotations (tc_data_dir (cfg_train_cfg cfg))
            (tc_eval_file_path (cfg_train_cfg cfg))
            (w_fs start_empty_training_set) = Ok ["b.jpg"]) as H2
    by (vm_compute; reflexivity).
  split; [exact H1 |]. split; [exact H2 |].
  exact (Trainer__init___empty_training_set cfg start_empty_training_set
           [] ["b.jpg"] H1 H2 (λ _, eq_refl)).
Defined.

End FurtherExamples.
